(** * ModelForge: prompt classifier, detail injection, export fallback chain,
      model generation and the asynchronous generation task

    A shallow embedding of the parts of the ModelForge sources that the
    specification talks about:
    - [instance/ai_modules/advanced_generator.py]: [_analyze_prompt],
      [_estimate_complexity], [_generate_base_shape], [_add_details],
      [_procedural_generation];
    - [instance/ai_modules/export_engine.py]: [export_model];
    - [file_converter.py]: [find_blender_executable], [convert_with_blender],
      [convert_to_fbx], [convert_to_blend];
    - [model_generator.py]: [generate_3d_model];
    - [tasks.py]: [generate_3d_model_task].

    Python [str] values are modelled by [string]; one character of the model
    is one character of the Python string (the Latin-1 range).  Python
    exceptions are values of [exn]; a call that may raise returns a [result].
    Calls into external collaborators (trimesh, the Blender binary, the
    database session, the task-state store) are answered by a [world] record
    of oracles and recorded, in order, in a trace of [event]s. *)

From Stdlib Require Import ZArith QArith String Ascii List Bool Lia.
From stdpp Require Import base option list strings gmap pretty.

Local Open Scope string_scope.
Local Open Scope Z_scope.

(** ** Python strings *)

Module PyStr.

(** [str.lower] on one character: A-Z and the Latin-1 capitals (except the
    multiplication sign) move up by 32, every other character is kept. *)
Definition lower_char (c : ascii) : ascii :=
  let n := nat_of_ascii c in
  if ((65 <=? n)%nat && (n <=? 90)%nat)
     || ((192 <=? n)%nat && (n <=? 222)%nat && negb (n =? 215)%nat)
  then ascii_of_nat (n + 32) else c.

Fixpoint lower (s : string) : string :=
  match s with
  | EmptyString => EmptyString
  | String c rest => String (lower_char c) (lower rest)
  end.

(** [needle in hay]. *)
Fixpoint contains (needle hay : string) : bool :=
  String.prefix needle hay
  || match hay with
     | EmptyString => false
     | String _ rest => contains needle rest
     end.

(** The characters [str.strip] removes: tab to carriage return, the four
    separators 0x1c-0x1f, space, NEL and the no-break space. *)
Definition is_space (c : ascii) : bool :=
  let n := nat_of_ascii c in
  ((9 <=? n)%nat && (n <=? 13)%nat) || ((28 <=? n)%nat && (n <=? 32)%nat)
  || (n =? 133)%nat || (n =? 160)%nat.

Fixpoint lstrip (s : string) : string :=
  match s with
  | EmptyString => EmptyString
  | String c rest => if is_space c then lstrip rest else s
  end.

Fixpoint rstrip (s : string) : string :=
  match s with
  | EmptyString => EmptyString
  | String c rest =>
      match rstrip rest with
      | EmptyString => if is_space c then EmptyString else String c EmptyString
      | kept => String c kept
      end
  end.

Definition strip (s : string) : string := rstrip (lstrip s).

(** [s[:n]]. *)
Fixpoint slice_to (n : nat) (s : string) : string :=
  match n, s with
  | S k, String c rest => String c (slice_to k rest)
  | _, _ => EmptyString
  end.

(** [s.split('\n')[0]]: the text before the first line feed. *)
Fixpoint first_line (s : string) : string :=
  match s with
  | EmptyString => EmptyString
  | String c rest =>
      if (nat_of_ascii c =? 10)%nat then EmptyString else String c (first_line rest)
  end.

(** [s.replace(old, new)]: left to right, occurrences that do not overlap.
    [skip] counts the characters of a matched occurrence still to drop. *)
Fixpoint replace_from (old new : string) (skip : nat) (s : string) : string :=
  match s with
  | EmptyString => EmptyString
  | String c rest =>
      match skip with
      | S k => replace_from old new k rest
      | O =>
          if String.prefix old s
          then new +:+ replace_from old new (String.length old - 1) rest
          else String c (replace_from old new O rest)
      end
  end.

(** The sources only replace a pattern that is not empty. *)
Definition replace (old new s : string) : string := replace_from old new O s.

(** [str.upper] on the ASCII letters (the sources apply it to the format
    names fbx and blend). *)
Definition upper_char (c : ascii) : ascii :=
  let n := nat_of_ascii c in
  if (97 <=? n)%nat && (n <=? 122)%nat then ascii_of_nat (n - 32) else c.

Fixpoint upper (s : string) : string :=
  match s with
  | EmptyString => EmptyString
  | String c rest => String (upper_char c) (upper rest)
  end.

(** Truthiness of a string: [bool(s)]. *)
Definition truthy (s : string) : bool :=
  match s with EmptyString => false | String _ _ => true end.

(** [any(k in text for k in keywords)]. *)
Definition any_in (keywords : list string) (text : string) : bool :=
  existsb (fun k => contains k text) keywords.

End PyStr.

(** ** advanced_generator.py: the prompt classifier *)

Module Classifier.
Import PyStr.

(** The dict returned by [_analyze_prompt]. *)
Record shape_info := ShapeInfo {
  shape_type : string;
  style : string;
  size : string;
  complexity : Z;
  symmetry : string;
  organic : string
}.

(** A dict literal with list values, in insertion order (the order in
    which [dict.items()] yields it). *)
Definition keyword_table := list (string * list string).

Definition shape_types : keyword_table :=
  [ ("vehicle", ["car"; "truck"; "motorcycle"; "bike"; "vehicle"; "automobile";
                 "spaceship"; "rocket"; "ship"; "boat"; "airplane"; "plane";
                 "helicopter"]);
    ("building", ["house"; "building"; "castle"; "tower"; "skyscraper";
                  "cottage"; "mansion"; "apartment"; "office"]);
    ("furniture", ["chair"; "table"; "desk"; "bed"; "sofa"; "couch"; "cabinet";
                   "shelf"; "lamp"]);
    ("character", ["person"; "human"; "robot"; "animal"; "creature"; "monster";
                   "dragon"]);
    ("weapon", ["sword"; "gun"; "rifle"; "pistol"; "knife"; "axe"; "bow";
                "arrow"]);
    ("nature", ["tree"; "flower"; "plant"; "rock"; "mountain"; "crystal"; "gem"]);
    ("abstract", ["abstract"; "geometric"; "sculpture"; "art"; "design"]) ].

Definition styles : keyword_table :=
  [ ("realistic", ["realistic"; "photorealistic"; "detailed"; "accurate"]);
    ("stylized", ["stylized"; "cartoon"; "anime"; "comic"; "artistic"]);
    ("low_poly", ["low poly"; "low-poly"; "minimal"; "simple"; "geometric"]);
    ("sci_fi", ["sci-fi"; "futuristic"; "cyberpunk"; "space"; "alien"]);
    ("fantasy", ["fantasy"; "magical"; "medieval"; "ancient"; "mythical"]) ].

Definition size_keywords : keyword_table :=
  [ ("tiny", ["tiny"; "small"; "miniature"; "mini"]);
    ("normal", ["normal"; "standard"; "regular"]);
    ("large", ["large"; "big"; "huge"; "massive"; "giant"]) ].

(** The loop
    [detected = default; for name, keywords in table.items():
       if any(k in text for k in keywords): detected = name; break]. *)
Fixpoint detect (table : keyword_table) (text default : string) : string :=
  match table with
  | [] => default
  | (name, keywords) :: rest =>
      if any_in keywords text then name else detect rest text default
  end.

Definition detail_words : list string :=
  ["detailed"; "complex"; "intricate"; "elaborate"; "ornate"; "decorated";
   "patterned"].

Definition simple_words : list string :=
  ["simple"; "basic"; "minimal"; "clean"; "plain"].

(** [sum(1 for word in words if word in text)]. *)
Definition count_present (words : list string) (text : string) : Z :=
  fold_left (fun acc word => if contains word text then acc + 1 else acc) words 0.

Definition _estimate_complexity (prompt : string) : Z :=
  let prompt_lower := lower prompt in
  let detail_count := count_present detail_words prompt_lower in
  let simple_count := count_present simple_words prompt_lower in
  let base_complexity := 5 in
  let complexity := base_complexity + detail_count - simple_count in
  Z.max 1 (Z.min 10 complexity).

Definition _analyze_prompt (prompt : string) : shape_info :=
  let prompt_lower := lower prompt in
  let detected_shape := detect shape_types prompt_lower "abstract" in
  let detected_style := detect styles prompt_lower "realistic" in
  let detected_size := detect size_keywords prompt_lower "normal" in
  {| shape_type := detected_shape;
     style := detected_style;
     size := detected_size;
     complexity := _estimate_complexity prompt;
     symmetry := if any_in ["symmetric"; "balanced"; "even"] prompt_lower
                 then "symmetric" else "asymmetric";
     organic := if any_in ["organic"; "natural"; "curved"; "flowing"] prompt_lower
                then "organic" else "geometric" |}.

(** What the specification says of the complexity estimate: the words of a
    list that are present in the text are counted, and the sum is clamped
    into the interval from 1 to 10. *)
Definition present_words (words : list string) (text : string) : list string :=
  filter (fun word => contains word text = true) words.

Definition clamp_1_10 (x : Z) : Z :=
  if x <? 1 then 1 else if 10 <? x then 10 else x.

Definition spec_complexity (prompt : string) : Z :=
  clamp_1_10 (5 + Z.of_nat (length (present_words detail_words (lower prompt)))
                - Z.of_nat (length (present_words simple_words (lower prompt)))).

End Classifier.

(** ** Python exceptions *)

(** The exception classes the sources raise or tell apart in an [except]
    clause, and [SQLAlchemyError] for what the database session raises
    ([IntegrityError], [OperationalError], [PendingRollbackError], which no
    clause of the sources tells apart).  Each of them is a subclass of
    [Exception], so a clause [except Exception] (and a bare [except])
    catches all of them. *)
Inductive exn : Type :=
| Exception (msg : string)
| ValueError (msg : string)
| TimeoutExpired (msg : string)
| SQLAlchemyError (msg : string).

(** [str(e)]. *)
Definition str_exn (e : exn) : string :=
  match e with
  | Exception msg | ValueError msg | TimeoutExpired msg
  | SQLAlchemyError msg => msg
  end.

(** The outcome of a call: a value, or an exception on its way up. *)
Inductive result (A : Type) : Type :=
| Ok (value : A)
| Raise (e : exn).
Arguments Ok {A} value.
Arguments Raise {A} e.

(** ** trimesh meshes *)

Module Trimesh.

Definition vec3 : Type := Q * Q * Q.

(** What a mesh is made from: the primitives of [trimesh.creation] that the
    embedded code builds itself, and vertex and face arrays handed to
    [trimesh.Trimesh(vertices=..., faces=...)] or read from a file, named by
    a handle. *)
Inductive primitive : Type :=
| box (extents : vec3)
| uv_sphere (radius : Q)
| cylinder (radius height : Q)
| arrays (handle : nat).

(** Operations on the vertices of a mesh. [Jitter sigma n] adds the array
    that draw [n] of [np.random.normal(0, sigma, shape)] returned. *)
Inductive vertex_op : Type :=
| Translate (by_ : vec3)
| Scale (factors : vec3)
| Jitter (sigma : Q) (draw : nat).

(** One connected piece: a primitive and the operations applied to it, the
    oldest first. *)
Record part : Type := Part {
  geometry : primitive;
  applied : list vertex_op
}.

(** A mesh is the sequence of its pieces; [trimesh.util.concatenate] merges
    the vertex and face buffers of its arguments in order. *)
Definition mesh : Type := list part.

Definition creation (g : primitive) : mesh := [Part g []].

Definition apply_op (op : vertex_op) (m : mesh) : mesh :=
  map (fun p => Part (geometry p) (applied p ++ [op])%list) m.

Definition apply_translation (m : mesh) (v : vec3) : mesh := apply_op (Translate v) m.
Definition apply_scale (m : mesh) (v : vec3) : mesh := apply_op (Scale v) m.

Definition concatenate (meshes : list mesh) : mesh := concat meshes.

(** [len(mesh.faces)] is a number the model does not compute; it only
    matters to [_simplify_mesh], whose two branches return the same mesh. *)

End Trimesh.

(** ** advanced_generator.py: the procedural pipeline *)

Module Procedural.
Import PyStr Classifier Trimesh.

Inductive GenerationEngine : Type :=
| PROCEDURAL | AI_ENHANCED | HYBRID | TEXTURE_GENERATED.

(** The dataclass [GenerationConfig].  It is a mutable object: a callee that
    assigns to a field changes the caller's config, so the functions below
    that assign return the config next to their result. *)
Record GenerationConfig : Type := Config {
  engine : GenerationEngine;
  complexity : Z;
  detail_level : Z;
  material_style : string;
  generate_textures : bool;
  generate_materials : bool;
  variations : Z;
  seed : option Z
}.

(** The state of the two random generators: how many draws each has made. *)
Record rng : Type := Rng {
  py_draws : nat;   (* random.uniform *)
  np_draws : nat    (* np.random.*, which mesh.sample uses *)
}.

(** The collaborators of the pipeline.
    - [generate_geometry prompt image]: what the [try] block at the top of
      [_procedural_generation] yields: [Ok (Some a)] when the geometry
      generator reports success and [trimesh.Trimesh(vertices, faces)] is
      built from its arrays [a], [Ok None] when it reports no success, and
      [Raise e] when the call or the construction raises.
    - the seven [_generate_*_shape] methods, by style and scale.  They take
      the config as an argument and neither read nor assign it.
    - [sample_surface m n]: [m.sample(1)[0]] at draw [n];
      [uniform a b n]: [random.uniform(a, b)] at draw [n];
      [np_uniform3 a b n]: [np.random.uniform(a, b, 3)] at draw [n]. *)
Record world : Type := World {
  generate_geometry : string -> option string -> result (option primitive);
  _generate_vehicle_shape : string -> Q -> mesh;
  _generate_building_shape : string -> Q -> mesh;
  _generate_furniture_shape : string -> Q -> mesh;
  _generate_character_shape : string -> Q -> mesh;
  _generate_weapon_shape : string -> Q -> mesh;
  _generate_nature_shape : string -> Q -> mesh;
  _generate_abstract_shape : string -> Q -> mesh;
  sample_surface : mesh -> nat -> vec3;
  uniform : Q -> Q -> nat -> Q;
  np_uniform3 : Q -> Q -> nat -> vec3
}.

Section Pipeline.
Variable w : world.

Definition size_multiplier (size : string) : Q :=
  if String.eqb size "tiny" then (5 # 10)%Q
  else if String.eqb size "normal" then 1%Q
  else if String.eqb size "large" then 2%Q
  else 1%Q.

(** [_generate_base_shape]: the first two statements assign the caller's
    config ("Reduce complexity for Roblox"). *)
Definition _generate_base_shape (info : shape_info) (config : GenerationConfig)
  : mesh * GenerationConfig :=
  let config :=
    {| engine := engine config;
       complexity := Z.min (complexity config) 5;
       detail_level := Z.min (detail_level config) 5;
       material_style := material_style config;
       generate_textures := generate_textures config;
       generate_materials := generate_materials config;
       variations := variations config;
       seed := seed config |} in
  let shape_type := Classifier.shape_type info in
  let style := Classifier.style info in
  let scale := size_multiplier (Classifier.size info) in
  let shape :=
    if String.eqb shape_type "vehicle" then _generate_vehicle_shape w style scale
    else if String.eqb shape_type "building" then _generate_building_shape w style scale
    else if String.eqb shape_type "furniture" then _generate_furniture_shape w style scale
    else if String.eqb shape_type "character" then _generate_character_shape w style scale
    else if String.eqb shape_type "weapon" then _generate_weapon_shape w style scale
    else if String.eqb shape_type "nature" then _generate_nature_shape w style scale
    else _generate_abstract_shape w style scale in
  (shape, config).

(** The loop of [_add_surface_details]: [count] bumps, each a sphere of
    radius 0.05 moved to a point sampled on the surface of [m]. *)
Fixpoint surface_bumps (count : nat) (m : mesh) (r : rng) : list mesh * rng :=
  match count with
  | O => ([], r)
  | S k =>
      let point := sample_surface w m (np_draws r) in
      let r := {| py_draws := py_draws r; np_draws := S (np_draws r) |} in
      let bump := apply_translation (creation (uv_sphere (5 # 100))) point in
      let (details, r) := surface_bumps k m r in
      (bump :: details, r)
  end.

Definition _add_surface_details (m : mesh) (config : GenerationConfig) (r : rng)
  : mesh * rng :=
  let (details, r) := surface_bumps 20 m r in
  match details with
  | [] => (m, r)
  | _ => (concatenate ([m] ++ details)%list, r)
  end.

(** The five panel lines, for [i] in [range(5)]. *)
Definition panel (i : Z) : mesh :=
  apply_translation (creation (box ((1 # 100)%Q, (5 # 10)%Q, (1 # 100)%Q)))
                    (0%Q, ((inject_Z (i - 2)) * (3 # 10))%Q, 0%Q).

Definition _add_structural_details (m : mesh) (info : shape_info)
  (config : GenerationConfig) : mesh :=
  let details :=
    if existsb (String.eqb (Classifier.shape_type info)) ["vehicle"; "building"; "robot"]
    then map panel [0; 1; 2; 3; 4]
    else [] in
  match details with
  | [] => m
  | _ => concatenate ([m] ++ details)%list
  end.

(** The loop of [_add_fine_details]: [count] cylinders, each moved by three
    draws of [random.uniform(-1, 1)]. *)
Fixpoint fine_cylinders (count : nat) (r : rng) : list mesh * rng :=
  match count with
  | O => ([], r)
  | S k =>
      let n := py_draws r in
      let offset := (uniform w (-1) 1 n, uniform w (-1) 1 (S n),
                     uniform w (-1) 1 (S (S n))) in
      let r := {| py_draws := S (S (S n)); np_draws := np_draws r |} in
      let detail := apply_translation (creation (cylinder (2 # 100) (1 # 10))) offset in
      let (details, r) := fine_cylinders k r in
      (detail :: details, r)
  end.

Definition _add_fine_details (m : mesh) (config : GenerationConfig) (r : rng)
  : mesh * rng :=
  let (details, r) := fine_cylinders 10 r in
  match details with
  | [] => (m, r)
  | _ => (concatenate ([m] ++ details)%list, r)
  end.

Definition _add_details (base_mesh : mesh) (info : shape_info)
  (config : GenerationConfig) (r : rng) : mesh * rng :=
  if complexity config <=? 3 then (base_mesh, r)
  else
    let detailed_mesh := base_mesh in
    let (detailed_mesh, r) :=
      if 7 <=? complexity config
      then _add_surface_details detailed_mesh config r
      else (detailed_mesh, r) in
    let detailed_mesh :=
      if 8 <=? complexity config
      then _add_structural_details detailed_mesh info config
      else detailed_mesh in
    if 9 <=? complexity config
    then _add_fine_details detailed_mesh config r
    else (detailed_mesh, r).

(** [_simplify_mesh] returns its argument on both paths. *)
Definition _simplify_mesh (m : mesh) (target_faces : Z) : mesh := m.

Definition _make_organic (m : mesh) (r : rng) : mesh * rng :=
  (apply_op (Jitter (5 # 100) (np_draws r)) m,
   {| py_draws := py_draws r; np_draws := S (np_draws r) |}).

Definition _make_asymmetric (m : mesh) (r : rng) : mesh * rng :=
  (apply_scale m (np_uniform3 w (9 # 10) (11 # 10) (np_draws r)),
   {| py_draws := py_draws r; np_draws := S (np_draws r) |}).

Definition _apply_transformations (m : mesh) (info : shape_info)
  (config : GenerationConfig) (r : rng) : mesh * rng :=
  let transformed :=
    if String.eqb (Classifier.style info) "stylized"
    then apply_scale m ((12 # 10)%Q, (12 # 10)%Q, 1%Q)
    else if String.eqb (Classifier.style info) "low_poly"
    then _simplify_mesh m 100
    else m in
  let (transformed, r) :=
    if String.eqb (Classifier.organic info) "organic"
    then _make_organic transformed r else (transformed, r) in
  if String.eqb (Classifier.symmetry info) "asymmetric"
  then _make_asymmetric transformed r else (transformed, r).

(** The steps of [_procedural_generation] after its [try] block, keeping the
    mesh after each step: base shape, detailed mesh, final mesh. *)
Record stages : Type := Stages {
  base_mesh : mesh;
  detailed_mesh : mesh;
  final_mesh : mesh
}.

Definition traditional_stages (prompt : string) (config : GenerationConfig) (r : rng)
  : stages * GenerationConfig * rng :=
  let info := _analyze_prompt prompt in
  let (base, config) := _generate_base_shape info config in
  let (detailed, r) := _add_details base info config r in
  let (final, r) := _apply_transformations detailed info config r in
  (Stages base detailed final, config, r).

Definition _procedural_generation (prompt : string) (config : GenerationConfig)
  (reference_image_path : option string) (r : rng)
  : mesh * GenerationConfig * rng :=
  let prompt_enhanced :=
    prompt +:+ " exterior only, no interior details, simple clean geometry, low poly game asset" in
  match generate_geometry w prompt_enhanced reference_image_path with
  | Ok (Some a) => (creation a, config, r)
  | Ok None | Raise _ =>
      let '(st, config, r) := traditional_stages prompt config r in
      (final_mesh st, config, r)
  end.

End Pipeline.

End Procedural.

(** ** models.py: the rows the generation task reads and writes *)

Module Models.

(** The columns of [GenerationJob] that the generation task touches. *)
Record GenerationJob : Type := Job {
  id : Z;
  prompt : string;
  reference_image_path : option string;
  status : string;
  obj_path : option string;
  fbx_path : option string;
  blend_path : option string;
  error_message : option string;
  task_id : option string;
  completed_at : option Z;
  project_id : option Z
}.

Record AssetCache : Type := CacheEntry {
  cache_key : string;
  file_path : string;
  asset_type : string;
  meta_prompt : string
}.

(** The tables as the session sees them, pending changes included: jobs by
    primary key, cache rows in insertion order, the ids of the projects, and
    the [project_assets] association.  [cache_key] is declared
    [unique=True] (line 180): the session may hold two rows under one key,
    one of them pending; the database stores no such table (see
    [Effects.flush]). *)
Record database : Type := Database {
  jobs : gmap Z GenerationJob;
  cache : list AssetCache;
  projects : gset Z;
  project_assets : list (Z * Z)
}.

End Models.

(** ** Effects: external calls, the database session, exceptions *)

Module Effects.
Import Trimesh Procedural.

(** The calls the embedded code makes to its collaborators, and its
    assignments to the status column, in the order they happen. *)
Inductive event : Type :=
(* os and subprocess *)
| Subprocess (cmd : list string)
| PathExists (path : string)
| TempScript (content : string)
| Unlink (path : string)
| MakeDirs (path : string)
(* trimesh and the export engine *)
| TrimeshLoad (path : string)
| ExportersAvailable (m : mesh)
| MeshExport (m : mesh) (path : string) (file_type : option string)
| OptimizeMesh (m : mesh)
| WriteJson (path : string)
(* the generators *)
| ProcessTextAndImage (prompt image : string)
| GenerateWithBestService (prompt : string) (image : option string)
| GenerateModel (prompt : string) (config : GenerationConfig) (image : option string)
| CreateMesh (creator prompt : string)
| MaterialForPrompt (prompt style : string)
| ApplyMaterial (m : mesh)
| TextureImage
| MaterialFile (name : string)
(* the task-state store and the database session *)
| UpdateState (task_state : string) (current : Z) (status : string)
| SetStatus (job : Z) (value : string)
| Commit
(* the database refused a flush, and the session rolled its transaction back *)
| FlushFailed.

(** What a run has done so far: the trace of events, the session's view of
    the database (pending changes included), and the snapshots that
    [db.session.commit()] has stored, the oldest first. *)
Record state : Type := State {
  trace : list event;
  session : Models.database;
  history : list Models.database
}.

Definition M (A : Type) : Type := state -> result A * state.

Definition ret {A} (a : A) : M A := fun s => (Ok a, s).

Definition bind {A B} (m : M A) (k : A -> M B) : M B :=
  fun s => match m s with
           | (Ok a, s') => k a s'
           | (Raise e, s') => (Raise e, s')
           end.

Definition raise {A} (e : exn) : M A := fun s => (Raise e, s).

(** [try: body / except Exception as e: handler e]. *)
Definition try_except {A} (body : M A) (handler : exn -> M A) : M A :=
  fun s => match body s with
           | (Ok a, s') => (Ok a, s')
           | (Raise e, s') => handler e s'
           end.

(** [try: body / finally: cleanup], for a cleanup that does not raise. *)
Definition try_finally {A} (body : M A) (cleanup : M unit) : M A :=
  fun s => match body s with
           | (r, s') => (r, snd (cleanup s'))
           end.

Definition record (ev : event) (s : state) : state :=
  {| trace := (trace s ++ [ev])%list; session := session s; history := history s |}.

(** An external call: the event is recorded, the collaborator's answer is
    the outcome. *)
Definition call {A} (ev : event) (answer : result A) : M A :=
  fun s => (answer, record ev s).

Definition get_session : M Models.database := fun s => (Ok (session s), s).

Definition set_session (d : Models.database) : M unit :=
  fun s => (Ok tt, {| trace := trace s; session := d; history := history s |}).

(** A session whose flush the database refused has rolled its transaction
    back and expired every row it holds; until [db.session.rollback()],
    which tasks.py never calls, each use of it that needs the database
    raises.  The trace keeps the refusal, so it tells whether the session
    is in that state. *)
Definition flush_failure (ev : event) : bool :=
  match ev with
  | FlushFailed => true
  | _ => false
  end.

Definition inactive (s : state) : bool := existsb flush_failure (trace s).

Definition pending_rollback : exn :=
  SQLAlchemyError
    "This Session's transaction has been rolled back due to a previous exception during flush.".

Definition unique_violation : exn :=
  SQLAlchemyError "UNIQUE constraint failed: asset_cache.cache_key".

(** A query that loads or refreshes rows: what the session sees, when the
    session is usable. *)
Definition query : M Models.database :=
  fun s => if inactive s then (Raise pending_rollback, s) else (Ok (session s), s).

(** The unique constraint on [AssetCache.cache_key]. *)
Definition unique_cache_keys (d : Models.database) : bool :=
  bool_decide (NoDup (map Models.cache_key (Models.cache d))).

(** What the database answers to a flush that leaves the tables as [d]:
    it refuses tables that break the unique constraint ([IntegrityError]);
    [server d] is its answer otherwise. *)
Definition database_answer (server : Models.database -> result unit)
  (d : Models.database) : result unit :=
  if unique_cache_keys d then server d else Raise unique_violation.

(** A flush sends the pending changes of the session to the database.  A
    refusal is recorded and raised. *)
Definition flush (server : Models.database -> result unit) : M unit :=
  fun s =>
    if inactive s then (Raise pending_rollback, s)
    else match database_answer server (session s) with
         | Ok _ => (Ok tt, s)
         | Raise e => (Raise e, record FlushFailed s)
         end.

(** What a commit stores when its flush went through. *)
Definition store : M unit :=
  fun s => (Ok tt, {| trace := trace s; session := session s;
                      history := (history s ++ [session s])%list |}).

(** [db.session.commit()]: the pending changes are flushed, and stored when
    the database took them. *)
Definition commit (server : Models.database -> result unit) : M unit :=
  bind (call Commit (Ok tt)) (fun _ => bind (flush server) (fun _ => store)).

End Effects.

Declare Scope py_scope.
Delimit Scope py_scope with py.
Notation "'let*' x ':=' m 'in' k" := (Effects.bind m (fun x => k))
  (at level 10, x pattern, m at level 100, k at level 200) : py_scope.
Notation "m ';;' k" := (Effects.bind m (fun _ => k))
  (at level 100, k at level 200, right associativity) : py_scope.
Local Open Scope py_scope.

(** ** The collaborators of the conversion and generation code *)

Module World.
Import Trimesh Procedural.

(** What [multimodal_processor.process_text_and_image] returns. *)
Record multimodal_result : Type := Multimodal {
  mm_success : bool;
  mm_enhanced_prompt : option string
}.

(** What [ai_service_manager.generate_with_best_service] returns. *)
Record ai_result : Type := AiResult {
  ai_success : bool;
  ai_mesh : option mesh
}.

(** A material dict, named by a handle. *)
Definition material : Type := nat.

(** The answers of the collaborators.  Each oracle stands for one library
    or system call; [Raise] is the call raising.
    - [subprocess_run cmd]: return code, stdout and stderr of
      [subprocess.run(cmd, capture_output=True, text=True, ...)];
    - [path_exists]: [os.path.exists], at the time the code asks;
    - [write_temp_script content]: the name of the temporary script file;
    - [trimesh_load path]: [trimesh.load(path)], [None] included;
    - [has_export], [exporters_available]: [hasattr(mesh, 'export')] and
      [mesh.exporters_available()];
    - [mesh_export m path file_type]: [m.export(path, file_type=...)];
    - [optimize_mesh]: [ExportEngine._optimize_mesh];
    - [write_json path]: [open(path, 'w')] and [json.dump];
    - [EXPORT_AVAILABLE]: the flag of file_converter.py, false exactly when
      its [export_engine] is [None];
    - [USE_ADVANCED]: the flag of model_generator.py, false exactly when its
      module-level generators, processors and engine are [None];
    - [generate_model]: [advanced_generator.generate_model]; [Ok None] is a
      falsy result or one without a 'mesh' key, [Ok (Some v)] one whose
      'mesh' entry is [v];
    - [create_mesh creator prompt]: the [create_*_mesh] functions of
      model_generator.py;
    - [db_flush d]: what the database server answers to a flush that leaves
      the tables as [d], the declared constraints apart; [Raise] is a lost
      connection, a full disk and the like. *)
Record world : Type := Build {
  platform_windows : bool;
  subprocess_run : list string -> result (Z * string * string);
  path_exists : string -> bool;
  write_temp_script : string -> result string;
  makedirs : string -> result unit;
  trimesh_load : string -> result (option mesh);
  has_export : mesh -> bool;
  exporters_available : mesh -> result (list string);
  mesh_export : mesh -> string -> option string -> result unit;
  optimize_mesh : mesh -> result mesh;
  write_json : string -> result unit;
  EXPORT_AVAILABLE : bool;
  USE_ADVANCED : bool;
  process_text_and_image : string -> string -> result (option multimodal_result);
  available_services : list string;
  generate_with_best_service : string -> option string -> result (option ai_result);
  generate_model : string -> GenerationConfig -> option string
                   -> result (option (option mesh));
  create_mesh : string -> string -> result mesh;
  generate_material_for_prompt : string -> string -> result material;
  apply_material_to_mesh : mesh -> material -> result mesh;
  generate_texture_image : material -> result (option string);
  create_material_file : material -> string -> result string;
  py_hash : string -> Z;
  time_now : Z;
  task_request_id : string;
  utcnow : Z;
  db_flush : Models.database -> result unit
}.

End World.

(** ** instance/ai_modules/export_engine.py *)

Module ExportEngine.
Import Trimesh Effects World.

Inductive ExportFormat : Type := OBJ | FBX | GLTF | STL | PLY | RBXM.

Section Engine.
Variable w : world.

(** [_export_obj], [_export_fbx], [_export_gltf], [_export_stl] and
    [_export_ply], called without textures: [mesh.export] inside a [try]
    that answers [False] on any exception. *)
Definition _export_as (file_type : string) (m : mesh) (output_path : string) : M bool :=
  try_except
    (call (MeshExport m output_path (Some file_type))
          (mesh_export w m output_path (Some file_type)) ;;
     ret true)
    (fun _ => ret false).

(** [_export_rbxm] writes a fixed JSON document. *)
Definition _export_rbxm (m : mesh) (output_path : string) : M bool :=
  try_except
    (call (WriteJson output_path) (write_json w output_path) ;; ret true)
    (fun _ => ret false).

Definition export_model (m : mesh) (format : ExportFormat) (output_path : string)
  : M bool :=
  try_except
    (let* optimized_mesh := call (OptimizeMesh m) (optimize_mesh w m) in
     match format with
     | OBJ => _export_as "obj" optimized_mesh output_path
     | FBX => _export_as "fbx" optimized_mesh output_path
     | GLTF => _export_as "gltf" optimized_mesh output_path
     | STL => _export_as "stl" optimized_mesh output_path
     | PLY => _export_as "ply" optimized_mesh output_path
     | RBXM => _export_rbxm optimized_mesh output_path
     end)
    (fun _ => ret false).

End Engine.

End ExportEngine.

(** ** file_converter.py *)

Module FileConverter.
Import PyStr Trimesh Effects World ExportEngine.

(** The job id a caller passes: an integer primary key, or a string such as
    "fallback_7". *)
Inductive job_id : Type :=
| IntId (n : Z)
| StrId (s : string).

(** How an f-string prints it. *)
Definition format_id (j : job_id) : string :=
  match j with
  | IntId n => pretty n
  | StrId s => s
  end.

Definition dq : string := String (ascii_of_nat 34) EmptyString.
Definition nl : string := String (ascii_of_nat 10) EmptyString.

Fixpoint unlines (lines : list string) : string :=
  match lines with
  | [] => EmptyString
  | line :: rest => line +:+ nl +:+ unlines rest
  end.

Definition create_blender_script (obj_path output_path output_format : string)
  : string :=
  nl +:+ unlines
  [ "import bpy";
    "import os";
    "import sys";
    "";
    "# Clear default scene";
    "bpy.ops.object.select_all(action='SELECT')";
    "bpy.ops.object.delete(use_global=False)";
    "";
    "try:";
    "    # Import OBJ file";
    "    bpy.ops.import_scene.obj(filepath=" +:+ dq +:+ obj_path +:+ dq +:+ ")";
    "    ";
    "    # Ensure output directory exists";
    "    os.makedirs(os.path.dirname(" +:+ dq +:+ output_path +:+ dq +:+ "), exist_ok=True)";
    "    ";
    "    if " +:+ dq +:+ output_format +:+ dq +:+ " == " +:+ dq +:+ "blend" +:+ dq +:+ ":";
    "        # Save as Blend file";
    "        bpy.ops.wm.save_as_mainfile(filepath=" +:+ dq +:+ output_path +:+ dq +:+ ")";
    "    elif " +:+ dq +:+ output_format +:+ dq +:+ " == " +:+ dq +:+ "fbx" +:+ dq +:+ ":";
    "        # Export as FBX";
    "        bpy.ops.export_scene.fbx(filepath=" +:+ dq +:+ output_path +:+ dq +:+ ")";
    "    ";
    "    print(f" +:+ dq +:+ "Successfully converted to " +:+ upper output_format
      +:+ ": " +:+ output_path +:+ dq +:+ ")";
    "    ";
    "except Exception as e:";
    "    print(f" +:+ dq +:+ "Error during conversion: {str(e)}" +:+ dq +:+ ")";
    "    sys.exit(1)" ].

Definition windows_paths : list string :=
  [ "C:\Program Files\Blender Foundation\Blender 4.4\blender.exe";
    "C:\Program Files\Blender Foundation\Blender 4.3\blender.exe";
    "C:\Program Files\Blender Foundation\Blender 4.2\blender.exe";
    "C:\Program Files\Blender Foundation\Blender 4.1\blender.exe";
    "C:\Program Files\Blender Foundation\Blender 4.0\blender.exe";
    "C:\Program Files\Blender Foundation\Blender 3.6\blender.exe";
    "C:\Program Files\Blender Foundation\Blender 3.5\blender.exe";
    "C:\Program Files\Blender Foundation\Blender 3.4\blender.exe";
    "C:\Program Files\Blender Foundation\Blender 3.3\blender.exe";
    "C:\Program Files\Blender Foundation\Blender 3.2\blender.exe";
    "C:\Program Files\Blender Foundation\Blender 3.1\blender.exe";
    "C:\Program Files\Blender Foundation\Blender 3.0\blender.exe";
    "C:\Program Files\Blender\blender.exe";
    "C:\blender\blender.exe";
    "C:\Program Files (x86)\Blender Foundation\Blender 4.4\blender.exe";
    "C:\Program Files (x86)\Blender Foundation\Blender 4.3\blender.exe";
    "C:\Program Files (x86)\Blender Foundation\Blender 4.2\blender.exe";
    "C:\Program Files (x86)\Blender Foundation\Blender 4.1\blender.exe";
    "C:\Program Files (x86)\Blender Foundation\Blender 4.0\blender.exe";
    "C:\Program Files (x86)\Blender Foundation\Blender 3.6\blender.exe";
    "C:\Program Files (x86)\Blender Foundation\Blender 3.5\blender.exe";
    "C:\Program Files (x86)\Blender Foundation\Blender 3.4\blender.exe";
    "C:\Program Files (x86)\Blender Foundation\Blender 3.3\blender.exe";
    "C:\Program Files (x86)\Blender Foundation\Blender 3.2\blender.exe";
    "C:\Program Files (x86)\Blender Foundation\Blender 3.1\blender.exe";
    "C:\Program Files (x86)\Blender Foundation\Blender 3.0\blender.exe";
    "C:\Program Files (x86)\Blender\blender.exe" ].

Definition unix_paths : list string :=
  [ "/usr/bin/blender";
    "/usr/local/bin/blender";
    "/opt/blender/blender";
    "/snap/bin/blender";
    "/Applications/Blender.app/Contents/MacOS/Blender" ].

Section Converter.
Variable w : world.

(** [os.path.join("generated", filename)] for a file name that does not
    start with a separator. *)
Definition generated (filename : string) : string :=
  "generated" +:+ (if platform_windows w then "\" else "/") +:+ filename.

Definition output_path_of (job : job_id) (extension : string) : string :=
  generated ("model_" +:+ format_id job +:+ extension).

(** One turn of the loop over the executable names: [Some path] is the
    [return] inside the loop, [None] goes on with the next name. *)
Definition lookup_in_path (name : string) : M (option string) :=
  try_except
    (let cmd := [if platform_windows w then "where" else "which"; name] in
     let* answer := call (Subprocess cmd) (subprocess_run w cmd) in
     let '(returncode, stdout, _) := answer in
     if returncode =? 0
     then
       let first := first_line (strip stdout) in
       if truthy first then ret (Some first) else ret None
     else ret None)
    (fun _ => ret None).

Fixpoint search_names (names : list string) (otherwise : M (option string))
  : M (option string) :=
  match names with
  | [] => otherwise
  | name :: rest =>
      let* found := lookup_in_path name in
      match found with
      | Some path => ret (Some path)
      | None => search_names rest otherwise
      end
  end.

Fixpoint search_paths (paths : list string) : M (option string) :=
  match paths with
  | [] => ret None
  | path :: rest =>
      let* there := call (PathExists path) (Ok (path_exists w path)) in
      if there : bool then ret (Some path) else search_paths rest
  end.

Definition find_blender_executable : M (option string) :=
  let blender_names := ["blender"; "blender3d"] in
  search_names blender_names
    (search_paths (if platform_windows w then windows_paths else unix_paths)).

Definition convert_with_blender (obj_path : string) (job : job_id)
  (output_format : string) : M string :=
  try_except
    (let* blender_cmd := find_blender_executable in
     match blender_cmd with
     | None => raise (Exception "Blender not found in system PATH")
     | Some blender_cmd =>
       if negb (truthy blender_cmd)
       then raise (Exception "Blender not found in system PATH")
       else
         let output_path :=
           if String.eqb output_format "blend"
           then output_path_of job ".blend"
           else output_path_of job ".fbx" in
         let script_content :=
           create_blender_script obj_path output_path output_format in
         let* script_path :=
           call (TempScript script_content) (write_temp_script w script_content) in
         try_finally
           (let cmd := [blender_cmd; "--background"; "--python"; script_path] in
            let* answer := call (Subprocess cmd) (subprocess_run w cmd) in
            let '(returncode, _, stderr) := answer in
            if negb (returncode =? 0)
            then raise (Exception ("Blender conversion failed: " +:+ stderr))
            else
              let* created :=
                call (PathExists output_path) (Ok (path_exists w output_path)) in
              if negb created
              then raise (Exception "Output file was not created")
              else ret output_path)
           (call (Unlink script_path) (Ok tt))
     end)
    (fun e =>
       match e with
       | TimeoutExpired _ => raise (Exception "Blender conversion timed out")
       | _ => raise e
       end).

(** [mesh = trimesh.load(obj_path)] followed by the [None] check. *)
Definition load_obj (obj_path : string) : M mesh :=
  let* loaded := call (TrimeshLoad obj_path) (trimesh_load w obj_path) in
  match loaded with
  | None => raise (Exception "Failed to load OBJ file")
  | Some m => ret m
  end.

(** The body of "Fallback 1" of [convert_to_fbx]. *)
Definition fbx_with_trimesh (obj_path : string) (job : job_id) : M string :=
  let* m := load_obj obj_path in
  let output_path := output_path_of job ".fbx" in
  let* supported :=
    if has_export w m
    then let* available := call (ExportersAvailable m) (exporters_available w m) in
         ret (existsb (String.eqb "fbx") available)
    else ret false in
  if supported : bool
  then call (MeshExport m output_path (Some "fbx"))
            (mesh_export w m output_path (Some "fbx")) ;;
       ret output_path
  else raise (Exception "FBX exporter not available in trimesh").

(** The body of the export-engine fallback of both converters. *)
Definition with_export_engine (obj_path : string) (job : job_id)
  (format : ExportFormat) (extension : string) : M string :=
  if negb (EXPORT_AVAILABLE w)
  then raise (Exception "Export engine unavailable")
  else
    let* m := load_obj obj_path in
    let output_path := output_path_of job extension in
    let* success := export_model w m format output_path in
    if success : bool then ret output_path
    else raise (Exception "Export engine failed").

Definition convert_to_fbx (obj_path : string) (job : job_id) : M string :=
  try_except
    (try_except
       (convert_with_blender obj_path job "fbx")
       (fun blender_error =>
          try_except
            (fbx_with_trimesh obj_path job)
            (fun trimesh_error =>
               try_except
                 (with_export_engine obj_path job FBX ".fbx")
                 (fun export_engine_error => ret obj_path))))
    (fun e => ret obj_path).

(** A path returned where the function may also return [None]. *)
Definition some_path (m : M string) : M (option string) :=
  let* path := m in ret (Some path).

(** [None] is Python's [None]: the last handler of the source reads
    [return None], with the comment that it returns None instead of raising
    to make the Blend file optional. *)
Definition convert_to_blend (obj_path : string) (job : job_id) : M (option string) :=
  try_except
    (some_path (convert_with_blender obj_path job "blend"))
    (fun e =>
       try_except
         (some_path (with_export_engine obj_path job RBXM ".blend"))
         (fun export_engine_error => ret None)).

(** What the specification says of both converters: four tiers tried in
    order, the first success returned, and the OBJ path when none
    succeeds.  [first_success] runs each tier at most once. *)
Fixpoint first_success {A} (tiers : list (M A)) (otherwise : A) : M A :=
  match tiers with
  | [] => ret otherwise
  | tier :: rest => try_except tier (fun _ => first_success rest otherwise)
  end.

(** The native exporter tier for a format, as the specification has it:
    [fbx_with_trimesh] with the format's name and extension. *)
Definition native_tier (obj_path : string) (job : job_id)
  (file_type extension : string) : M string :=
  let* m := load_obj obj_path in
  let output_path := output_path_of job extension in
  let* supported :=
    if has_export w m
    then let* available := call (ExportersAvailable m) (exporters_available w m) in
         ret (existsb (String.eqb file_type) available)
    else ret false in
  if supported : bool
  then call (MeshExport m output_path (Some file_type))
            (mesh_export w m output_path (Some file_type)) ;;
       ret output_path
  else raise (Exception "exporter not available in trimesh").

Definition four_tiers (obj_path : string) (job : job_id)
  (file_type : string) (format : ExportFormat) : M string :=
  first_success
    [ convert_with_blender obj_path job file_type;
      native_tier obj_path job file_type ("." +:+ file_type);
      with_export_engine obj_path job format ("." +:+ file_type) ]
    obj_path.

End Converter.

End FileConverter.

(** ** model_generator.py *)

Module ModelGenerator.
Import PyStr Trimesh Procedural Effects World ExportEngine.

Definition valid_styles : list string :=
  ["realistic"; "stylized"; "low_poly"; "sci_fi"; "fantasy"; "cartoon"].

Definition valid_engines : list string :=
  ["procedural"; "ai_enhanced"; "hybrid"; "texture_generated"].

(** [GenerationEngine(engine)]: the member with that value, [None] where
    the enum constructor raises [ValueError]. *)
Definition engine_of_value (value : string) : option GenerationEngine :=
  if String.eqb value "procedural" then Some PROCEDURAL
  else if String.eqb value "ai_enhanced" then Some AI_ENHANCED
  else if String.eqb value "hybrid" then Some HYBRID
  else if String.eqb value "texture_generated" then Some TEXTURE_GENERATED
  else None.

(** Truthiness of an optional integer: [None] and [0] are falsy. *)
Definition truthy_id (job_id : option Z) : bool :=
  match job_id with
  | Some n => negb (n =? 0)
  | None => false
  end.

(** The condition of the first [if]: [not prompt or len(prompt.strip()) == 0]
    (the argument is a [str], so the [isinstance] test holds). *)
Definition blank (prompt : string) : bool :=
  negb (truthy prompt) || (String.length (strip prompt) =? 0)%nat.

Section Generator.
Variable w : world.

Definition create_default_mesh : M mesh :=
  call (CreateMesh "create_procedural_mesh" "abstract geometric shape")
       (create_mesh w "create_procedural_mesh" "abstract geometric shape").

(** The creator the [if]/[elif] chain of [generate_geometry_from_prompt]
    selects. *)
Definition creator_for (prompt_lower : string) : string :=
  if any_in ["spaceship"; "rocket"; "ship"; "spacecraft"] prompt_lower
  then "create_enhanced_spaceship_mesh"
  else if any_in ["car"; "vehicle"; "automobile"; "truck"] prompt_lower
  then "create_enhanced_car_mesh"
  else if any_in ["chair"; "seat"; "furniture"] prompt_lower
  then "create_enhanced_chair_mesh"
  else if any_in ["castle"; "tower"; "building"; "structure"] prompt_lower
  then "create_enhanced_building_mesh"
  else if any_in ["sphere"; "ball"; "orb"; "globe"] prompt_lower
  then "create_enhanced_sphere_mesh"
  else if any_in ["cube"; "box"; "block"; "die"] prompt_lower
  then "create_enhanced_cube_mesh"
  else if any_in ["cylinder"; "tube"; "pipe"; "column"] prompt_lower
  then "create_enhanced_cylinder_mesh"
  else if any_in ["human"; "person"; "character"; "humanoid"] prompt_lower
  then "create_humanoid_mesh"
  else if any_in ["animal"; "creature"; "beast"] prompt_lower
  then "create_creature_mesh"
  else if any_in ["weapon"; "sword"; "gun"; "blade"] prompt_lower
  then "create_weapon_mesh"
  else if any_in ["plant"; "tree"; "flower"] prompt_lower
  then "create_plant_mesh"
  else if any_in ["robot"; "mech"; "android"; "machine"] prompt_lower
  then "create_robot_mesh"
  else "create_procedural_mesh".

Definition generate_geometry_from_prompt (prompt : string) : M mesh :=
  let prompt_lower := lower prompt in
  try_except
    (let creator := creator_for prompt_lower in
     call (CreateMesh creator prompt) (create_mesh w creator prompt))
    (fun _ => create_default_mesh).

(** Lines 84-100: the prompt handed to the AI services. *)
Definition enhance_prompt (prompt : string) (reference_image_path : option string)
  : M string :=
  match reference_image_path with
  | Some image =>
      if USE_ADVANCED w && truthy image
      then
        let* there := call (PathExists image) (Ok (path_exists w image)) in
        if there : bool
        then
          try_except
            (let* multimodal_result :=
               call (ProcessTextAndImage prompt image)
                    (process_text_and_image w prompt image) in
             match multimodal_result with
             | Some res =>
                 if mm_success res
                 then ret (match mm_enhanced_prompt res with
                           | Some enhanced => enhanced
                           | None => prompt
                           end)
                 else ret prompt
             | None => ret prompt
             end)
            (fun _ => ret prompt)
        else ret prompt
      else ret prompt
  | None => ret prompt
  end.

(** Lines 102-125: the AI services, when the engine asks for them and one
    is configured. *)
Definition ai_generation (enhanced_prompt : string)
  (reference_image_path : option string) (engine : string) : M (option mesh) :=
  if USE_ADVANCED w && String.eqb engine "ai_enhanced"
     && negb (Nat.eqb (length (available_services w)) 0)
  then
    try_except
      (let* ai_result :=
         call (GenerateWithBestService enhanced_prompt reference_image_path)
              (generate_with_best_service w enhanced_prompt reference_image_path) in
       match ai_result with
       | Some res => if ai_success res then ret (ai_mesh res) else ret None
       | None => ret None
       end)
      (fun _ => ret None)
  else ret None.

(** Lines 127-163: the fallback generation, run when [mesh is None]. *)
Definition fallback_generation (prompt : string)
  (reference_image_path : option string) (job_id : option Z) (engine : string)
  (complexity detail_level : Z) (material_style : string) : M (option mesh) :=
  try_except
    (if USE_ADVANCED w
     then
       try_except
         (match engine_of_value engine with
          | None => raise (ValueError "not a valid GenerationEngine")
          | Some engine_member =>
              let config :=
                {| Procedural.engine := engine_member;
                   Procedural.complexity := complexity;
                   Procedural.detail_level := detail_level;
                   Procedural.material_style := material_style;
                   Procedural.generate_textures := true;
                   Procedural.generate_materials := true;
                   Procedural.variations := 1;
                   Procedural.seed :=
                     if truthy_id job_id then Some (time_now w) else None |} in
              let* result :=
                call (GenerateModel prompt config reference_image_path)
                     (generate_model w prompt config reference_image_path) in
              match result with
              | Some mesh_entry => ret mesh_entry
              | None => ret None
              end
          end)
         (fun _ => ret None)
     else
       let* m := generate_geometry_from_prompt prompt in ret (Some m))
    (fun _ => let* m := create_default_mesh in ret (Some m)).

(** Lines 102-163 together: what [mesh] is when line 165 tests it. *)
Definition produce_mesh (prompt enhanced_prompt : string)
  (reference_image_path : option string) (job_id : option Z) (engine : string)
  (complexity detail_level : Z) (material_style : string) : M (option mesh) :=
  let* found := ai_generation enhanced_prompt reference_image_path engine in
  match found with
  | Some m => ret (Some m)
  | None =>
      fallback_generation prompt reference_image_path job_id engine
                          complexity detail_level material_style
  end.

(** The file name of lines 187 and 198, without its suffix. *)
Definition model_name (prompt : string) (job_id : option Z) : string :=
  if truthy_id job_id
  then "model_" +:+ pretty (default 0 job_id)
  else "model_" +:+ pretty (py_hash w prompt).

(** Lines 168-192: materials.  [mesh] is reassigned by
    [apply_material_to_mesh]; an exception after that point leaves the
    reassigned mesh in place. *)
Definition apply_materials (prompt material_style : string) (job_id : option Z)
  (m : mesh) : M mesh :=
  if USE_ADVANCED w
  then
    try_except
      (let* material :=
         call (MaterialForPrompt prompt material_style)
              (generate_material_for_prompt w prompt material_style) in
       let* m' := call (ApplyMaterial m) (apply_material_to_mesh w m material) in
       try_except
         (try_except
            (let* texture_path :=
               call TextureImage (generate_texture_image w material) in
             ret tt)
            (fun _ => ret tt) ;;
          let material_filename := model_name prompt job_id +:+ "_material" in
          let* mtl_path :=
            call (MaterialFile material_filename)
                 (create_material_file w material material_filename) in
          ret m')
         (fun _ => ret m'))
      (fun _ => ret m)
  else ret m.

(** Lines 198-207: the output path. *)
Definition choose_output_path (prompt : string) (job_id : option Z) : M string :=
  let output_filename := model_name prompt job_id +:+ ".obj" in
  let output_path :=
    "generated" +:+ (if platform_windows w then "\" else "/") +:+ output_filename in
  try_except
    (call (MakeDirs "generated") (makedirs w "generated") ;; ret output_path)
    (fun _ => ret output_filename).

(** Lines 209-248: the export, which answers with the path written. *)
Definition export_mesh (m : mesh) (output_path : string) : M string :=
  let* export_success :=
    if USE_ADVANCED w
    then try_except (export_model w m OBJ output_path) (fun _ => ret false)
    else ret false in
  if export_success : bool
  then ret output_path
  else
    try_except
      (call (MeshExport m output_path None) (mesh_export w m output_path None) ;;
       ret output_path)
      (fun e =>
         try_except
           (let stl_path := replace ".obj" ".stl" output_path in
            call (MeshExport m stl_path None) (mesh_export w m stl_path None) ;;
            ret stl_path)
           (fun e2 =>
              raise (Exception ("All export methods failed. OBJ: " +:+ str_exn e
                                +:+ ", STL: " +:+ str_exn e2)))).

(** [generate_3d_model].  The arguments are a [str] prompt, an optional
    image path, an optional integer job id, the engine and style names and
    the two integers.  The tests of lines 195 and 244 are left out: where
    they stand [mesh] is a mesh and [export_success] is true.  Calls to
    [logging] have no effect that the model keeps. *)
Definition generate_3d_model (prompt : string)
  (reference_image_path : option string) (job_id : option Z) (engine : string)
  (complexity detail_level : Z) (material_style : string) : M string :=
  if blank prompt
  then raise (ValueError "Prompt cannot be empty")
  else
    let prompt := slice_to 500 (strip prompt) in
    let complexity := Z.max 1 (Z.min 10 complexity) in
    let detail_level := Z.max 1 (Z.min 10 detail_level) in
    let material_style :=
      if existsb (String.eqb material_style) valid_styles
      then material_style else "realistic" in
    let engine :=
      if existsb (String.eqb engine) valid_engines then engine else "hybrid" in
    try_except
      (let* enhanced_prompt := enhance_prompt prompt reference_image_path in
       let* mesh :=
         produce_mesh prompt enhanced_prompt reference_image_path job_id engine
                      complexity detail_level material_style in
       match mesh with
       | None => raise (Exception "Failed to generate 3D geometry")
       | Some m =>
           let* m := apply_materials prompt material_style job_id m in
           let* output_path := choose_output_path prompt job_id in
           export_mesh m output_path
       end)
      (fun e => raise (Exception ("3D model generation failed: " +:+ str_exn e))).

End Generator.

End ModelGenerator.

(** ** tasks.py *)

Module Tasks.
Import PyStr Trimesh Effects World FileConverter ModelGenerator.
Import Models.

(** Assignments to the columns of a job row. *)
Definition with_status (v : string) (j : GenerationJob) : GenerationJob :=
  {| id := id j; prompt := prompt j;
     reference_image_path := reference_image_path j; status := v;
     obj_path := obj_path j; fbx_path := fbx_path j; blend_path := blend_path j;
     error_message := error_message j; task_id := task_id j;
     completed_at := completed_at j; project_id := project_id j |}.

Definition with_task_id (v : option string) (j : GenerationJob) : GenerationJob :=
  {| id := id j; prompt := prompt j;
     reference_image_path := reference_image_path j; status := status j;
     obj_path := obj_path j; fbx_path := fbx_path j; blend_path := blend_path j;
     error_message := error_message j; task_id := v;
     completed_at := completed_at j; project_id := project_id j |}.

Definition with_obj_path (v : option string) (j : GenerationJob) : GenerationJob :=
  {| id := id j; prompt := prompt j;
     reference_image_path := reference_image_path j; status := status j;
     obj_path := v; fbx_path := fbx_path j; blend_path := blend_path j;
     error_message := error_message j; task_id := task_id j;
     completed_at := completed_at j; project_id := project_id j |}.

Definition with_fbx_path (v : option string) (j : GenerationJob) : GenerationJob :=
  {| id := id j; prompt := prompt j;
     reference_image_path := reference_image_path j; status := status j;
     obj_path := obj_path j; fbx_path := v; blend_path := blend_path j;
     error_message := error_message j; task_id := task_id j;
     completed_at := completed_at j; project_id := project_id j |}.

Definition with_blend_path (v : option string) (j : GenerationJob) : GenerationJob :=
  {| id := id j; prompt := prompt j;
     reference_image_path := reference_image_path j; status := status j;
     obj_path := obj_path j; fbx_path := fbx_path j; blend_path := v;
     error_message := error_message j; task_id := task_id j;
     completed_at := completed_at j; project_id := project_id j |}.

Definition with_error_message (v : option string) (j : GenerationJob) : GenerationJob :=
  {| id := id j; prompt := prompt j;
     reference_image_path := reference_image_path j; status := status j;
     obj_path := obj_path j; fbx_path := fbx_path j; blend_path := blend_path j;
     error_message := v; task_id := task_id j;
     completed_at := completed_at j; project_id := project_id j |}.

Definition with_completed_at (v : option Z) (j : GenerationJob) : GenerationJob :=
  {| id := id j; prompt := prompt j;
     reference_image_path := reference_image_path j; status := status j;
     obj_path := obj_path j; fbx_path := fbx_path j; blend_path := blend_path j;
     error_message := error_message j; task_id := task_id j;
     completed_at := v; project_id := project_id j |}.

(** The dict the task returns. *)
Record task_result : Type := TaskResult {
  result_job_id : Z;
  result_status : string;
  result_fbx_path : string;
  result_blend_path : option string
}.

Section Task.
Variable w : world.

(** [GenerationJob.query.get(job_id)]: the session's object for the row,
    loaded at line 20 and refreshed at line 109. *)
Definition query_job (job_id : Z) : M (option GenerationJob) :=
  let* d := query in ret (jobs d !! job_id).

(** An assignment to an attribute of the session's object for the row. *)
Definition update_job (job_id : Z) (f : GenerationJob -> GenerationJob) : M unit :=
  let* d := get_session in
  set_session {| jobs := alter f job_id (jobs d); cache := cache d;
                 projects := projects d; project_assets := project_assets d |}.

(** [job.status = value]. *)
Definition set_status (job_id : Z) (value : string) : M unit :=
  call (SetStatus job_id value) (Ok tt) ;;
  update_job job_id (with_status value).

(** [current_task.update_state(state=..., meta={'current': ..., 'total': 100,
    'status': ...})]. *)
Definition update_state (task_state : string) (current : Z) (status : string)
  : M unit :=
  call (UpdateState task_state current status) (Ok tt).

(** [db.session.add(cache_entry)]: the row is pending; no constraint is
    checked before the next flush. *)
Definition session_add (entry : AssetCache) : M unit :=
  let* d := get_session in
  set_session {| jobs := jobs d; cache := (cache d ++ [entry])%list;
                 projects := projects d; project_assets := project_assets d |}.

(** Lines 34-62: the OBJ path of the job, from the cache or from a new
    generation; [job.obj_path] is assigned on both paths.  The lookup of
    line 36 follows the commit of line 26: the session is usable there and
    has nothing to flush. *)
Definition obtain_obj (job_id : Z) (prompt : string)
  (reference_image_path : option string) : M string :=
  let cache_key := "model_" +:+ pretty (py_hash w prompt) in
  let* d := get_session in
  let cached_result :=
    List.find (fun row => String.eqb (Models.cache_key row) cache_key) (cache d) in
  let* usable :=
    match cached_result with
    | Some row =>
        let* there :=
          call (PathExists (file_path row)) (Ok (path_exists w (file_path row))) in
        ret (if there : bool then Some (file_path row) else None)
    | None => ret None
    end in
  match usable with
  | Some cached_path =>
      update_job job_id (with_obj_path (Some cached_path)) ;;
      update_state "PROGRESS" 50 "Using cached model..." ;;
      ret cached_path
  | None =>
      update_state "PROGRESS" 20 "Generating 3D model..." ;;
      let* obj_path :=
        generate_3d_model w prompt reference_image_path (Some job_id)
                          "hybrid" 7 8 "realistic" in
      update_job job_id (with_obj_path (Some obj_path)) ;;
      let cache_entry :=
        {| Models.cache_key := cache_key; file_path := obj_path;
           asset_type := "model"; meta_prompt := prompt |} in
      session_add cache_entry ;;
      ret obj_path
  end.

(** Lines 85-89.  [Project.query.get] sends a SELECT, before which the
    session flushes what is pending (autoflush). *)
Definition attach_to_project (job_id : Z) (project_id : option Z) : M unit :=
  if truthy_id project_id
  then
    flush (db_flush w) ;;
    let* d := get_session in
    if decide (default 0 project_id ∈ projects d)
    then set_session {| jobs := jobs d; cache := cache d; projects := projects d;
                        project_assets :=
                          (project_assets d ++ [(default 0 project_id, job_id)])%list |}
    else ret tt
  else ret tt.

(** Lines 24-32. *)
Definition start_processing (job_id : Z) : M unit :=
  set_status job_id "processing" ;;
  update_job job_id (with_task_id (Some (task_request_id w))) ;;
  commit (db_flush w) ;;
  update_state "PROGRESS" 10 "Initializing AI models...".

(** Lines 64-103: the conversions and the completion of the job.
    [job_obj_path] is [job.obj_path], assigned just before. *)
Definition convert_and_complete (job_id : Z) (job_obj_path : string)
  (project_id : option Z) : M task_result :=
  update_state "PROGRESS" 60 "Converting to FBX format..." ;;
  let* fbx_path := convert_to_fbx w job_obj_path (IntId job_id) in
  update_job job_id (with_fbx_path (Some fbx_path)) ;;
  update_state "PROGRESS" 80 "Converting to Blender format..." ;;
  let* blend_path := convert_to_blend w job_obj_path (IntId job_id) in
  update_job job_id (with_blend_path blend_path) ;;
  set_status job_id "completed" ;;
  update_job job_id (with_completed_at (Some (utcnow w))) ;;
  attach_to_project job_id project_id ;;
  commit (db_flush w) ;;
  update_state "SUCCESS" 100 "Generation completed!" ;;
  ret {| result_job_id := job_id; result_status := "completed";
         result_fbx_path := fbx_path; result_blend_path := blend_path |}.

(** Lines 105-120: the handler of the task.  An exception raised in it
    takes the place of the one it handles. *)
Definition mark_failed (job_id : Z) (e : exn) : M task_result :=
  let* job := query_job job_id in
  match job with
  | Some _ =>
      set_status job_id "failed" ;;
      update_job job_id (with_error_message (Some (str_exn e))) ;;
      commit (db_flush w)
  | None => ret tt
  end ;;
  update_state "FAILURE" 0 ("Error: " +:+ str_exn e) ;;
  raise e.

Definition generate_3d_model_task (job_id : Z) (prompt : string)
  (reference_image_path : option string) (project_id : option Z)
  : M task_result :=
  try_except
    (let* job := query_job job_id in
     match job with
     | None => raise (Exception ("Job " +:+ pretty job_id +:+ " not found"))
     | Some _ =>
         start_processing job_id ;;
         let* job_obj_path := obtain_obj job_id prompt reference_image_path in
         convert_and_complete job_id job_obj_path project_id
     end)
    (mark_failed job_id).

End Task.

End Tasks.

(** ** file_converter.py: the fallback mesh *)

Module MeshFallback.
Import PyStr Trimesh Effects World ExportEngine FileConverter.

Section Fallback.
Variable w : world.

(** [os.path.join("generated", f"fallback_{job_id}" + extension)]. *)
Definition fallback_file (job : job_id) (extension : string) : string :=
  generated w ("fallback_" +:+ format_id job +:+ extension).

(** The id the conversions are called with: [f"fallback_{job_id}"]. *)
Definition fallback_id (job : job_id) : job_id :=
  StrId ("fallback_" +:+ format_id job).

(** Lines 359-374.  The two paths are assigned before the engine is
    called, so an exception leaves the variables as they stand at the call
    that raised. *)
Definition direct_engine_exports (m : mesh) (job : job_id)
  : M (option string * option string) :=
  let fbx := fallback_file job ".fbx" in
  let blend := fallback_file job ".blend" in
  try_except
    (let* success := export_model w m FBX fbx in
     let fbx_path := if success : bool then Some fbx else None in
     try_except
       (let* success := export_model w m RBXM blend in
        ret (fbx_path, if success : bool then Some blend else None))
       (fun export_engine_error => ret (fbx_path, Some blend)))
    (fun export_engine_error => ret (Some fbx, None)).

(** [create_simple_mesh_fallback].  The two inner [try] blocks leave their
    variable at [None] when the conversion raises. *)
Definition create_simple_mesh_fallback (job : job_id)
  : M (option string * option string) :=
  try_except
    (let m := creation (box (2%Q, 2%Q, 2%Q)) in
     let obj_path := fallback_file job ".obj" in
     call (MeshExport m obj_path None) (mesh_export w m obj_path None) ;;
     let* fbx_path :=
       try_except (some_path (convert_to_fbx w obj_path (fallback_id job)))
                  (fun _ => ret None) in
     let* blend_path :=
       try_except (convert_to_blend w obj_path (fallback_id job))
                  (fun _ => ret None) in
     if negb (bool_decide (is_Some fbx_path))
        && negb (bool_decide (is_Some blend_path))
        && EXPORT_AVAILABLE w
     then direct_engine_exports m job
     else ret (fbx_path, blend_path))
    (fun e => ret (None, None)).

End Fallback.

End MeshFallback.

(** ** tasks.py: project descriptions and themed packs *)

Module ProjectTasks.
Import PyStr.

(** A task dict of [parse_project_description]. *)
Record project_task : Type := ProjectTask {
  task_type : string;
  task_prompt : string;
  task_name : string
}.

(** [if keyword in description_lower: tasks.append(task)]. *)
Definition append_if (found : bool) (task : project_task)
  (tasks : list project_task) : list project_task :=
  if found then (tasks ++ [task])%list else tasks.

Definition parse_project_description (description : string) : list project_task :=
  let tasks := [] in
  let description_lower := lower description in
  let tasks :=
    append_if (contains "spaceship" description_lower)
              (ProjectTask "model" "futuristic spaceship" "spaceship") tasks in
  let tasks :=
    append_if (contains "car" description_lower)
              (ProjectTask "model" "realistic car" "car") tasks in
  let tasks :=
    append_if (contains "building" description_lower)
              (ProjectTask "model" "modern building" "building") tasks in
  let tasks :=
    append_if (contains "npc" description_lower)
              (ProjectTask "script" "NPC interaction system" "npc_controller") tasks in
  let tasks :=
    append_if (contains "quest" description_lower)
              (ProjectTask "script" "quest management system" "quest_manager") tasks in
  let tasks :=
    append_if (contains "world" description_lower || contains "map" description_lower)
              (ProjectTask "environment" description "main_world") tasks in
  tasks.

(** A dict literal with string keys, in insertion order, and
    [d.get(key, default)]. *)
Fixpoint dict_get {A} (d : list (string * A)) (key : string) (default : A) : A :=
  match d with
  | [] => default
  | (k, v) :: rest => if String.eqb key k then v else dict_get rest key default
  end.

Definition theme_assets : list (string * list string) :=
  [ ("medieval", ["medieval castle tower"; "medieval house"; "medieval wall";
                  "medieval gate"; "medieval furniture"; "medieval weapons"]);
    ("sci-fi", ["futuristic spaceship"; "sci-fi laboratory"; "alien creature";
                "futuristic weapon"; "space station"; "robot"]);
    ("fantasy", ["magical tree"; "dragon"; "wizard tower"; "magical portal";
                 "fantasy creature"; "enchanted weapon"]);
    ("modern", ["modern house"; "office building"; "modern car"; "furniture";
                "electronics"; "modern weapon"]) ].

Definition get_theme_assets (theme : string) : list string :=
  dict_get theme_assets theme ["generic asset"].

End ProjectTasks.

(** ** instance/ai_modules/geometry_generator.py *)

Module GeometryGenerator.
Import PyStr.

Inductive GeometryEngine : Type := NERF | GAUSSIAN_SPLATTING | PROCEDURAL.

(** The arrays of a mesh: rows of three coordinates (whole numbers in
    every literal of the file) and rows of three vertex indices. *)
Definition vertex_rows : Type := list (Z * Z * Z).
Definition face_rows : Type := list (nat * nat * nat).

(** A [GeometryGenerator] object: the engine of its config, and the two
    attributes that only [_initialize_nerf] and
    [_initialize_gaussian_splatting] set ([None]: not set). *)
Record generator : Type := Generator {
  engine : GeometryEngine;
  nerf_available : option bool;
  gaussian_splatting_available : option bool
}.

(** [create_geometry_generator(GeometryConfig(engine=...))]: [__init__]
    runs [_initialize_model], which sets the attribute of the engine to
    [False]. *)
Definition create_geometry_generator (e : GeometryEngine) : generator :=
  match e with
  | NERF => Generator NERF (Some false) None
  | GAUSSIAN_SPLATTING => Generator GAUSSIAN_SPLATTING None (Some false)
  | PROCEDURAL => Generator PROCEDURAL None None
  end.

Definition _create_sphere : vertex_rows * face_rows :=
  ([ (0, 0, 1); (0, 1, 0); (1, 0, 0);
     (0, 0, -1); (0, -1, 0); (-1, 0, 0);
     (0, 1, 0); (1, 0, 0); (0, 0, 1) ],
   [ (0, 1, 2); (3, 4, 5); (0, 2, 6);
     (3, 5, 7); (1, 4, 6); (2, 5, 7) ]%nat).

Definition _create_cube : vertex_rows * face_rows :=
  ([ (-1, -1, -1); (1, -1, -1); (1, 1, -1); (-1, 1, -1);
     (-1, -1, 1); (1, -1, 1); (1, 1, 1); (-1, 1, 1) ],
   [ (0, 1, 2); (0, 2, 3); (4, 7, 6); (4, 6, 5);
     (0, 4, 5); (0, 5, 1); (2, 6, 7); (2, 7, 3);
     (0, 3, 7); (0, 7, 4); (1, 5, 6); (1, 6, 2) ]%nat).

Definition _create_cylinder : vertex_rows * face_rows :=
  ([ (0, 0, -1); (0, 0, 1);
     (1, 0, -1); (1, 0, 1);
     (0, 1, -1); (0, 1, 1);
     (-1, 0, -1); (-1, 0, 1);
     (0, -1, -1); (0, -1, 1) ],
   [ (0, 2, 4); (0, 4, 6); (0, 6, 8); (0, 8, 2);
     (1, 3, 5); (1, 5, 7); (1, 7, 9); (1, 9, 3);
     (2, 3, 5); (2, 5, 4); (4, 5, 7); (4, 7, 6);
     (6, 7, 9); (6, 9, 8); (8, 9, 3); (8, 3, 2) ]%nat).

Definition _create_cone : vertex_rows * face_rows :=
  ([ (0, 0, -1);
     (0, 0, 1);
     (1, 0, -1); (0, 1, -1); (-1, 0, -1); (0, -1, -1) ],
   [ (0, 2, 3); (0, 3, 4); (0, 4, 5); (0, 5, 2);
     (1, 2, 3); (1, 3, 4); (1, 4, 5); (1, 5, 2) ]%nat).

Definition _create_placeholder_mesh : vertex_rows * face_rows :=
  ([ (0, 0, 0); (1, 0, 0); (0, 1, 0); (0, 0, 1) ],
   [ (0, 1, 2); (0, 1, 3); (1, 2, 3); (0, 2, 3) ]%nat).

Definition _create_mesh_from_prompt (prompt : string) : vertex_rows * face_rows :=
  let prompt_lower := lower prompt in
  if any_in ["sphere"; "ball"; "orb"] prompt_lower then _create_sphere
  else if any_in ["cube"; "box"; "block"] prompt_lower then _create_cube
  else if any_in ["cylinder"; "tube"; "pipe"] prompt_lower then _create_cylinder
  else if any_in ["cone"; "pyramid"] prompt_lower then _create_cone
  else _create_cube.

(** The dict [generate_geometry] returns: with ['success': True] the
    arrays, the engine label and the metadata; with ['success': False] the
    text of the exception. *)
Inductive geometry_result : Type :=
| Generated (vertices : vertex_rows) (faces : face_rows) (engine_label : string)
            (prompt : string) (image_used : bool)
| Failed (error : string).

Definition success (r : geometry_result) : bool :=
  match r with
  | Generated _ _ _ _ _ => true
  | Failed _ => false
  end.

Definition is_not_none (image_path : option string) : bool :=
  match image_path with Some _ => true | None => false end.

Definition _generate_procedural (prompt : string) (image_path : option string)
  : result geometry_result :=
  let '(vertices, faces) := _create_mesh_from_prompt prompt in
  Ok (Generated vertices faces "procedural" prompt (is_not_none image_path)).

(** Reading an attribute that was never set raises [AttributeError]. *)
Definition attribute (name : string) (value : option bool) : result bool :=
  match value with
  | Some b => Ok b
  | None => Raise (Exception ("'GeometryGenerator' object has no attribute '"
                               +:+ name +:+ "'"))
  end.

Definition _generate_nerf (g : generator) (prompt : string)
  (image_path : option string) : result geometry_result :=
  match attribute "nerf_available" (nerf_available g) with
  | Raise e => Raise e
  | Ok available =>
      if negb available then _generate_procedural prompt image_path
      else
        let '(vertices, faces) := _create_placeholder_mesh in
        Ok (Generated vertices faces "nerf" prompt (is_not_none image_path))
  end.

Definition _generate_gaussian_splatting (g : generator) (prompt : string)
  (image_path : option string) : result geometry_result :=
  match attribute "gaussian_splatting_available" (gaussian_splatting_available g) with
  | Raise e => Raise e
  | Ok available =>
      if negb available then _generate_procedural prompt image_path
      else
        let '(vertices, faces) := _create_placeholder_mesh in
        Ok (Generated vertices faces "gaussian_splatting" prompt
                      (is_not_none image_path))
  end.

(** [generate_geometry]: the [except] clause turns an exception into the
    dict of a failure. *)
Definition generate_geometry (g : generator) (prompt : string)
  (image_path : option string) : geometry_result :=
  match
    match engine g with
    | NERF => _generate_nerf g prompt image_path
    | GAUSSIAN_SPLATTING => _generate_gaussian_splatting g prompt image_path
    | PROCEDURAL => _generate_procedural prompt image_path
    end
  with
  | Ok r => r
  | Raise e => Failed (str_exn e)
  end.

End GeometryGenerator.

(** ** advanced_generator.py: the other engines *)

Module Engines.
Import PyStr Classifier Trimesh Procedural.

Section Engines.
Variable w : world.

(** [_calculate_mesh_quality mesh prompt config], a float read off the
    vertex count, the face count and the volume of the mesh; the code
    only compares the scores, so they are kept as rationals. *)
Variable _calculate_mesh_quality : mesh -> Q.

(** How many draws of [np.random] a call of the texture generator makes. *)
Variable texture_draws : string -> option string -> nat.

(** [_enhanced_procedural_generation]: a new config object is built, so
    what [_procedural_generation] assigns to it is lost with it, and the
    caller's config stays as it is. *)
Definition _enhanced_procedural_generation (prompt : string)
  (config : GenerationConfig) (reference_image_path : option string) (r : rng)
  : mesh * rng :=
  let enhanced_config :=
    {| engine := engine config;
       complexity := Z.min 10 (complexity config + 2);
       detail_level := Z.min 10 (detail_level config + 2);
       material_style := material_style config;
       generate_textures := generate_textures config;
       generate_materials := generate_materials config;
       variations := variations config;
       seed := seed config |} in
  let '(m, _, r) :=
    _procedural_generation w prompt enhanced_config reference_image_path r in
  (m, r).

Definition _has_ai_api_access : bool := false.

(** [_call_external_ai_api] raises [NotImplementedError]. *)
Definition _call_external_ai_api (prompt : string) (config : GenerationConfig)
  (reference_image_path : option string) : result mesh :=
  Raise (Exception "External AI API not configured").

Definition _ai_enhanced_generation (prompt : string)
  (config : GenerationConfig) (reference_image_path : option string) (r : rng)
  : mesh * rng :=
  let from_api :=
    if _has_ai_api_access
    then match _call_external_ai_api prompt config reference_image_path with
         | Ok m => Some m
         | Raise _ => None
         end
    else None in
  match from_api with
  | Some m => (m, r)
  | None => _enhanced_procedural_generation prompt config reference_image_path r
  end.

(** The loop of [_select_best_mesh] after its first two statements. *)
Fixpoint best_of (candidates : list mesh) (best_mesh : mesh) (best_score : Q)
  : mesh :=
  match candidates with
  | [] => best_mesh
  | m :: rest =>
      let score := _calculate_mesh_quality m in
      if negb (Qle_bool score best_score)     (* score > best_score *)
      then best_of rest m score
      else best_of rest best_mesh best_score
  end.

(** [_select_best_mesh]; [meshes[0]] raises [IndexError] on an empty
    list. *)
Definition _select_best_mesh (meshes : list mesh) : result mesh :=
  match meshes with
  | [] => Raise (Exception "list index out of range")
  | first :: rest => Ok (best_of rest first (_calculate_mesh_quality first))
  end.

(** [_hybrid_generation].  The three candidates are generated one after
    the other on the caller's config, which the first call may assign;
    the [try] around the third has nothing to catch. *)
Definition _hybrid_generation (prompt : string) (config : GenerationConfig)
  (reference_image_path : option string) (r : rng)
  : result mesh * GenerationConfig * rng :=
  let meshes := [] in
  let '(proc_mesh, config, r) :=
    _procedural_generation w prompt config reference_image_path r in
  let meshes := (meshes ++ [proc_mesh])%list in
  let '(enh_mesh, r) :=
    _enhanced_procedural_generation prompt config reference_image_path r in
  let meshes := (meshes ++ [enh_mesh])%list in
  let '(ai_mesh, r) :=
    _ai_enhanced_generation prompt config reference_image_path r in
  let meshes := (meshes ++ [ai_mesh])%list in
  if (1 <? length meshes)%nat
  then (_select_best_mesh meshes, config, r)
  else (match meshes with
        | first :: _ => Ok first
        | [] => Raise (Exception "list index out of range")
        end, config, r).

(** [_apply_texture_aware_modifications] returns its mesh. *)
Definition _apply_texture_aware_modifications (m : mesh) (prompt : string)
  (config : GenerationConfig) : mesh := m.

(** [_texture_generated_generation]: the result of the texture generator
    is logged and dropped, and an exception of it is caught; what is left
    of the call is the random numbers it drew. *)
Definition _texture_generated_generation (prompt : string)
  (config : GenerationConfig) (reference_image_path : option string) (r : rng)
  : mesh * GenerationConfig * rng :=
  let '(base_mesh, config, r) :=
    _procedural_generation w prompt config reference_image_path r in
  let r := {| py_draws := py_draws r;
              np_draws := np_draws r + texture_draws prompt reference_image_path |} in
  (_apply_texture_aware_modifications base_mesh prompt config, config, r).

End Engines.

End Engines.

(** ** instance/ai_modules/ai_integration.py *)

Module AIIntegration.
Import PyStr Trimesh Procedural.

Inductive AIService : Type :=
| OPENAI | STABILITY_AI | MIDJOURNEY | DALL_E | CUSTOM_API.

Definition service_eqb (a b : AIService) : bool :=
  match a, b with
  | OPENAI, OPENAI | STABILITY_AI, STABILITY_AI | MIDJOURNEY, MIDJOURNEY
  | DALL_E, DALL_E | CUSTOM_API, CUSTOM_API => true
  | _, _ => false
  end.

(** The dict [_extract_mesh_parameters] returns. *)
Record mesh_parameters : Type := MeshParameters {
  shape_type : string;
  dimensions : Q * Q * Q;
  complexity : Z;
  materials : list string;
  features : list string;
  style : string
}.

Definition _extract_mesh_parameters (description : string) : mesh_parameters :=
  let description_lower := lower description in
  let shape :=
    if contains "vehicle" description_lower || contains "car" description_lower
    then "vehicle"
    else if contains "building" description_lower || contains "house" description_lower
    then "building"
    else if contains "character" description_lower || contains "person" description_lower
    then "character"
    else if contains "weapon" description_lower || contains "sword" description_lower
    then "weapon"
    else if contains "furniture" description_lower || contains "chair" description_lower
    then "furniture"
    else if contains "nature" description_lower || contains "tree" description_lower
    then "nature"
    else "abstract" in
  let level :=
    if contains "complex" description_lower || contains "detailed" description_lower
    then 8
    else if contains "simple" description_lower || contains "basic" description_lower
    then 3
    else 5 in
  let look :=
    if contains "stylized" description_lower || contains "cartoon" description_lower
    then "stylized"
    else if contains "realistic" description_lower
            || contains "photorealistic" description_lower
    then "realistic"
    else if contains "low poly" description_lower
    then "low_poly"
    else "realistic" in
  {| shape_type := shape;
     dimensions := (1%Q, 1%Q, 1%Q);
     complexity := level;
     materials := ["default"];
     features := [];
     style := look |}.

(** The dict of a service call: ['success': True] with the mesh and the
    name of the service, or ['success': False] with the error text and
    ['fallback': True]. *)
Inductive service_result : Type :=
| Succeeded (m : mesh) (service : string)
| Fallback (error : string).

Definition succeeded (r : service_result) : bool :=
  match r with
  | Succeeded _ _ => true
  | Fallback _ => false
  end.

Section Services.
Variable w : world.

(** [_generate_with_openai] and [_generate_with_custom_api] as their
    caller sees them: the mesh of the success dict, or the exception they
    raise again. *)
Variable _generate_with_openai : string -> option string -> result mesh.
Variable _generate_with_custom_api : string -> option string -> result mesh.

(** The loop of [_apply_complexity_modifications]: spheres of radius 0.02
    at points sampled on the surface of the mesh handed in. *)
Fixpoint sampled_details (count : nat) (m : mesh) (r : rng) : list mesh * rng :=
  match count with
  | O => ([], r)
  | S k =>
      let point := sample_surface w m (np_draws r) in
      let r := {| py_draws := py_draws r; np_draws := S (np_draws r) |} in
      let detail := apply_translation (creation (uv_sphere (2 # 100))) point in
      let (details, r) := sampled_details k m r in
      (detail :: details, r)
  end.

Definition _apply_complexity_modifications (m : mesh) (complexity : Z) (r : rng)
  : mesh * rng :=
  if complexity <=? 3 then (m, r)
  else
    let modified_mesh := m in
    let (modified_mesh, r) :=
      if 6 <=? complexity
      then
        let detail_count := Z.to_nat (complexity * 2) in
        let (details, r) := sampled_details detail_count m r in
        match details with
        | [] => (modified_mesh, r)
        | _ => (concatenate ([modified_mesh] ++ details)%list, r)
        end
      else (modified_mesh, r) in
    if 7 <=? complexity
    then (apply_op (Jitter (complexity # 100) (np_draws r)) modified_mesh,
          {| py_draws := py_draws r; np_draws := S (np_draws r) |})
    else (modified_mesh, r).

(** [_generate_with_stability_ai] raises [NotImplementedError], logs it
    and raises it again. *)
Definition _generate_with_stability_ai (prompt : string)
  (reference_image_path : option string) : result mesh :=
  Raise (Exception "Stability AI integration not yet implemented").

(** [AIIntegration.generate_3d_from_prompt] for a config of [service]. *)
Definition generate_3d_from_prompt (service : AIService) (prompt : string)
  (reference_image_path : option string) : service_result :=
  match
    match service with
    | OPENAI =>
        match _generate_with_openai prompt reference_image_path with
        | Ok m => Ok (Succeeded m "openai")
        | Raise e => Raise e
        end
    | STABILITY_AI =>
        match _generate_with_stability_ai prompt reference_image_path with
        | Ok m => Ok (Succeeded m "stability_ai")
        | Raise e => Raise e
        end
    | CUSTOM_API =>
        match _generate_with_custom_api prompt reference_image_path with
        | Ok m => Ok (Succeeded m "custom_api")
        | Raise e => Raise e
        end
    | MIDJOURNEY | DALL_E => Raise (ValueError "Unsupported AI service")
    end
  with
  | Ok r => r
  | Raise e => Fallback (str_exn e)
  end.

Definition preferred_order : list AIService := [OPENAI; STABILITY_AI; CUSTOM_API].

(** The loop of [generate_with_best_service] over the preferred order;
    [services] are the keys of [self.services]. *)
Fixpoint try_services (services order : list AIService) (prompt : string)
  (reference_image_path : option string) : service_result :=
  match order with
  | [] => Fallback "All AI services failed"
  | service :: rest =>
      if existsb (service_eqb service) services
      then
        let r := generate_3d_from_prompt service prompt reference_image_path in
        if succeeded r then r
        else try_services services rest prompt reference_image_path
      else try_services services rest prompt reference_image_path
  end.

Definition generate_with_best_service (services : list AIService)
  (prompt : string) (reference_image_path : option string) : service_result :=
  match services with
  | [] => Fallback "No AI services configured"
  | _ => try_services services preferred_order prompt reference_image_path
  end.

End Services.

End AIIntegration.

(** ** tasks.py: the asset queue *)

Module QueueTask.
Import PyStr Trimesh Effects World FileConverter ModelGenerator Tasks.
Import Models.

(** The columns of an [AssetQueue] row that the task reads or assigns,
    and the ids of the jobs of its [assets] relationship.  The row is
    handed from step to step; the session of the model keeps the job
    rows. *)
Record AssetQueue : Type := Queue {
  queue_id : Z;
  queue_name : string;
  queue_status : string;
  completed_items : Z;
  zip_path : option string;
  queue_completed_at : option Z;
  assets : list Z
}.

Definition with_queue_status (v : string) (q : AssetQueue) : AssetQueue :=
  {| queue_id := queue_id q; queue_name := queue_name q; queue_status := v;
     completed_items := completed_items q; zip_path := zip_path q;
     queue_completed_at := queue_completed_at q; assets := assets q |}.

Definition with_completed_items (v : Z) (q : AssetQueue) : AssetQueue :=
  {| queue_id := queue_id q; queue_name := queue_name q;
     queue_status := queue_status q; completed_items := v;
     zip_path := zip_path q; queue_completed_at := queue_completed_at q;
     assets := assets q |}.

Definition with_zip_path (v : option string) (q : AssetQueue) : AssetQueue :=
  {| queue_id := queue_id q; queue_name := queue_name q;
     queue_status := queue_status q; completed_items := completed_items q;
     zip_path := v; queue_completed_at := queue_completed_at q;
     assets := assets q |}.

Definition with_queue_completed_at (v : option Z) (q : AssetQueue) : AssetQueue :=
  {| queue_id := queue_id q; queue_name := queue_name q;
     queue_status := queue_status q; completed_items := completed_items q;
     zip_path := zip_path q; queue_completed_at := v; assets := assets q |}.

(** A call the trace has no event for: the outcome is the answer. *)
Definition answer {A} (r : result A) : M A := fun s => (r, s).

Section Queue.
Variable w : world.

(** [zipfile.ZipFile(zip_path, 'w', ...)] and
    [zip_file.write(file, arcname)]. *)
Variable zip_open : string -> result unit.
Variable zip_write : string -> string -> string -> result unit.

Definition join (directory filename : string) : string :=
  directory +:+ (if platform_windows w then "\" else "/") +:+ filename.

(** [if path and os.path.exists(path): zip_file.write(path, arcname)]. *)
Definition add_member (zip : string) (path : option string) (arcname : string)
  : M unit :=
  match path with
  | Some file =>
      if truthy file
      then
        let* there := call (PathExists file) (Ok (path_exists w file)) in
        if there : bool then answer (zip_write zip file arcname) else ret tt
      else ret tt
  | None => ret tt
  end.

(** The loop of [create_bulk_zip] over the rows of the assets. *)
Fixpoint add_assets (zip : string) (rows : list GenerationJob) : M unit :=
  match rows with
  | [] => ret tt
  | asset :: rest =>
      (if String.eqb (status asset) "completed"
       then
         add_member zip (obj_path asset) (pretty (id asset) +:+ "/model.obj") ;;
         add_member zip (fbx_path asset) (pretty (id asset) +:+ "/model.fbx") ;;
         add_member zip (blend_path asset) (pretty (id asset) +:+ "/model.blend")
       else ret tt) ;;
      add_assets zip rest
  end.

(** [queue.assets]: the rows of the jobs of the queue, as the session has
    them, loaded when the attribute is read. *)
Definition asset_rows (queue : AssetQueue) : M (list GenerationJob) :=
  let* d := query in
  ret (omap (fun job => jobs d !! job) (assets queue)).

(** [create_bulk_zip]: the path of the archive, or [None] when anything
    raised. *)
Definition create_bulk_zip (queue : AssetQueue) : M (option string) :=
  try_except
    (let zip_dir := join "generated" "queues" in
     call (MakeDirs zip_dir) (makedirs w zip_dir) ;;
     let zip :=
       join zip_dir ("queue_" +:+ pretty (queue_id queue) +:+ "_"
                     +:+ queue_name queue +:+ ".zip") in
     answer (zip_open zip) ;;
     let* rows := asset_rows queue in
     add_assets zip rows ;;
     ret (Some zip))
    (fun e => ret None).

(** One turn of the loop of [process_asset_queue_task]; the queue row
    comes back with its counter.  The handler reads [asset.id] for its log
    line (line 291), which the session has to refresh once a flush has
    failed; an exception raised in the handler leaves the loop. *)
Definition process_asset (queue : AssetQueue) (asset : GenerationJob)
  : M AssetQueue :=
  try_except
    (let* obj_path :=
       generate_3d_model w (prompt asset) (reference_image_path asset)
                         (Some (id asset)) "hybrid" 7 8 "realistic" in
     let* there :=
       if truthy obj_path
       then call (PathExists obj_path) (Ok (path_exists w obj_path))
       else ret false in
     if there : bool
     then
       let* fbx_path := convert_to_fbx w obj_path (IntId (id asset)) in
       let* blend_path := convert_to_blend w obj_path (IntId (id asset)) in
       set_status (id asset) "completed" ;;
       update_job (id asset) (with_obj_path (Some obj_path)) ;;
       update_job (id asset) (with_fbx_path (Some fbx_path)) ;;
       update_job (id asset) (with_blend_path blend_path) ;;
       update_job (id asset) (with_completed_at (Some (utcnow w))) ;;
       let queue := with_completed_items (completed_items queue + 1) queue in
       commit (db_flush w) ;;
       ret queue
     else ret queue)
    (fun e =>
       query ;;
       set_status (id asset) "failed" ;;
       update_job (id asset) (with_error_message (Some (str_exn e))) ;;
       commit (db_flush w) ;;
       ret queue).

Fixpoint process_assets (queue : AssetQueue) (rows : list GenerationJob)
  : M AssetQueue :=
  match rows with
  | [] => ret queue
  | asset :: rest =>
      let* queue := process_asset queue asset in
      process_assets queue rest
  end.

(** Lines 266-305, for the row that [AssetQueue.query.get] found. *)
Definition process_queue (queue : AssetQueue) : M AssetQueue :=
  let queue := with_queue_status "processing" queue in
  commit (db_flush w) ;;
  let* rows := asset_rows queue in
  let* queue := process_assets queue rows in
  let* queue :=
    if 0 <? completed_items queue
    then let* zip := create_bulk_zip queue in ret (with_zip_path zip queue)
    else ret queue in
  let queue := with_queue_status "completed" queue in
  let queue := with_queue_completed_at (Some (utcnow w)) queue in
  commit (db_flush w) ;;
  ret queue.

(** [process_asset_queue_task]; [found] is what [AssetQueue.query.get]
    answers.  The value returned is the queue row as the task leaves it
    (the dict it returns holds the id and the status "completed").  The
    handler asks for the row again, assigns 'failed' to it, commits and
    raises again. *)
Definition process_asset_queue_task (number : Z) (found : option AssetQueue)
  : M AssetQueue :=
  try_except
    (match found with
     | None => raise (Exception ("Queue " +:+ pretty number +:+ " not found"))
     | Some queue => process_queue queue
     end)
    (fun e =>
       query ;;
       match found with
       | Some _ => commit (db_flush w)
       | None => ret tt
       end ;;
       raise e).

End Queue.

End QueueTask.

(* ================================================================== *)
(** * Specification vocabulary *)
(* ================================================================== *)

(** The predicates and functions in which the properties below are
    stated, and the sample worlds on which they are run. *)

(** ** Strings and keyword tables *)

(** [s] occurs in [t] as a run of consecutive characters. *)
Definition substring_of (s t : string) : Prop :=
  exists before after, t = before +:+ s +:+ after.

Section ClassifierVocabulary.
Import Classifier.

(** No keyword of any entry of [table] occurs in [text]. *)
Definition no_keyword_matches (table : keyword_table) (text : string) : Prop :=
  forall name keywords k,
    In (name, keywords) table -> In k keywords -> ~ substring_of k text.

(** [name] is the first entry of [table], in its order, one of whose
    keywords occurs in [text]. *)
Definition first_matching (table : keyword_table) (text name : string) : Prop :=
  exists earlier keywords later,
    table = (earlier ++ (name, keywords) :: later)%list
    /\ (exists k, In k keywords /\ substring_of k text)
    /\ no_keyword_matches earlier text.

End ClassifierVocabulary.

(** ** Detail injection *)

Section ProceduralVocabulary.
Import Classifier Trimesh Procedural.
Variable w : world.

(** The bumps [_add_surface_details] makes from draw [start] on: spheres of
    radius 0.05 at points sampled on the surface of [m]. *)
Definition bumps_from (m : mesh) (start count : nat) : list mesh :=
  map (fun k => apply_translation (creation (uv_sphere (5 # 100)))
                                  (sample_surface w m (start + k)))
      (seq 0 count).

(** The cylinders [_add_fine_details] makes from draw [start] on: radius
    0.02, height 0.1, each moved by three uniform draws. *)
Definition cylinders_from (start count : nat) : list mesh :=
  map (fun k => apply_translation (creation (cylinder (2 # 100) (1 # 10)))
                 (uniform w (-1) 1 (start + 3 * k),
                  uniform w (-1) 1 (S (start + 3 * k)),
                  uniform w (-1) 1 (S (S (start + 3 * k)))))
      (seq 0 count).

(** The shape types for which [_add_structural_details] adds panel lines. *)
Definition has_panels (info : shape_info) : bool :=
  existsb (String.eqb (shape_type info)) ["vehicle"; "building"; "robot"].

End ProceduralVocabulary.

(** ** Effects *)

Section EffectVocabulary.
Import Effects.

(** Running [m] only appends events that satisfy [P] to the trace, and
    leaves the database session and the stored snapshots alone. *)
Definition emits {A} (P : event -> Prop) (m : M A) : Prop :=
  forall s, exists new,
    trace (snd (m s)) = (trace s ++ new)%list
    /\ Forall P new
    /\ session (snd (m s)) = session s
    /\ history (snd (m s)) = history s.

(** [m] returns a value in every state. *)
Definition never_raises {A} (m : M A) : Prop :=
  forall s, exists a, fst (m s) = Ok a.

(** The outcome of [m] does not depend on the state it starts from: it is
    decided by its arguments and the answers of the collaborators. *)
Definition stateless {A} (m : M A) : Prop :=
  forall s1 s2, fst (m s1) = fst (m s2).

End EffectVocabulary.

(** ** The export fallback chain *)

Section ConverterVocabulary.
Import PyStr Trimesh Effects World ExportEngine FileConverter.
Variable w : world.

(** The calls the FBX converter may make when Blender is not found: the
    lookups of [find_blender_executable], loading the OBJ file, asking for
    the exporters, the engine's mesh clean-up, and exports to the FBX
    output path of the job. *)
Definition lookup_or_fbx_export (job : job_id) (ev : event) : Prop :=
  match ev with
  | Subprocess cmd =>
      exists name, cmd = [if platform_windows w then "where" else "which"; name]
  | PathExists _ | TrimeshLoad _ | ExportersAvailable _ | OptimizeMesh _ => True
  | MeshExport _ path file_type =>
      path = output_path_of w job ".fbx" /\ file_type = Some "fbx"
  | _ => False
  end.

End ConverterVocabulary.

(** ** Model generation *)

Section GeneratorVocabulary.
Import PyStr Trimesh Procedural Effects World ExportEngine ModelGenerator.
Variable w : world.

(** The arguments as [generate_3d_model] uses them after its validation. *)
Definition prompt_used (prompt : string) : string := slice_to 500 (strip prompt).
Definition clamped (x : Z) : Z := Z.max 1 (Z.min 10 x).
Definition style_used (style : string) : string :=
  if existsb (String.eqb style) valid_styles then style else "realistic".
Definition engine_used (engine : string) : string :=
  if existsb (String.eqb engine) valid_engines then engine else "hybrid".

(** Lines 84-163 as one step: the mesh, if any, that line 165 tests. *)
Definition mesh_stage (prompt : string) (image : option string)
  (job_id : option Z) (engine : string) (c d : Z) (style : string)
  : M (option mesh) :=
  let* enhanced := enhance_prompt w prompt image in
  produce_mesh w prompt enhanced image job_id engine c d style.

(** The export engine's OBJ export fails: the engine is not there, its
    clean-up raises, or the exporter raises on the cleaned mesh. *)
Definition engine_export_fails (m : mesh) (path : string) : Prop :=
  USE_ADVANCED w = false
  \/ match optimize_mesh w m with
     | Raise _ => True
     | Ok optimized => exists e, mesh_export w optimized path (Some "obj") = Raise e
     end.

(** Every export tier fails: the engine, the direct OBJ export, and the
    STL export. *)
Definition all_exports_fail (m : mesh) (path : string) : Prop :=
  engine_export_fails m path
  /\ (exists e, mesh_export w m path None = Raise e)
  /\ (exists e, mesh_export w m (replace ".obj" ".stl" path) None = Raise e).

(** What a [GenerateModel] call must carry when the caller asked for
    complexity [c] and detail level [d]. *)
Definition carries_clamped (c d : Z) (ev : event) : Prop :=
  match ev with
  | GenerateModel _ config _ =>
      Procedural.complexity config = Z.max 1 (Z.min 10 c)
      /\ Procedural.detail_level config = Z.max 1 (Z.min 10 d)
      /\ 1 <= Procedural.complexity config <= 10
      /\ 1 <= Procedural.detail_level config <= 10
  | _ => True
  end.

End GeneratorVocabulary.

(** ** The generation task *)

Section TaskVocabulary.
Import Effects Models.

(** An event that neither assigns a status nor commits or flushes. *)
Definition quiet (ev : event) : Prop :=
  match ev with
  | SetStatus _ _ | Commit | FlushFailed => False
  | _ => True
  end.

(** The assignments to the status column recorded in a trace, in order:
    the job and the value assigned. *)
Fixpoint status_writes (events : list event) : list (Z * string) :=
  match events with
  | [] => []
  | SetStatus job value :: rest => (job, value) :: status_writes rest
  | _ :: rest => status_writes rest
  end.

(** From [s] to [s'] only quiet events were recorded, nothing was
    committed, and the row of the job is still in the session. *)
Definition kept (job_id : Z) (s s' : state) : Prop :=
  exists new,
    trace s' = (trace s ++ new)%list
    /\ Forall quiet new
    /\ history s' = history s
    /\ (is_Some (jobs (session s) !! job_id)
        -> is_Some (jobs (session s') !! job_id)).


(** The status of the job in each of a list of committed snapshots. *)
Definition job_statuses (job_id : Z) (snapshots : list database)
  : list (option string) :=
  map (fun d => status <$> jobs d !! job_id) snapshots.

End TaskVocabulary.

(** ** Sample worlds *)

(** A world in which the geometry generator raises, and each base shape is
    one box. *)
Definition boxes_world : Procedural.world :=
  let one_box := fun (_ : string) (scale : Q) =>
    Trimesh.creation (Trimesh.box (scale, scale, scale)) in
  {| Procedural.generate_geometry := fun _ _ => Raise (Exception "torch is not installed");
     Procedural._generate_vehicle_shape := one_box;
     Procedural._generate_building_shape := one_box;
     Procedural._generate_furniture_shape := one_box;
     Procedural._generate_character_shape := one_box;
     Procedural._generate_weapon_shape := one_box;
     Procedural._generate_nature_shape := one_box;
     Procedural._generate_abstract_shape := one_box;
     Procedural.sample_surface := fun _ _ => (0%Q, 0%Q, 0%Q);
     Procedural.uniform := fun _ _ _ => 0%Q;
     Procedural.np_uniform3 := fun _ _ _ => (1%Q, 1%Q, 1%Q) |}.

Definition config_complexity_10 : Procedural.GenerationConfig :=
  {| Procedural.engine := Procedural.PROCEDURAL;
     Procedural.complexity := 10;
     Procedural.detail_level := 8;
     Procedural.material_style := "realistic";
     Procedural.generate_textures := true;
     Procedural.generate_materials := true;
     Procedural.variations := 1;
     Procedural.seed := None |}.

(** A machine without Blender.  [which] finds nothing and no install path
    exists; [trimesh.load] reads a mesh of one box; a trimesh mesh has no
    [exporters_available] and no FBX exporter; OBJ and STL exports work.
    [engine] tells whether file_converter.py could import its export
    engine, [json_ok] whether the engine can write its JSON file. *)
Definition no_blender_world (engine json_ok advanced : bool) : World.world :=
  {| World.platform_windows := false;
     World.subprocess_run := fun _ => Ok (1, "", "");
     World.path_exists := fun _ => false;
     World.write_temp_script := fun _ => Ok "/tmp/tmpq1w2e3.py";
     World.makedirs := fun _ => Ok tt;
     World.trimesh_load := fun _ =>
       Ok (Some (Trimesh.creation (Trimesh.box (1%Q, 1%Q, 1%Q))));
     World.has_export := fun _ => true;
     World.exporters_available := fun _ =>
       Raise (Exception "'Trimesh' object has no attribute 'exporters_available'");
     World.mesh_export := fun _ _ file_type =>
       match file_type with
       | Some "fbx" => Raise (ValueError "fbx exporter not available")
       | _ => Ok tt
       end;
     World.optimize_mesh := fun m => Ok m;
     World.write_json := fun _ =>
       if json_ok then Ok tt else Raise (Exception "Permission denied");
     World.EXPORT_AVAILABLE := engine;
     World.USE_ADVANCED := advanced;
     World.process_text_and_image := fun _ _ => Ok None;
     World.available_services := [];
     World.generate_with_best_service := fun _ _ => Ok None;
     World.generate_model := fun _ _ _ =>
       Ok (Some (Some (Trimesh.creation (Trimesh.box (1%Q, 1%Q, 1%Q)))));
     World.create_mesh := fun _ _ =>
       Ok (Trimesh.creation (Trimesh.box (1%Q, 1%Q, 1%Q)));
     World.generate_material_for_prompt := fun _ _ => Ok 0%nat;
     World.apply_material_to_mesh := fun m _ => Ok m;
     World.generate_texture_image := fun _ => Ok None;
     World.create_material_file := fun _ name => Ok name;
     World.py_hash := fun _ => 42;
     World.time_now := 1700000000;
     World.task_request_id := "task-1";
     World.utcnow := 1700000000;
     World.db_flush := fun _ => Ok tt |}.

Definition empty_state : Effects.state :=
  {| Effects.trace := [];
     Effects.session := Models.Database ∅ [] ∅ [];
     Effects.history := [] |}.

Definition pending_job (n : Z) (text : string) : Models.GenerationJob :=
  {| Models.id := n; Models.prompt := text;
     Models.reference_image_path := None; Models.status := "pending";
     Models.obj_path := None; Models.fbx_path := None;
     Models.blend_path := None; Models.error_message := None;
     Models.task_id := None; Models.completed_at := None;
     Models.project_id := None |}.

(** A session that holds one pending job, number 7. *)
Definition one_job_state (text : string) : Effects.state :=
  {| Effects.trace := [];
     Effects.session := Models.Database {[ 7 := pending_job 7 text ]} [] ∅ [];
     Effects.history := [] |}.

(** ** Looking for Blender *)

Section LookupVocabulary.
Import PyStr Effects World FileConverter.
Variable w : world.

(** The command that asks the system PATH for an executable. *)
Definition lookup_command (name : string) : list string :=
  [if platform_windows w then "where" else "which"; name].

(** The install locations probed on this platform. *)
Definition install_paths : list string :=
  if platform_windows w then windows_paths else unix_paths.

(** What the system PATH knows of [name]: the first line of the output of
    the lookup command, when the command exits with 0 and that line is not
    empty. *)
Definition path_lookup (name : string) : option string :=
  match subprocess_run w (lookup_command name) with
  | Ok (returncode, stdout, _) =>
      if (returncode =? 0) && truthy (first_line (strip stdout))
      then Some (first_line (strip stdout))
      else None
  | Raise _ => None
  end.

(** Where Blender is, by the order of the search: the PATH entry of
    "blender", that of "blender3d", the first install location that
    exists. *)
Definition blender_location : option string :=
  match path_lookup "blender" with
  | Some path => Some path
  | None =>
      match path_lookup "blender3d" with
      | Some path => Some path
      | None => List.find (path_exists w) install_paths
      end
  end.

(** The Blender command line of a conversion. *)
Definition blender_command (blender script : string) : list string :=
  [blender; "--background"; "--python"; script].

(** The exception the handlers of [convert_with_blender] pass on when
    [e] is raised inside it. *)
Definition passed_on (e : exn) : exn :=
  match e with
  | TimeoutExpired _ => Exception "Blender conversion timed out"
  | _ => e
  end.

(** The output path of the Blender tier for a format name. *)
Definition blender_output (job : job_id) (output_format : string) : string :=
  output_path_of w job
    (if String.eqb output_format "blend" then ".blend" else ".fbx").

(** Whether a call returned. *)
Definition returned {A} (r : result A) : bool :=
  match r with
  | Ok _ => true
  | Raise _ => false
  end.

(** What [convert_to_blend] may do: anything but export a mesh, and write
    JSON nowhere but to the Blend output path of the job. *)
Definition blend_conversion_event (job : job_id) (ev : event) : Prop :=
  match ev with
  | MeshExport _ _ _ => False
  | WriteJson path => path = output_path_of w job ".blend"
  | _ => True
  end.

(** An event that is not a mesh export. *)
Definition no_mesh_export (ev : event) : Prop :=
  match ev with
  | MeshExport _ _ _ => False
  | _ => True
  end.

End LookupVocabulary.

(** ** The fallback mesh *)

Section FallbackVocabulary.
Import PyStr Trimesh Effects World ExportEngine FileConverter MeshFallback.
Variable w : world.

(** [create_simple_mesh_fallback] without its lines 357-374: the cube is
    exported, both converters run, and their answers are returned. *)
Definition fallback_conversions (job : job_id)
  : M (option string * option string) :=
  try_except
    (let m := creation (box (2%Q, 2%Q, 2%Q)) in
     let obj_path := fallback_file w job ".obj" in
     call (MeshExport m obj_path None) (mesh_export w m obj_path None) ;;
     let* fbx_path := convert_to_fbx w obj_path (fallback_id job) in
     let* blend_path := convert_to_blend w obj_path (fallback_id job) in
     ret (Some fbx_path, blend_path))
    (fun e => ret (None, None)).

End FallbackVocabulary.

(** A machine with Blender on its PATH.  [which blender] prints its path;
    running Blender gives [blender_answer]; [output_exists] tells whether
    a file is found where it is looked for. *)
Definition blender_world (blender_answer : result (Z * string * string))
  (output_exists : bool) : World.world :=
  let base := no_blender_world true true true in
  {| World.platform_windows := false;
     World.subprocess_run := fun cmd =>
       match cmd with
       | [program; name] =>
           if String.eqb program "which" && String.eqb name "blender"
           then Ok (0, "/usr/bin/blender" +:+ FileConverter.nl
                       +:+ "/snap/bin/blender" +:+ FileConverter.nl, "")
           else Ok (1, "", "")
       | [_; option; _; _] =>
           if String.eqb option "--background" then blender_answer
           else Ok (1, "", "")
       | _ => Ok (1, "", "")
       end;
     World.path_exists := fun _ => output_exists;
     World.write_temp_script := World.write_temp_script base;
     World.makedirs := World.makedirs base;
     World.trimesh_load := World.trimesh_load base;
     World.has_export := World.has_export base;
     World.exporters_available := World.exporters_available base;
     World.mesh_export := World.mesh_export base;
     World.optimize_mesh := World.optimize_mesh base;
     World.write_json := World.write_json base;
     World.EXPORT_AVAILABLE := true;
     World.USE_ADVANCED := true;
     World.process_text_and_image := World.process_text_and_image base;
     World.available_services := [];
     World.generate_with_best_service := World.generate_with_best_service base;
     World.generate_model := World.generate_model base;
     World.create_mesh := World.create_mesh base;
     World.generate_material_for_prompt := World.generate_material_for_prompt base;
     World.apply_material_to_mesh := World.apply_material_to_mesh base;
     World.generate_texture_image := World.generate_texture_image base;
     World.create_material_file := World.create_material_file base;
     World.py_hash := World.py_hash base;
     World.time_now := World.time_now base;
     World.task_request_id := World.task_request_id base;
     World.utcnow := World.utcnow base;
     World.db_flush := World.db_flush base |}.
(** ** The calls of the generator *)

Section GenerationVocabulary.
Import PyStr Trimesh Procedural Effects World ExportEngine ModelGenerator.
Variable w : world.

(** The [if]/[elif] chain of [generate_geometry_from_prompt] as a table:
    creator and keywords, in the order of the chain. *)
Definition creator_table : Classifier.keyword_table :=
  [ ("create_enhanced_spaceship_mesh", ["spaceship"; "rocket"; "ship"; "spacecraft"]);
    ("create_enhanced_car_mesh", ["car"; "vehicle"; "automobile"; "truck"]);
    ("create_enhanced_chair_mesh", ["chair"; "seat"; "furniture"]);
    ("create_enhanced_building_mesh", ["castle"; "tower"; "building"; "structure"]);
    ("create_enhanced_sphere_mesh", ["sphere"; "ball"; "orb"; "globe"]);
    ("create_enhanced_cube_mesh", ["cube"; "box"; "block"; "die"]);
    ("create_enhanced_cylinder_mesh", ["cylinder"; "tube"; "pipe"; "column"]);
    ("create_humanoid_mesh", ["human"; "person"; "character"; "humanoid"]);
    ("create_creature_mesh", ["animal"; "creature"; "beast"]);
    ("create_weapon_mesh", ["weapon"; "sword"; "gun"; "blade"]);
    ("create_plant_mesh", ["plant"; "tree"; "flower"]);
    ("create_robot_mesh", ["robot"; "mech"; "android"; "machine"]) ].

(** A call to the AI services is made only for the engine "ai_enhanced",
    with the advanced modules loaded and a service configured. *)
Definition ai_service_guard (engine : string) (ev : event) : Prop :=
  match ev with
  | GenerateWithBestService _ _ =>
      engine = "ai_enhanced" /\ USE_ADVANCED w = true
      /\ available_services w <> []
  | _ => True
  end.

(** The calls [generate_3d_model] can make for [prompt], and the text each
    is given: the multimodal processor, the advanced generator, the mesh
    creators and the material generator get the prompt as validated (the
    default mesh its fixed text); only the AI services get the prompt as
    enhanced from the reference image.  No process is started, no file is
    loaded, and nothing is written to the status column or committed. *)
Definition generation_call (prompt : string) (ev : event) : Prop :=
  match ev with
  | ProcessTextAndImage p _ | GenerateModel p _ _ | MaterialForPrompt p _ =>
      p = prompt_used prompt
  | CreateMesh creator p =>
      p = prompt_used prompt
      \/ (creator = "create_procedural_mesh" /\ p = "abstract geometric shape")
  | PathExists _ | GenerateWithBestService _ _ | ApplyMaterial _ | TextureImage
  | MaterialFile _ | MakeDirs _ | OptimizeMesh _ | MeshExport _ _ _ => True
  | Subprocess _ | TempScript _ | Unlink _ | TrimeshLoad _ | ExportersAvailable _
  | WriteJson _ | UpdateState _ _ _ | SetStatus _ _ | Commit | FlushFailed => False
  end.

(** The paths [generate_3d_model] can return: the OBJ file of the job in
    the directory "generated", the same file name alone (when the
    directory cannot be made), and the STL twins of the two. *)
Definition possible_outputs (prompt : string) (job_id : option Z) : list string :=
  let name := model_name w (prompt_used prompt) job_id +:+ ".obj" in
  let in_directory :=
    "generated" +:+ (if platform_windows w then "\" else "/") +:+ name in
  [in_directory; name; replace ".obj" ".stl" in_directory;
   replace ".obj" ".stl" name].

End GenerationVocabulary.

(** ** The prompt of the generation calls *)

(** The text a call is given, for the calls that take a prompt. *)
Definition prompt_of (ev : Effects.event) : option string :=
  match ev with
  | Effects.ProcessTextAndImage p _ | Effects.GenerateWithBestService p _
  | Effects.GenerateModel p _ _ | Effects.MaterialForPrompt p _
  | Effects.CreateMesh _ p => Some p
  | _ => None
  end.

(** The text given to the first call of a trace that takes one. *)
Definition first_prompt (events : list Effects.event) : option string :=
  head (omap prompt_of events).

(** Running [m] records a call that takes [text] before any other call
    that takes a prompt. *)
Definition leads {A} (text : string) (m : Effects.M A) : Prop :=
  forall s, exists new,
    Effects.trace (snd (m s)) = (Effects.trace s ++ new)%list
    /\ first_prompt new = Some text.

(** A prompt whose first 500 characters are fixed and whose end is [tail]. *)
Definition long_prompt (tail : string) : string :=
  "a wooden chair " +:+ String.concat "" (replicate 97 "very ") +:+ tail.

(** ** The cache of the generation task *)

Section CacheVocabulary.
Import Effects World Models.
Variable w : world.

(** The key under which the task caches the model of a prompt. *)
Definition cache_key_of (prompt : string) : string :=
  "model_" +:+ pretty (py_hash w prompt).

(** [AssetCache.query.filter_by(cache_key=...).first()] in a session. *)
Definition cached_row (prompt : string) (d : database) : option AssetCache :=
  List.find (fun row => String.eqb (cache_key row) (cache_key_of prompt)) (cache d).

End CacheVocabulary.

(** A session with job 7 pending and one cached model, for the prompt
    "a wooden chair" in a world whose [hash] answers 42. *)
Definition cached_chair_state : Effects.state :=
  {| Effects.trace := [];
     Effects.session :=
       Models.Database {[ 7 := pending_job 7 "a wooden chair" ]}
         [ {| Models.cache_key := "model_42";
              Models.file_path := "generated/model_3.obj";
              Models.asset_type := "model";
              Models.meta_prompt := "a wooden chair" |} ] ∅ [];
     Effects.history := [] |}.

(** ** The database of the generation task *)

Section DatabaseVocabulary.
Import Effects World Models.
Variable w : world.

(** No two rows of a cache table share a key. *)
Definition unique_keys (rows : list AssetCache) : Prop :=
  NoDup (map cache_key rows).

(** The database server refuses nothing for reasons of its own. *)
Definition database_up : Prop := forall d, db_flush w d = Ok tt.


(** The row that a new generation adds to the cache. *)
Definition cache_entry_of (prompt path : string) : AssetCache :=
  {| cache_key := cache_key_of w prompt; file_path := path;
     asset_type := "model"; meta_prompt := prompt |}.

(** An assignment to an attribute of the row of a job: the tables after
    it. *)
Definition assigned (job_id : Z) (f : GenerationJob -> GenerationJob)
  (d : database) : database :=
  {| jobs := alter f job_id (jobs d); cache := cache d;
     projects := projects d; project_assets := project_assets d |}.

End DatabaseVocabulary.

(** ** Project descriptions *)

Section ProjectVocabulary.
Import PyStr ProjectTasks.

(** The task list [parse_project_description] builds from the outcome of
    its six tests. *)
Definition tasks_of (spaceship car building npc quest world : bool)
  (description : string) : list project_task :=
  append_if world (ProjectTask "environment" description "main_world")
    (append_if quest (ProjectTask "script" "quest management system" "quest_manager")
       (append_if npc (ProjectTask "script" "NPC interaction system" "npc_controller")
          (append_if building (ProjectTask "model" "modern building" "building")
             (append_if car (ProjectTask "model" "realistic car" "car")
                (append_if spaceship
                   (ProjectTask "model" "futuristic spaceship" "spaceship") []))))).

(** The themes [get_theme_assets] knows. *)
Definition known_themes : list string := map fst theme_assets.

End ProjectVocabulary.
(** ** The geometry generator and the engines *)

Section GeometryVocabulary.
Import Trimesh Procedural GeometryGenerator.

(** Every index of every face names a row of [vertices]. *)
Definition indices_in_range (vertices : vertex_rows) (faces : face_rows) : Prop :=
  Forall (fun face => match face with
                      | (a, b, c) =>
                          (a < length vertices)%nat /\ (b < length vertices)%nat
                          /\ (c < length vertices)%nat
                      end) faces.

(** The four meshes [_create_mesh_from_prompt] chooses from. *)
Definition prompt_meshes : list (vertex_rows * face_rows) :=
  [_create_sphere; _create_cube; _create_cylinder; _create_cone].

(** The handle under which the model keeps a pair of arrays of the file:
    its position among the five literals. *)
Definition array_handle (arrays : vertex_rows * face_rows) : nat :=
  match list_find (fun known => known = arrays)
                  (prompt_meshes ++ [_create_placeholder_mesh])%list with
  | Some (position, _) => position
  | None => 5%nat
  end.

(** What the [try] block at the top of [_procedural_generation] yields
    when the geometry generator is the one [create_geometry_generator()]
    makes and [trimesh.Trimesh] accepts its arrays. *)
Definition geometry_oracle (prompt : string) (image : option string)
  : result (option primitive) :=
  match generate_geometry (create_geometry_generator PROCEDURAL) prompt image with
  | Generated vertices faces _ _ _ => Ok (Some (arrays (array_handle (vertices, faces))))
  | Failed _ => Ok None
  end.

(** The mesh [_procedural_generation] returns from a state of the random
    generators. *)
Definition procedural_mesh (w : world) (prompt : string)
  (config : GenerationConfig) (image : option string) (r : rng) : mesh :=
  fst (fst (_procedural_generation w prompt config image r)).

(** The state of the random generators it leaves. *)
Definition procedural_rng (w : world) (prompt : string)
  (config : GenerationConfig) (image : option string) (r : rng) : rng :=
  snd (_procedural_generation w prompt config image r).

End GeometryVocabulary.

(** The world of [boxes_world] with the geometry generator of the
    repository in place. *)
Definition geometry_world : Procedural.world :=
  {| Procedural.generate_geometry := geometry_oracle;
     Procedural._generate_vehicle_shape := Procedural._generate_vehicle_shape boxes_world;
     Procedural._generate_building_shape := Procedural._generate_building_shape boxes_world;
     Procedural._generate_furniture_shape := Procedural._generate_furniture_shape boxes_world;
     Procedural._generate_character_shape := Procedural._generate_character_shape boxes_world;
     Procedural._generate_weapon_shape := Procedural._generate_weapon_shape boxes_world;
     Procedural._generate_nature_shape := Procedural._generate_nature_shape boxes_world;
     Procedural._generate_abstract_shape := Procedural._generate_abstract_shape boxes_world;
     Procedural.sample_surface := Procedural.sample_surface boxes_world;
     Procedural.uniform := Procedural.uniform boxes_world;
     Procedural.np_uniform3 := Procedural.np_uniform3 boxes_world |}.

(** A quality score for the samples: the number of pieces of the mesh. *)
Definition pieces_quality (m : Trimesh.mesh) : Q := inject_Z (Z.of_nat (length m)).
(** ** Transformations and AI parameters *)

Section TransformVocabulary.
Import PyStr Classifier Trimesh Procedural.
Variable w : world.

(** The vertex operations [_apply_transformations] applies for a
    classified prompt, in order: the fixed scaling of the stylized style,
    the noise of an organic shape, the random scaling of an asymmetric
    one.  The low_poly style has no entry. *)
Definition transformation_ops (info : shape_info) (r : rng) : list vertex_op :=
  ((if String.eqb (style info) "stylized"
    then [Scale ((12 # 10)%Q, (12 # 10)%Q, 1%Q)] else [])
   ++ (if String.eqb (organic info) "organic"
       then [Jitter (5 # 100) (np_draws r)] else [])
   ++ (if String.eqb (symmetry info) "asymmetric"
       then [Scale (np_uniform3 w (9 # 10) (11 # 10)
                      (if String.eqb (organic info) "organic"
                       then S (np_draws r) else np_draws r))]
       else []))%list.

(** The operations applied one after the other. *)
Definition apply_ops (ops : list vertex_op) (m : mesh) : mesh :=
  fold_left (fun acc op => apply_op op acc) ops m.

(** The details [_apply_complexity_modifications] makes from draw [start]
    on: spheres of radius 0.02 at points sampled on the surface of [m]. *)
Definition details_from (m : mesh) (start count : nat) : list mesh :=
  map (fun k => apply_translation (creation (uv_sphere (2 # 100)))
                                  (sample_surface w m (start + k)))
      (seq 0 count).

(** The description asks for detail: it names the word "complex" or the
    word "detailed". *)
Definition asks_for_detail (description : string) : bool :=
  contains "complex" (lower description) || contains "detailed" (lower description).

End TransformVocabulary.
(** ** The asset queue *)

Section QueueVocabulary.
Import Effects Models QueueTask.

(** How many times a trace assigns "completed" to a status column. *)
Definition completions (events : list event) : nat :=
  length (filter (fun write : Z * string => String.eqb (snd write) "completed")
                 (status_writes events)).

(** The rows of the jobs of a queue in a session. *)
Definition queue_rows (queue : AssetQueue) (d : database) : list GenerationJob :=
  omap (fun job => jobs d !! job) (assets queue).

(** An assignment of "completed" or "failed" to one of [rows]. *)
Definition settles_one_of (rows : list GenerationJob) (write : Z * string) : Prop :=
  In (fst write) (map id rows)
  /\ (snd write = "completed" \/ snd write = "failed").

(** The value of a call that returned. *)
Definition fst_ok {A} (r : result A) : option A :=
  match r with
  | Ok a => Some a
  | Raise _ => None
  end.

End QueueVocabulary.

Section QueueRunVocabulary.
Import Effects World Models Tasks QueueTask.
Variable w : world.

(** An event of the work on one asset: it is quiet, and a directory it
    makes is the one of the generated models, not the one of the
    archives. *)
Definition calm (ev : event) : Prop :=
  quiet ev
  /\ match ev with
     | MakeDirs path => path = "generated"
     | _ => True
     end.

(** No directory but the one of the generated models is made: no archive
    is begun. *)
Definition no_archive (ev : event) : Prop :=
  match ev with
  | MakeDirs path => path = "generated"
  | _ => True
  end.

(** The tables after the assignments of lines 281-285. *)
Definition settled_completed (asset : GenerationJob) (path fbx : string)
  (blend : option string) (d : database) : database :=
  assigned (id asset) (with_completed_at (Some (utcnow w)))
    (assigned (id asset) (with_blend_path blend)
       (assigned (id asset) (with_fbx_path (Some fbx))
          (assigned (id asset) (with_obj_path (Some path))
             (assigned (id asset) (with_status "completed") d)))).

(** The tables after the assignments of lines 292-293. *)
Definition settled_failed (asset : GenerationJob) (e : exn) (d : database)
  : database :=
  assigned (id asset) (with_error_message (Some (str_exn e)))
    (assigned (id asset) (with_status "failed") d).

(** The state after a commit that went through, and after one that the
    database refused. *)
Definition committed (events : list event) (d : database) (s : state) : state :=
  {| trace := (trace s ++ events ++ [Commit])%list; session := d;
     history := (history s ++ [d])%list |}.

Definition refused (events : list event) (d : database) (s : state) : state :=
  {| trace := (trace s ++ events ++ [Commit; FlushFailed])%list; session := d;
     history := history s |}.

End QueueRunVocabulary.

(** A queue of the two pending jobs 7 and 8, and a session that holds
    them. *)
Definition two_asset_queue : QueueTask.AssetQueue :=
  {| QueueTask.queue_id := 1; QueueTask.queue_name := "props";
     QueueTask.queue_status := "pending"; QueueTask.completed_items := 0;
     QueueTask.zip_path := None; QueueTask.queue_completed_at := None;
     QueueTask.assets := [7; 8] |}.

Definition two_jobs_state : Effects.state :=
  {| Effects.trace := [];
     Effects.session :=
       Models.Database {[ 7 := pending_job 7 "a wooden chair";
                          8 := pending_job 8 "   " ]} [] ∅ [];
     Effects.history := [] |}.


(* ================================================================== *)
(** * Properties *)
(* ================================================================== *)

(** ** Strings *)

Lemma prefix_true_split (p s : string) :
  String.prefix p s = true -> exists after, s = p +:+ after.
Proof.
  revert s; induction p as [|c p IH]; intros s H.
  - exists s. reflexivity.
  - destruct s as [|d s]; simpl in H; [discriminate|].
    destruct (Ascii.ascii_dec c d) as [->|]; [|discriminate].
    destruct (IH s H) as [after ->]. exists after. reflexivity.
Qed.

Lemma prefix_append (p after : string) : String.prefix p (p +:+ after) = true.
Proof.
  induction p as [|c p IH]; simpl.
  - destruct after; reflexivity.
  - destruct (Ascii.ascii_dec c c); [assumption|congruence].
Qed.

Lemma contains_nil (needle : string) :
  PyStr.contains needle EmptyString = String.prefix needle EmptyString.
Proof. destruct needle; reflexivity. Qed.

Lemma contains_cons (needle : string) (c : ascii) (hay : string) :
  PyStr.contains needle (String c hay)
  = String.prefix needle (String c hay) || PyStr.contains needle hay.
Proof. destruct needle; reflexivity. Qed.

Lemma contains_spec (needle hay : string) :
  PyStr.contains needle hay = true <-> substring_of needle hay.
Proof.
  split.
  - induction hay as [|c hay IH]; intros H.
    + rewrite contains_nil in H. destruct (prefix_true_split _ _ H) as [a Ha].
      exists EmptyString, a. exact Ha.
    + rewrite contains_cons in H. apply orb_true_iff in H as [H|H].
      * destruct (prefix_true_split _ _ H) as [a Ha].
        exists EmptyString, a. exact Ha.
      * destruct (IH H) as (b & a & ->). exists (String c b), a. reflexivity.
  - intros (b & a & ->). induction b as [|c b IH].
    + change (EmptyString +:+ needle +:+ a) with (needle +:+ a).
      destruct (needle +:+ a) as [|d rest] eqn:E.
      * rewrite contains_nil, <- E. apply prefix_append.
      * rewrite contains_cons, <- E, prefix_append. reflexivity.
    + change (String c b +:+ needle +:+ a) with (String c (b +:+ needle +:+ a)).
      rewrite contains_cons, IH. apply orb_true_r.
Qed.

Lemma any_in_spec (keywords : list string) (text : string) :
  PyStr.any_in keywords text = true
  <-> exists k, In k keywords /\ substring_of k text.
Proof.
  unfold PyStr.any_in. rewrite existsb_exists.
  split; intros (k & Hin & Hk); exists k; split; try assumption;
    apply contains_spec; assumption.
Qed.

(** The string functions on sample texts. *)
Example lower_sample : PyStr.lower "Red Sports CAR" = "red sports car".
Proof. reflexivity. Qed.

Example strip_sample :
  PyStr.strip (String (ascii_of_nat 9) "  a wooden chair " +:+ FileConverter.nl)
  = "a wooden chair".
Proof. reflexivity. Qed.

Example slice_to_sample : PyStr.slice_to 3 "abcdef" = "abc".
Proof. reflexivity. Qed.

Example first_line_sample :
  PyStr.first_line ("/usr/bin/blender" +:+ FileConverter.nl +:+ "/snap/bin/blender")
  = "/usr/bin/blender".
Proof. reflexivity. Qed.

Example replace_sample :
  PyStr.replace ".obj" ".stl" "generated/model_7.obj" = "generated/model_7.stl"
  /\ PyStr.replace ".obj" ".stl" "a.obj.objx" = "a.stl.stlx".
Proof. split; reflexivity. Qed.

Example contains_sample :
  PyStr.contains "car" "red sports car" = true
  /\ PyStr.contains "art" "a glowing orb of light" = false
  /\ PyStr.contains "car" "a cartoon house" = true.
Proof. repeat split. Qed.

Example format_id_sample :
  FileConverter.format_id (FileConverter.IntId (-3)) = "-3"
  /\ FileConverter.format_id (FileConverter.StrId "fallback_7") = "fallback_7".
Proof. split; reflexivity. Qed.

(** ** The prompt classifier *)

Section ClassifierProperties.
Import Classifier.

Lemma detect_spec (table : keyword_table) (text default : string) :
  first_matching table text (detect table text default)
  \/ (no_keyword_matches table text /\ detect table text default = default).
Proof.
  induction table as [|[name keywords] rest IH]; simpl.
  - right. split; [|reflexivity]. intros ? ? ? [].
  - destruct (PyStr.any_in keywords text) eqn:E.
    + left. exists [], keywords, rest. split; [reflexivity|]. split.
      * apply any_in_spec. exact E.
      * intros ? ? ? [].
    + assert (Hnone : forall k, In k keywords -> ~ substring_of k text).
      { intros k Hk Hsub.
        assert (PyStr.any_in keywords text = true) by (apply any_in_spec; eauto).
        congruence. }
      destruct IH as [(earlier & kws & later & Heq & Hhit & Hno)|[Hno Hd]].
      * left. exists ((name, keywords) :: earlier), kws, later.
        split; [simpl; f_equal; exact Heq|]. split; [exact Hhit|].
        intros n ks k [Hhd|Hin] Hk.
        -- injection Hhd as <- <-. apply Hnone, Hk.
        -- eapply Hno; eassumption.
      * right. split; [|exact Hd].
        intros n ks k [Heq|Hin] Hk.
        -- injection Heq as <- <-. apply Hnone, Hk.
        -- eapply Hno; eassumption.
Qed.

Lemma detect_first_matching (table : keyword_table) (text default name : string) :
  first_matching table text name -> detect table text default = name.
Proof.
  intros (earlier & keywords & later & -> & Hhit & Hno).
  induction earlier as [|[n ks] earlier IH]; simpl.
  - apply any_in_spec in Hhit. rewrite Hhit. reflexivity.
  - destruct (PyStr.any_in ks text) eqn:E.
    + apply any_in_spec in E as (k & Hk & Hsub).
      exfalso. eapply (Hno n ks k); [left; reflexivity|exact Hk|exact Hsub].
    + apply IH. intros n' ks' k Hin Hk. eapply Hno; [right; exact Hin|exact Hk].
Qed.

Lemma detect_range (table : keyword_table) (text default : string) :
  In (detect table text default) (default :: map fst table).
Proof.
  induction table as [|[name keywords] rest IH]; simpl.
  - left. reflexivity.
  - destruct (PyStr.any_in keywords text).
    + right. left. reflexivity.
    + destruct IH as [H|H]; [left; exact H|right; right; exact H].
Qed.

Lemma detect_no_match (table : keyword_table) (text default : string) :
  no_keyword_matches table text -> detect table text default = default.
Proof.
  intros Hno.
  destruct (detect_spec table text default)
    as [(earlier & kws & later & Heq & (k & Hk & Hsub) & _)|[_ H]]; [|exact H].
  exfalso.
  apply (Hno (detect table text default) kws k); [|exact Hk|exact Hsub].
  rewrite Heq at 2. apply in_elt.
Qed.

(** C3. For every prompt, [_analyze_prompt] returns one shape type out of
    vehicle, building, furniture, character, weapon, nature and abstract:
    the first entry of [shape_types], in dictionary order, one of whose
    keywords occurs in the lowercased prompt (and any such first entry is the
    one returned).  When no shape keyword occurs the shape type is abstract,
    when no style keyword occurs the style is realistic, and when no size
    keyword occurs the size is normal.  The function is total, so it never
    raises.  "a glowing orb of light" classifies as abstract, realistic and
    normal, and "red sports car" as vehicle. *)
Theorem analyze_prompt_first_match (prompt : string) :
  let info := _analyze_prompt prompt in
  let text := PyStr.lower prompt in
  In (shape_type info)
     ["vehicle"; "building"; "furniture"; "character"; "weapon"; "nature";
      "abstract"]
  /\ (first_matching shape_types text (shape_type info)
      \/ (no_keyword_matches shape_types text /\ shape_type info = "abstract"))
  /\ (forall name, first_matching shape_types text name -> shape_type info = name)
  /\ (no_keyword_matches shape_types text -> shape_type info = "abstract")
  /\ (no_keyword_matches styles text -> style info = "realistic")
  /\ (no_keyword_matches size_keywords text -> size info = "normal")
  /\ shape_type (_analyze_prompt "a glowing orb of light") = "abstract"
  /\ style (_analyze_prompt "a glowing orb of light") = "realistic"
  /\ size (_analyze_prompt "a glowing orb of light") = "normal"
  /\ shape_type (_analyze_prompt "red sports car") = "vehicle".
Proof.
  cbv zeta. unfold _analyze_prompt. cbn [shape_type style size].
  split.
  { pose proof (detect_range shape_types (PyStr.lower prompt) "abstract") as H.
    destruct H as [H|H]; [|exact H].
    rewrite <- H. do 6 right. left. reflexivity. }
  split; [apply detect_spec|].
  split; [intros name H; apply detect_first_matching; exact H|].
  split; [apply detect_no_match|].
  split; [apply detect_no_match|].
  split; [apply detect_no_match|].
  repeat split.
Qed.

(** The order of the dictionary decides between categories that both
    match, and a keyword matches inside a longer word. *)
Example analyze_prompt_samples :
  shape_type (_analyze_prompt "a wooden chair") = "furniture"
  /\ shape_type (_analyze_prompt "a house next to a car") = "vehicle"
  /\ shape_type (_analyze_prompt "A Cartoon Dragon") = "vehicle"
  /\ style (_analyze_prompt "A Cartoon Dragon") = "stylized"
  /\ _estimate_complexity "a detailed, intricate, ornate clock" = 8
  /\ _estimate_complexity "simple basic minimal clean plain box" = 1.
Proof. repeat split. Qed.

Lemma count_present_from (words : list string) (text : string) (acc : Z) :
  fold_left (fun acc word => if PyStr.contains word text then acc + 1 else acc)
            words acc
  = acc + Z.of_nat (length (present_words words text)).
Proof.
  revert acc. induction words as [|w words IH]; intros acc; simpl.
  - lia.
  - rewrite IH. unfold present_words. rewrite filter_cons.
    destruct (PyStr.contains w text) eqn:E.
    + rewrite decide_True by reflexivity. simpl length. lia.
    + rewrite decide_False by congruence. lia.
Qed.

Lemma present_words_spec (words : list string) (text word : string) :
  In word (present_words words text) <-> In word words /\ substring_of word text.
Proof.
  unfold present_words. rewrite <- !list_elem_of_In, list_elem_of_filter.
  rewrite contains_spec. tauto.
Qed.

(** C7. The complexity estimate is 5 plus the number of detail words that
    occur in the lowercased prompt minus the number of simplicity words that
    occur in it, clamped into the interval from 1 to 10. *)
Theorem estimate_complexity_formula (prompt : string) :
  _estimate_complexity prompt = spec_complexity prompt
  /\ 1 <= _estimate_complexity prompt <= 10
  /\ (forall word,
        In word (present_words detail_words (PyStr.lower prompt))
        <-> In word detail_words /\ substring_of word (PyStr.lower prompt))
  /\ (forall word,
        In word (present_words simple_words (PyStr.lower prompt))
        <-> In word simple_words /\ substring_of word (PyStr.lower prompt)).
Proof.
  split; [|split; [|split; intros word; apply present_words_spec]];
    unfold _estimate_complexity, spec_complexity, count_present, clamp_1_10;
    rewrite !count_present_from, !Z.add_0_l;
    set (x := 5 + Z.of_nat (length (present_words detail_words (PyStr.lower prompt)))
              - Z.of_nat (length (present_words simple_words (PyStr.lower prompt))));
    [|lia].
  destruct (Z.ltb_spec x 1); [lia|].
  destruct (Z.ltb_spec 10 x); lia.
Qed.

End ClassifierProperties.

(** ** Detail injection *)

Section ProceduralProperties.
Import Classifier Trimesh Procedural.
Variable w : world.

Lemma surface_bumps_spec (count : nat) (m : mesh) (r : rng) :
  surface_bumps w count m r
  = (bumps_from w m (np_draws r) count,
     {| py_draws := py_draws r; np_draws := np_draws r + count |}).
Proof.
  revert r. induction count as [|k IH]; intros r.
  - simpl. destruct r as [p n]. simpl. rewrite Nat.add_0_r. reflexivity.
  - cbn [surface_bumps]. rewrite IH. cbn [np_draws py_draws].
    unfold bumps_from. cbn [seq map]. rewrite <- seq_shift, map_map.
    rewrite Nat.add_0_r. f_equal.
    + f_equal. apply map_ext. intros a. rewrite Nat.add_succ_r. reflexivity.
    + f_equal. lia.
Qed.

Lemma fine_cylinders_spec (count : nat) (r : rng) :
  fine_cylinders w count r
  = (cylinders_from w (py_draws r) count,
     {| py_draws := py_draws r + 3 * count; np_draws := np_draws r |}).
Proof.
  revert r. induction count as [|k IH]; intros r.
  - simpl. destruct r as [p n]. simpl. rewrite Nat.add_0_r. reflexivity.
  - cbn [fine_cylinders]. rewrite IH. cbn [np_draws py_draws].
    unfold cylinders_from. cbn [seq map]. rewrite <- seq_shift, map_map.
    rewrite Nat.mul_0_r, Nat.add_0_r. f_equal.
    + f_equal. apply map_ext. intros a.
      replace (S (S (S (py_draws r))) + 3 * a)%nat with (py_draws r + 3 * S a)%nat by lia.
      reflexivity.
    + f_equal. lia.
Qed.

Lemma concatenate_details (m : mesh) (details : list mesh) :
  match details with
  | [] => m
  | _ => concatenate ([m] ++ details)%list
  end = (m ++ concat details)%list.
Proof.
  destruct details; [simpl; rewrite app_nil_r|]; reflexivity.
Qed.

Lemma add_surface_details_spec (m : mesh) (config : GenerationConfig) (r : rng) :
  _add_surface_details w m config r
  = ((m ++ concat (bumps_from w m (np_draws r) 20))%list,
     {| py_draws := py_draws r; np_draws := np_draws r + 20 |}).
Proof.
  unfold _add_surface_details. rewrite surface_bumps_spec.
  rewrite <- concatenate_details.
  destruct (bumps_from w m (np_draws r) 20); reflexivity.
Qed.

Lemma add_structural_details_spec (m : mesh) (info : shape_info)
  (config : GenerationConfig) :
  _add_structural_details m info config
  = (m ++ (if has_panels info then concat (map panel [0; 1; 2; 3; 4]) else []))%list.
Proof.
  unfold _add_structural_details. fold (has_panels info).
  rewrite concatenate_details. destruct (has_panels info); reflexivity.
Qed.

Lemma add_fine_details_spec (m : mesh) (config : GenerationConfig) (r : rng) :
  _add_fine_details w m config r
  = ((m ++ concat (cylinders_from w (py_draws r) 10))%list,
     {| py_draws := py_draws r + 3 * 10; np_draws := np_draws r |}).
Proof.
  unfold _add_fine_details. rewrite fine_cylinders_spec.
  rewrite <- concatenate_details.
  destruct (cylinders_from w (py_draws r) 10); reflexivity.
Qed.

(** [_add_details] on the config it is handed: the base mesh, then twenty
    bumps from complexity 7, five panels from 8 for the panelled shape
    types, ten cylinders from 9. *)
Lemma add_details_spec (base : mesh) (info : shape_info)
  (config : GenerationConfig) (r : rng) :
  fst (_add_details w base info config r)
  = (base
     ++ (if 7 <=? complexity config
         then concat (bumps_from w base (np_draws r) 20) else [])
     ++ (if (8 <=? complexity config) && has_panels info
         then concat (map panel [0; 1; 2; 3; 4]) else [])
     ++ (if 9 <=? complexity config
         then concat (cylinders_from w (py_draws r) 10) else []))%list.
Proof.
  unfold _add_details.
  destruct (Z.leb_spec (complexity config) 3) as [H3|H3].
  { rewrite !(proj2 (Z.leb_gt _ _)) by lia. simpl. rewrite app_nil_r. reflexivity. }
  destruct (Z.leb_spec 7 (complexity config)) as [H7|H7];
    destruct (Z.leb_spec 8 (complexity config)) as [H8|H8];
    destruct (Z.leb_spec 9 (complexity config)) as [H9|H9]; try lia;
    rewrite ?add_surface_details_spec, ?add_structural_details_spec,
      ?add_fine_details_spec;
    cbn [andb fst py_draws np_draws];
    rewrite ?app_nil_r, <- ?app_assoc; reflexivity.
Qed.

Lemma base_shape_caps_complexity (info : shape_info) (config : GenerationConfig) :
  complexity (snd (_generate_base_shape w info config)) = Z.min (complexity config) 5.
Proof. reflexivity. Qed.

Lemma add_details_below_7 (base : mesh) (info : shape_info)
  (config : GenerationConfig) (r : rng) :
  complexity config < 7 -> _add_details w base info config r = (base, r).
Proof.
  intros H. unfold _add_details.
  destruct (Z.leb_spec (complexity config) 3); [reflexivity|].
  rewrite !(proj2 (Z.leb_gt _ _)) by lia. reflexivity.
Qed.

(** C2, as the code has it.  Handed a config, [_add_details] returns the base
    mesh followed by twenty spheres of radius 0.05 at sampled surface points
    when the complexity is at least 7, five panel boxes when it is at least 8
    and the shape type is vehicle, building or robot, and ten cylinders at
    uniformly drawn offsets when it is at least 9; below 7 it returns the
    base mesh.  In the procedural pipeline [_generate_base_shape] has
    lowered the complexity of the config to at most 5 before [_add_details]
    runs, so there the detailed mesh is the base mesh whatever complexity
    was configured; and when the geometry generator succeeds the pipeline
    returns its mesh without running [_add_details] at all. *)
Theorem add_details_thresholds_and_pipeline_cap
  (base : mesh) (info : shape_info) (config : GenerationConfig) (r : rng)
  (prompt : string) :
  fst (_add_details w base info config r)
  = (base
     ++ (if 7 <=? complexity config
         then concat (bumps_from w base (np_draws r) 20) else [])
     ++ (if (8 <=? complexity config) && has_panels info
         then concat (map panel [0; 1; 2; 3; 4]) else [])
     ++ (if 9 <=? complexity config
         then concat (cylinders_from w (py_draws r) 10) else []))%list
  /\ length (concat (bumps_from w base (np_draws r) 20)) = 20%nat
  /\ length (concat (map panel [0; 1; 2; 3; 4])) = 5%nat
  /\ length (concat (cylinders_from w (py_draws r) 10)) = 10%nat
  /\ (complexity config < 7 -> fst (_add_details w base info config r) = base)
  /\ complexity (snd (fst (traditional_stages w prompt config r)))
     = Z.min (complexity config) 5
  /\ detailed_mesh (fst (fst (traditional_stages w prompt config r)))
     = base_mesh (fst (fst (traditional_stages w prompt config r)))
  /\ (forall image,
        fst (fst (_procedural_generation w prompt config image r))
        = match generate_geometry w
                  (prompt +:+ " exterior only, no interior details, simple clean geometry, low poly game asset")
                  image with
          | Ok (Some a) => creation a
          | _ => final_mesh (fst (fst (traditional_stages w prompt config r)))
          end).
Proof.
  assert (Hreturned : forall image,
    fst (fst (_procedural_generation w prompt config image r))
    = match generate_geometry w
              (prompt +:+ " exterior only, no interior details, simple clean geometry, low poly game asset")
              image with
      | Ok (Some a) => creation a
      | _ => final_mesh (fst (fst (traditional_stages w prompt config r)))
      end).
  { intros image. unfold _procedural_generation.
    destruct (generate_geometry w _ image) as [[a|]|e]; try reflexivity;
      destruct (traditional_stages w prompt config r) as [[st c'] r'];
      reflexivity. }
  split; [apply add_details_spec|].
  split; [reflexivity|]. split; [reflexivity|]. split; [reflexivity|].
  split; [intros H; rewrite add_details_below_7 by exact H; reflexivity|].
  revert Hreturned. unfold traditional_stages.
  destruct (_generate_base_shape w (_analyze_prompt prompt) config)
    as [shape config'] eqn:Eb.
  assert (Hc : complexity config' = Z.min (complexity config) 5).
  { change config' with (snd (shape, config')). rewrite <- Eb. reflexivity. }
  rewrite add_details_below_7 by lia.
  destruct (_apply_transformations w shape (_analyze_prompt prompt) config' r).
  intros Hreturned.
  split; [exact Hc|]. split; [reflexivity|exact Hreturned].
Qed.

End ProceduralProperties.

(** C2 fails as stated: with complexity 10 configured, the procedural
    pipeline for "red sports car" hands [_add_details] a config of
    complexity 5; the detailed mesh is the base mesh, one box, and the mesh
    returned has one piece and no sphere. *)
Lemma pipeline_appends_no_details_at_complexity_10 :
  7 <= Procedural.complexity config_complexity_10
  /\ Procedural.detailed_mesh
       (fst (fst (Procedural.traditional_stages boxes_world "red sports car"
                    config_complexity_10 (Procedural.Rng 0 0))))
     = Trimesh.creation (Trimesh.box (1%Q, 1%Q, 1%Q))
  /\ Procedural.base_mesh
       (fst (fst (Procedural.traditional_stages boxes_world "red sports car"
                    config_complexity_10 (Procedural.Rng 0 0))))
     = Trimesh.creation (Trimesh.box (1%Q, 1%Q, 1%Q))
  /\ length (fst (fst (Procedural._procedural_generation boxes_world
                         "red sports car" config_complexity_10 None
                         (Procedural.Rng 0 0)))) = 1%nat
  /\ length (fst (Procedural._add_details boxes_world
                    (Trimesh.creation (Trimesh.box (1%Q, 1%Q, 1%Q)))
                    (Classifier._analyze_prompt "red sports car")
                    config_complexity_10 (Procedural.Rng 0 0))) = 36%nat.
Proof. vm_compute. repeat split; discriminate. Qed.

(** ** Reasoning about effects *)

Section EffectLemmas.
Import Effects.

Lemma emits_ret {A} (P : event -> Prop) (a : A) : emits P (ret a).
Proof.
  intros s. exists []. simpl. rewrite app_nil_r. auto.
Qed.

Lemma emits_raise {A} (P : event -> Prop) (e : exn) : emits P (@raise A e).
Proof.
  intros s. exists []. simpl. rewrite app_nil_r. auto.
Qed.

Lemma emits_call {A} (P : event -> Prop) (ev : event) (answer : result A) :
  P ev -> emits P (call ev answer).
Proof.
  intros H s. exists [ev]. simpl. auto.
Qed.

Lemma emits_step {A} (P : event -> Prop) (s s1 : state) (rest : state -> result A * state) :
  (exists new, trace s1 = (trace s ++ new)%list /\ Forall P new
               /\ session s1 = session s /\ history s1 = history s) ->
  (exists new, trace (snd (rest s1)) = (trace s1 ++ new)%list /\ Forall P new
               /\ session (snd (rest s1)) = session s1
               /\ history (snd (rest s1)) = history s1) ->
  exists new, trace (snd (rest s1)) = (trace s ++ new)%list /\ Forall P new
              /\ session (snd (rest s1)) = session s
              /\ history (snd (rest s1)) = history s.
Proof.
  intros (n1 & Ht1 & Hp1 & Hs1 & Hh1) (n2 & Ht2 & Hp2 & Hs2 & Hh2).
  exists (n1 ++ n2)%list. rewrite Ht2, Ht1, Hs2, Hh2, app_assoc.
  repeat split; try assumption. apply Forall_app; split; assumption.
Qed.

Lemma emits_bind {A B} (P : event -> Prop) (m : M A) (k : A -> M B) :
  emits P m -> (forall a, emits P (k a)) -> emits P (bind m k).
Proof.
  intros Hm Hk s. unfold bind. specialize (Hm s).
  destruct (m s) as [[a|e] s1]; simpl in Hm.
  - apply (emits_step P s s1 (k a)); [exact Hm|apply Hk].
  - exact Hm.
Qed.

Lemma emits_try_except {A} (P : event -> Prop) (body : M A) (handler : exn -> M A) :
  emits P body -> (forall e, emits P (handler e)) -> emits P (try_except body handler).
Proof.
  intros Hm Hk s. unfold try_except. specialize (Hm s).
  destruct (body s) as [[a|e] s1]; simpl in Hm.
  - exact Hm.
  - apply (emits_step P s s1 (handler e)); [exact Hm|apply Hk].
Qed.

Lemma emits_try_finally {A} (P : event -> Prop) (body : M A) (cleanup : M unit) :
  emits P body -> emits P cleanup -> emits P (try_finally body cleanup).
Proof.
  intros Hm Hc s. unfold try_finally. specialize (Hm s).
  destruct (body s) as [r s1]; simpl in Hm. simpl.
  specialize (Hc s1).
  destruct Hm as (n1 & Ht1 & Hp1 & Hs1 & Hh1).
  destruct Hc as (n2 & Ht2 & Hp2 & Hs2 & Hh2).
  exists (n1 ++ n2)%list. rewrite Ht2, Ht1, Hs2, Hh2, app_assoc.
  repeat split; try assumption. apply Forall_app; split; assumption.
Qed.

Lemma bind_run {A B} (m : M A) (k : A -> M B) (s : state) :
  bind m k s = match m s with
               | (Ok a, s') => k a s'
               | (Raise e, s') => (Raise e, s')
               end.
Proof. reflexivity. Qed.

Lemma never_raises_ret {A} (a : A) : never_raises (ret a).
Proof. intros s. exists a. reflexivity. Qed.

Lemma never_raises_try_except {A} (body : M A) (handler : exn -> M A) :
  (forall e, never_raises (handler e)) -> never_raises (try_except body handler).
Proof.
  intros Hh s. unfold try_except.
  destruct (body s) as [[a|e] s1].
  - exists a. reflexivity.
  - apply Hh.
Qed.

(** A [try] whose body does not raise is its body. *)
Lemma try_except_of_total {A} (body : M A) (handler : exn -> M A) (s : state) :
  never_raises body -> try_except body handler s = body s.
Proof.
  intros Hb. unfold try_except. destruct (Hb s) as [a Ha].
  destruct (body s) as [[a'|e] s1]; [reflexivity|discriminate].
Qed.

End EffectLemmas.

(** ** The export fallback chain *)

Section ConverterProperties.
Import PyStr Trimesh Effects World ExportEngine FileConverter.
Variable w : world.

Lemma first_success_never_raises {A} (tiers : list (M A)) (otherwise : A) :
  never_raises (first_success tiers otherwise).
Proof.
  induction tiers as [|tier rest IH]; simpl.
  - apply never_raises_ret.
  - apply never_raises_try_except. intros _. exact IH.
Qed.

(** The first tier that returns ends the cascade: no later tier runs. *)
Lemma first_success_head_ok {A} (tier : M A) (rest : list (M A)) (otherwise : A)
  (s s' : state) (a : A) :
  tier s = (Ok a, s') -> first_success (tier :: rest) otherwise s = (Ok a, s').
Proof. intros H. simpl. unfold try_except. rewrite H. reflexivity. Qed.

(** A tier that raises is left for good: the cascade goes on with the later
    tiers, from the state the failed tier left. *)
Lemma first_success_head_raise {A} (tier : M A) (rest : list (M A)) (otherwise : A)
  (s s' : state) (e : exn) :
  tier s = (Raise e, s')
  -> first_success (tier :: rest) otherwise s = first_success rest otherwise s'.
Proof. intros H. simpl. unfold try_except. rewrite H. reflexivity. Qed.

Lemma convert_to_fbx_never_raises (obj_path : string) (job : job_id) :
  never_raises (convert_to_fbx w obj_path job).
Proof.
  unfold convert_to_fbx. apply never_raises_try_except.
  intros _. apply never_raises_ret.
Qed.

Lemma convert_to_blend_never_raises (obj_path : string) (job : job_id) :
  never_raises (convert_to_blend w obj_path job).
Proof.
  unfold convert_to_blend. apply never_raises_try_except.
  intros _. apply never_raises_try_except. intros _. apply never_raises_ret.
Qed.

(** When the Blender tier returns, it returns the output path of the
    requested format. *)
Lemma convert_with_blender_path (obj_path : string) (job : job_id)
  (output_format : string) (s s' : state) (path : string) :
  convert_with_blender w obj_path job output_format s = (Ok path, s')
  -> path = output_path_of w job
              (if String.eqb output_format "blend" then ".blend" else ".fbx").
Proof.
  unfold convert_with_blender, try_except, bind, try_finally, call, raise, ret.
  destruct (find_blender_executable w s) as [[[cmd|]|e] s1].
  - destruct (truthy cmd); simpl.
    + destruct (write_temp_script w _) as [script|e]; simpl.
      * destruct (subprocess_run w _) as [[[code out] err]|e]; simpl.
        -- destruct (code =? 0); simpl.
           ++ destruct (path_exists w _); simpl.
              ** intros H. injection H as <- _.
                 destruct (String.eqb output_format "blend"); reflexivity.
              ** discriminate.
           ++ discriminate.
        -- destruct e; discriminate.
      * destruct e; discriminate.
    + discriminate.
  - discriminate.
  - destruct e; discriminate.
Qed.

Lemma with_export_engine_path (obj_path : string) (job : job_id)
  (format : ExportFormat) (extension : string) (s s' : state) (path : string) :
  with_export_engine w obj_path job format extension s = (Ok path, s')
  -> path = output_path_of w job extension.
Proof.
  unfold with_export_engine.
  destruct (EXPORT_AVAILABLE w); simpl; [|discriminate].
  unfold bind, load_obj, call, raise, ret.
  destruct (trimesh_load w obj_path) as [[m|]|e]; simpl; try discriminate.
  destruct (export_model w m format _ _) as [[[|]|e] s1]; simpl;
    try discriminate.
  intros H. injection H as <- _. reflexivity.
Qed.

Section Lookups.
Variable P : event -> Prop.
Hypothesis lookup_ok :
  forall name, P (Subprocess [if platform_windows w then "where" else "which"; name]).
Hypothesis exists_ok : forall path, P (PathExists path).

Lemma emits_lookup_in_path (name : string) : emits P (lookup_in_path w name).
Proof.
  unfold lookup_in_path. apply emits_try_except.
  - apply emits_bind.
    + apply emits_call. apply lookup_ok.
    + intros [[code out] err]. destruct (code =? 0); [|apply emits_ret].
      destruct (truthy _); apply emits_ret.
  - intros _. apply emits_ret.
Qed.

Lemma emits_search_paths (paths : list string) : emits P (search_paths w paths).
Proof.
  induction paths as [|path rest IH]; simpl.
  - apply emits_ret.
  - apply emits_bind.
    + apply emits_call. apply exists_ok.
    + intros [|]; [apply emits_ret|exact IH].
Qed.

Lemma emits_search_names (names : list string) (otherwise : M (option string)) :
  emits P otherwise -> emits P (search_names w names otherwise).
Proof.
  intros Ho. induction names as [|name rest IH]; simpl.
  - exact Ho.
  - apply emits_bind.
    + apply emits_lookup_in_path.
    + intros [path|]; [apply emits_ret|exact IH].
Qed.

Lemma emits_find_blender_executable : emits P (find_blender_executable w).
Proof.
  unfold find_blender_executable. apply emits_search_names, emits_search_paths.
Qed.

End Lookups.

Lemma emits_find_blender (job : job_id) :
  emits (lookup_or_fbx_export w job) (find_blender_executable w).
Proof.
  apply emits_find_blender_executable; intros; simpl; eauto.
Qed.

Lemma emits_load_obj (job : job_id) (obj_path : string) :
  emits (lookup_or_fbx_export w job) (load_obj w obj_path).
Proof.
  unfold load_obj. apply emits_bind.
  - apply emits_call. exact I.
  - intros [m|]; [apply emits_ret|apply emits_raise].
Qed.

Lemma emits_fbx_with_trimesh (obj_path : string) (job : job_id) :
  emits (lookup_or_fbx_export w job) (fbx_with_trimesh w obj_path job).
Proof.
  unfold fbx_with_trimesh. apply emits_bind; [apply emits_load_obj|].
  intros m. apply emits_bind.
  - destruct (has_export w m); [|apply emits_ret].
    apply emits_bind; [apply emits_call; exact I|]. intros l. apply emits_ret.
  - intros [|]; [|apply emits_raise].
    apply emits_bind; [|intros _; apply emits_ret].
    apply emits_call. simpl. auto.
Qed.

Lemma emits_fbx_with_export_engine (obj_path : string) (job : job_id) :
  emits (lookup_or_fbx_export w job) (with_export_engine w obj_path job FBX ".fbx").
Proof.
  unfold with_export_engine.
  destruct (EXPORT_AVAILABLE w); simpl; [|apply emits_raise].
  apply emits_bind; [apply emits_load_obj|]. intros m.
  apply emits_bind.
  - unfold export_model. apply emits_try_except; [|intros _; apply emits_ret].
    apply emits_bind; [apply emits_call; exact I|]. intros m'.
    unfold _export_as. apply emits_try_except; [|intros _; apply emits_ret].
    apply emits_bind; [|intros _; apply emits_ret].
    apply emits_call. simpl. auto.
  - intros [|]; [apply emits_ret|apply emits_raise].
Qed.

Lemma convert_with_blender_not_found (obj_path : string) (job : job_id)
  (output_format : string) (s : state) :
  fst (find_blender_executable w s) = Ok None
  -> convert_with_blender w obj_path job output_format s
     = (Raise (Exception "Blender not found in system PATH"),
        snd (find_blender_executable w s)).
Proof.
  intros H. unfold convert_with_blender, try_except, bind.
  destruct (find_blender_executable w s) as [r s1]. simpl in H. subst r.
  reflexivity.
Qed.

(** C4. When [find_blender_executable] finds nothing and the trimesh tier
    and the export-engine tier both fail, [convert_to_fbx] returns the OBJ
    path it was given and does not raise.  On the way it only looks up
    executables and paths, loads the OBJ file, and attempts exports to the
    FBX output path of the job: no call writes to the OBJ file (unless the
    caller passed the FBX output path itself as the OBJ path), and the
    database session is not touched. *)
Theorem convert_to_fbx_degrades_to_obj (obj_path : string) (job : job_id)
  (s : state) :
  fst (find_blender_executable w s) = Ok None ->
  (forall s1, exists e, fst (fbx_with_trimesh w obj_path job s1) = Raise e) ->
  (forall s1, exists e,
      fst (with_export_engine w obj_path job FBX ".fbx" s1) = Raise e) ->
  fst (convert_to_fbx w obj_path job s) = Ok obj_path
  /\ exists new,
       trace (snd (convert_to_fbx w obj_path job s)) = (trace s ++ new)%list
       /\ Forall (lookup_or_fbx_export w job) new
       /\ session (snd (convert_to_fbx w obj_path job s)) = session s
       /\ history (snd (convert_to_fbx w obj_path job s)) = history s.
Proof.
  intros Hfind Htrimesh Hengine.
  pose proof (convert_with_blender_not_found obj_path job "fbx" s Hfind) as Hb.
  pose proof (emits_find_blender job s) as Hf.
  set (s1 := snd (find_blender_executable w s)) in *.
  destruct (Htrimesh s1) as [e1 He1].
  pose proof (emits_fbx_with_trimesh obj_path job s1) as Ht.
  destruct (fbx_with_trimesh w obj_path job s1) as [r2 s2] eqn:E2.
  simpl in He1, Ht. subst r2.
  destruct (Hengine s2) as [e2 He2].
  pose proof (emits_fbx_with_export_engine obj_path job s2) as He.
  destruct (with_export_engine w obj_path job FBX ".fbx" s2) as [r3 s3] eqn:E3.
  simpl in He2, He. subst r3.
  assert (Hrun : convert_to_fbx w obj_path job s = (Ok obj_path, s3)).
  { unfold convert_to_fbx, try_except. rewrite Hb, E2, E3. reflexivity. }
  rewrite Hrun. cbn [fst snd].
  split; [reflexivity|].
  destruct Hf as (n1 & Ht1 & Hp1 & Hs1 & Hh1).
  destruct Ht as (n2 & Ht2 & Hp2 & Hs2 & Hh2).
  destruct He as (n3 & Ht3 & Hp3 & Hs3 & Hh3).
  exists (n1 ++ n2 ++ n3)%list.
  rewrite Ht3, Ht2, Ht1, Hs3, Hs2, Hs1, Hh3, Hh2, Hh1, <- !app_assoc.
  repeat split; try reflexivity.
  repeat (apply Forall_app; split); assumption.
Qed.

(** C1, as the code has it.  [convert_to_blend] never raises.  It returns
    the Blend output path of the job when the Blender tier or, after it,
    the export-engine tier succeeds, and [None] when both fail: exactly
    then. *)
Theorem convert_to_blend_path_or_none (obj_path : string) (job : job_id)
  (s : state) :
  exists r s',
    convert_to_blend w obj_path job s = (Ok r, s')
    /\ (r = Some (output_path_of w job ".blend") \/ r = None)
    /\ (r = None
        <-> exists e1 s1 e2,
              convert_with_blender w obj_path job "blend" s = (Raise e1, s1)
              /\ fst (with_export_engine w obj_path job RBXM ".blend" s1)
                 = Raise e2).
Proof.
  unfold convert_to_blend, try_except, some_path, bind, ret.
  destruct (convert_with_blender w obj_path job "blend" s) as [[p|e1] s1] eqn:Eb.
  - apply convert_with_blender_path in Eb. simpl in Eb. subst p.
    eexists _, _. split; [reflexivity|]. split; [left; reflexivity|].
    split; [discriminate|]. intros (? & ? & ? & H & _). discriminate.
  - destruct (with_export_engine w obj_path job RBXM ".blend" s1)
      as [[p|e2] s2] eqn:Ee.
    + pose proof (with_export_engine_path _ _ _ _ _ _ _ Ee) as Hp. subst p.
      eexists _, _. split; [reflexivity|]. split; [left; reflexivity|].
      split; [discriminate|].
      intros (? & ? & ? & H & H'). injection H as <- <-.
      rewrite Ee in H'. discriminate.
    + eexists _, _. split; [reflexivity|]. split; [right; reflexivity|].
      split; [|reflexivity]. intros _. exists e1, s1, e2.
      rewrite Ee. split; reflexivity.
Qed.

(** C5, as the code has it.  [convert_to_fbx] is the cascade of three tiers
    in order (Blender, the trimesh exporter, the export engine) that
    returns the path of the first tier that succeeds and the OBJ path when
    none does.  [convert_to_blend] is the cascade of two tiers in order
    (Blender, the export engine) that returns [None] when none succeeds: it
    has no trimesh tier and does not fall back to the OBJ path.  A cascade
    runs each tier at most once, stops at the first that returns, and never
    raises. *)
Theorem converters_are_cascades (obj_path : string) (job : job_id) (s : state) :
  convert_to_fbx w obj_path job s
  = first_success [ convert_with_blender w obj_path job "fbx";
                    fbx_with_trimesh w obj_path job;
                    with_export_engine w obj_path job FBX ".fbx" ]
                  obj_path s
  /\ convert_to_blend w obj_path job s
     = first_success [ some_path (convert_with_blender w obj_path job "blend");
                       some_path (with_export_engine w obj_path job RBXM ".blend") ]
                     None s
  /\ (exists path, fst (convert_to_fbx w obj_path job s) = Ok path)
  /\ (exists r, fst (convert_to_blend w obj_path job s) = Ok r).
Proof.
  split; [|split; [reflexivity|split]].
  - unfold convert_to_fbx.
    apply (try_except_of_total
             (first_success [ convert_with_blender w obj_path job "fbx";
                              fbx_with_trimesh w obj_path job;
                              with_export_engine w obj_path job FBX ".fbx" ]
                            obj_path)).
    apply first_success_never_raises.
  - apply convert_to_fbx_never_raises.
  - apply convert_to_blend_never_raises.
Qed.

End ConverterProperties.

(** C4 at work: no Blender, no FBX exporter in trimesh, an export engine
    whose FBX export fails in the same exporter. *)
Lemma convert_to_fbx_degrades_to_obj_witness :
  let w := no_blender_world true true true in
  let obj := "generated/model_7.obj" in
  let job := FileConverter.IntId 7 in
  fst (FileConverter.find_blender_executable w empty_state) = Ok None
  /\ fst (FileConverter.fbx_with_trimesh w obj job empty_state)
     = Raise (Exception "'Trimesh' object has no attribute 'exporters_available'")
  /\ fst (FileConverter.with_export_engine w obj job ExportEngine.FBX ".fbx"
            empty_state)
     = Raise (Exception "Export engine failed")
  /\ fst (FileConverter.convert_to_fbx w obj job empty_state) = Ok obj.
Proof.
  cbv zeta.
  split; [vm_compute; reflexivity|].
  split; [vm_compute; reflexivity|].
  split; [vm_compute; reflexivity|].
  apply (convert_to_fbx_degrades_to_obj (no_blender_world true true true)
           "generated/model_7.obj" (FileConverter.IntId 7) empty_state).
  - vm_compute. reflexivity.
  - intros s1. eexists. vm_compute. reflexivity.
  - intros s1. eexists. vm_compute. reflexivity.
Defined.

(** C1 fails as stated: without Blender, and with an export engine that
    cannot write its file, [convert_to_blend] returns [None], which is no
    file path. *)
Lemma convert_to_blend_returns_none :
  fst (FileConverter.convert_to_blend (no_blender_world true false true)
         "generated/model_7.obj" (FileConverter.IntId 7) empty_state)
  = Ok None
  /\ ~ exists path,
        fst (FileConverter.convert_to_blend (no_blender_world true false true)
               "generated/model_7.obj" (FileConverter.IntId 7) empty_state)
        = Ok (Some path).
Proof.
  split; [vm_compute; reflexivity|].
  intros [path H]. vm_compute in H. discriminate.
Qed.

(** C5 fails as stated for the Blend format: where the four-tier cascade of
    the specification ends in the OBJ path, [convert_to_blend] ends in
    [None]; and it makes no call to trimesh's exporter on the way. *)
Lemma convert_to_blend_is_not_four_tiers :
  fst (FileConverter.four_tiers (no_blender_world true false true)
         "generated/model_7.obj" (FileConverter.IntId 7) "blend"
         ExportEngine.RBXM empty_state)
  = Ok "generated/model_7.obj"
  /\ fst (FileConverter.convert_to_blend (no_blender_world true false true)
            "generated/model_7.obj" (FileConverter.IntId 7) empty_state)
     = Ok None
  /\ Forall (fun ev => match ev with
                       | Effects.ExportersAvailable _
                       | Effects.MeshExport _ _ _ => False
                       | _ => True
                       end)
            (Effects.trace
               (snd (FileConverter.convert_to_blend
                       (no_blender_world true true true)
                       "generated/model_7.obj" (FileConverter.IntId 7)
                       empty_state))).
Proof.
  split; [vm_compute; reflexivity|]. split; [vm_compute; reflexivity|].
  vm_compute. repeat constructor.
Qed.

(** ** Model generation *)

Section StatelessResults.
Import Effects.

Lemma stateless_ret {A} (a : A) : stateless (ret a).
Proof. intros s1 s2. reflexivity. Qed.

Lemma stateless_raise {A} (e : exn) : stateless (@raise A e).
Proof. intros s1 s2. reflexivity. Qed.

Lemma stateless_call {A} (ev : event) (answer : result A) :
  stateless (call ev answer).
Proof. intros s1 s2. reflexivity. Qed.

Lemma stateless_bind {A B} (m : M A) (k : A -> M B) :
  stateless m -> (forall a, stateless (k a)) -> stateless (bind m k).
Proof.
  intros Hm Hk s1 s2. unfold bind. specialize (Hm s1 s2).
  destruct (m s1) as [[a1|e1] t1], (m s2) as [[a2|e2] t2]; simpl in Hm;
    try discriminate.
  - injection Hm as ->. apply Hk.
  - injection Hm as ->. reflexivity.
Qed.

Lemma stateless_try_except {A} (body : M A) (handler : exn -> M A) :
  stateless body -> (forall e, stateless (handler e))
  -> stateless (try_except body handler).
Proof.
  intros Hm Hk s1 s2. unfold try_except. specialize (Hm s1 s2).
  destruct (body s1) as [[a1|e1] t1], (body s2) as [[a2|e2] t2]; simpl in Hm;
    try discriminate.
  - exact Hm.
  - injection Hm as ->. apply Hk.
Qed.

End StatelessResults.

Ltac effect_steps :=
  repeat match goal with
         | |- forall _, _ => intro
         | |- stateless (Effects.ret _) => apply stateless_ret
         | |- stateless (Effects.raise _) => apply stateless_raise
         | |- stateless (Effects.call _ _) => apply stateless_call
         | |- stateless (Effects.bind _ _) => apply stateless_bind
         | |- stateless (Effects.try_except _ _) => apply stateless_try_except
         | |- stateless (if ?b then _ else _) => destruct b
         | |- stateless (match ?x with _ => _ end) => destruct x
         | |- never_raises (Effects.ret _) => apply never_raises_ret
         | |- never_raises (Effects.try_except _ _) => apply never_raises_try_except
         | |- never_raises (if ?b then _ else _) => destruct b
         | |- never_raises (match ?x with _ => _ end) => destruct x
         | |- emits _ (Effects.ret _) => apply emits_ret
         | |- emits _ (Effects.raise _) => apply emits_raise
         | |- emits _ (Effects.call _ _) => apply emits_call; simpl; auto
         | |- emits _ (Effects.bind _ _) => apply emits_bind
         | |- emits _ (Effects.try_except _ _) => apply emits_try_except
         | |- emits _ (Effects.try_finally _ _) => apply emits_try_finally
         | |- emits _ (if ?b then _ else _) => destruct b
         | |- emits _ (match ?x with _ => _ end) => destruct x
         end.

Section GeneratorProperties.
Import PyStr Trimesh Procedural Effects World ExportEngine ModelGenerator.
Variable w : world.

Lemma stateless_export_model (m : mesh) (format : ExportFormat) (path : string) :
  stateless (export_model w m format path).
Proof.
  unfold export_model, _export_as, _export_rbxm. effect_steps.
Qed.

Lemma stateless_apply_materials (prompt style : string) (job_id : option Z)
  (m : mesh) :
  stateless (apply_materials w prompt style job_id m).
Proof. unfold apply_materials. effect_steps. Qed.

Lemma stateless_choose_output_path (prompt : string) (job_id : option Z) :
  stateless (choose_output_path w prompt job_id).
Proof. unfold choose_output_path. effect_steps. Qed.

Lemma stateless_export_mesh (m : mesh) (path : string) :
  stateless (export_mesh w m path).
Proof.
  unfold export_mesh. effect_steps; apply stateless_export_model.
Qed.

Lemma enhance_prompt_never_raises (prompt : string) (image : option string) :
  never_raises (enhance_prompt w prompt image).
Proof.
  unfold enhance_prompt. destruct image as [image|]; [|apply never_raises_ret].
  destruct (USE_ADVANCED w && truthy image); [|apply never_raises_ret].
  intros s. unfold bind, call. destruct (path_exists w image); simpl.
  - apply never_raises_try_except. intros _. apply never_raises_ret.
  - eexists. reflexivity.
Qed.

Lemma apply_materials_never_raises (prompt style : string) (job_id : option Z)
  (m : mesh) :
  never_raises (apply_materials w prompt style job_id m).
Proof. unfold apply_materials. effect_steps. Qed.

Lemma choose_output_path_never_raises (prompt : string) (job_id : option Z) :
  never_raises (choose_output_path w prompt job_id).
Proof. unfold choose_output_path. effect_steps. Qed.

Lemma export_mesh_outcome (m : mesh) (path : string) (s : state) :
  (all_exports_fail w m path
   /\ exists msg, fst (export_mesh w m path s) = Raise (Exception msg))
  \/ (~ all_exports_fail w m path
      /\ exists written,
           fst (export_mesh w m path s) = Ok written
           /\ (written = path \/ written = replace ".obj" ".stl" path)).
Proof.
  unfold all_exports_fail, engine_export_fails, export_mesh, export_model,
    _export_as, try_except, bind, call, ret, raise.
  destruct (USE_ADVANCED w); simpl.
  - destruct (optimize_mesh w m) as [optimized|e0]; simpl.
    + destruct (mesh_export w optimized path (Some "obj")) as [[]|e1]; simpl.
      * right. split; [|eauto].
        intros [[H|[e H]] _]; discriminate.
      * destruct (mesh_export w m path None) as [[]|e2]; simpl.
        -- right. split; [|eauto]. intros (_ & [e H] & _). discriminate.
        -- destruct (mesh_export w m (replace ".obj" ".stl" path) None)
             as [[]|e3]; simpl.
           ++ right. split; [|eauto]. intros (_ & _ & [e H]). discriminate.
           ++ left. split; [|eauto]. repeat split; eauto.
    + destruct (mesh_export w m path None) as [[]|e2]; simpl.
      * right. split; [|eauto]. intros (_ & [e H] & _). discriminate.
      * destruct (mesh_export w m (replace ".obj" ".stl" path) None)
          as [[]|e3]; simpl.
        -- right. split; [|eauto]. intros (_ & _ & [e H]). discriminate.
        -- left. split; [|eauto]. repeat split; eauto.
  - destruct (mesh_export w m path None) as [[]|e2]; simpl.
    + right. split; [|eauto]. intros (_ & [e H] & _). discriminate.
    + destruct (mesh_export w m (replace ".obj" ".stl" path) None)
        as [[]|e3]; simpl.
      * right. split; [|eauto]. intros (_ & _ & [e H]). discriminate.
      * left. split; [|eauto]. repeat split; eauto.
Qed.

(** How a run of [generate_3d_model] on a prompt that is not blank goes
    through its stages. *)
Lemma generate_3d_model_stages (prompt : string) (image : option string)
  (job_id : option Z) (engine : string) (c d : Z) (style : string) (s : state) :
  blank prompt = false ->
  let r := fst (generate_3d_model w prompt image job_id engine c d style s) in
  match fst (mesh_stage w (prompt_used prompt) image job_id (engine_used engine)
                        (clamped c) (clamped d) (style_used style) s) with
  | Raise e => r = Raise (Exception ("3D model generation failed: " +:+ str_exn e))
  | Ok None =>
      r = Raise (Exception "3D model generation failed: Failed to generate 3D geometry")
  | Ok (Some m) =>
      exists m' path,
        fst (apply_materials w (prompt_used prompt) (style_used style) job_id m s)
        = Ok m'
        /\ fst (choose_output_path w (prompt_used prompt) job_id s) = Ok path
        /\ match fst (export_mesh w m' path s) with
           | Ok written => r = Ok written
           | Raise e =>
               r = Raise (Exception ("3D model generation failed: " +:+ str_exn e))
           end
  end.
Proof.
  intros Hblank. cbv zeta. unfold generate_3d_model. rewrite Hblank.
  fold (prompt_used prompt) (clamped c) (clamped d) (style_used style)
       (engine_used engine).
  unfold mesh_stage, try_except, bind.
  destruct (enhance_prompt w (prompt_used prompt) image s) as [[ep|e0] s1].
  2:{ reflexivity. }
  destruct (produce_mesh w (prompt_used prompt) ep image job_id
              (engine_used engine) (clamped c) (clamped d) (style_used style) s1)
    as [[[m|]|e1] s2]; cbn [fst]; try reflexivity.
  pose proof (stateless_apply_materials (prompt_used prompt) (style_used style)
                job_id m s s2) as Hm.
  destruct (apply_materials_never_raises (prompt_used prompt) (style_used style)
              job_id m s2) as [m' Hm'].
  destruct (apply_materials w (prompt_used prompt) (style_used style) job_id m s2)
    as [rm s3]. cbn [fst] in Hm, Hm'. rewrite Hm' in Hm |- *. clear Hm'.
  pose proof (stateless_choose_output_path (prompt_used prompt) job_id s s3) as Hp.
  destruct (choose_output_path_never_raises (prompt_used prompt) job_id s3)
    as [path Hp'].
  destruct (choose_output_path w (prompt_used prompt) job_id s3) as [rp s4].
  cbn [fst] in Hp, Hp'. rewrite Hp' in Hp |- *. clear Hp'.
  exists m', path. split; [exact Hm|]. split; [exact Hp|].
  rewrite (stateless_export_mesh m' path s s4).
  destruct (export_mesh w m' path s4) as [[written|e] s5]; reflexivity.
Qed.

(** The generation stage raises only from its last resort: without the
    advanced modules, when even the default mesh cannot be built. *)
Lemma mesh_stage_raises_without_default (prompt : string) (image : option string)
  (job_id : option Z) (engine : string) (c d : Z) (style : string) (s : state)
  (e : exn) :
  fst (mesh_stage w prompt image job_id engine c d style s) = Raise e ->
  USE_ADVANCED w = false
  /\ create_mesh w "create_procedural_mesh" "abstract geometric shape" = Raise e.
Proof.
  unfold mesh_stage. rewrite bind_run.
  destruct (enhance_prompt_never_raises prompt image s) as [enhanced He].
  destruct (enhance_prompt w prompt image s) as [r0 s0]. cbn [fst] in He. subst r0.
  unfold produce_mesh, ai_generation, fallback_generation,
    generate_geometry_from_prompt, create_default_mesh.
  destruct (USE_ADVANCED w).
  - intros H. exfalso. revert H.
    unfold bind, try_except, call, ret, raise.
    destruct (_ && _); cbn [fst snd].
    + destruct (generate_with_best_service w enhanced image) as [[[ok [m0|]]|]|e0];
        try destruct ok; cbn [fst snd ai_success ai_mesh]; try discriminate;
        destruct (engine_of_value engine); cbn [fst snd]; try discriminate;
        destruct (generate_model w prompt _ image) as [[[m1|]|]|e1];
        cbn [fst snd]; discriminate.
    + destruct (engine_of_value engine); cbn [fst snd]; try discriminate;
        destruct (generate_model w prompt _ image) as [[[m1|]|]|e1];
        cbn [fst snd]; discriminate.
  - cbn [andb]. unfold bind, try_except, call, ret, raise. cbn [fst snd].
    destruct (create_mesh w (creator_for (lower prompt)) prompt) as [m|e0];
      cbn [fst snd]; [discriminate|].
    destruct (create_mesh w "create_procedural_mesh" "abstract geometric shape")
      as [m|e1]; cbn [fst snd]; [discriminate|].
    intros H. injection H as ->. split; reflexivity.
Qed.

(** C6. [generate_3d_model] raises in three cases only.  A blank prompt
    raises [ValueError].  When the generation stage ends without a mesh
    (with [None], or raising while it builds its last-resort mesh) the
    function raises an [Exception]; with [None] its text ends in "Failed to
    generate 3D geometry".  When the engine export, the direct OBJ export
    and the STL export all fail it raises an [Exception].  In every other
    case, and whatever the multimodal processor, the AI services, the
    material and texture steps or [os.makedirs] did, it returns the path it
    wrote: the OBJ path or its STL twin. *)
Theorem generate_3d_model_raises_in_three_cases (prompt : string)
  (image : option string) (job_id : option Z) (engine : string) (c d : Z)
  (style : string) (s : state) :
  let r := fst (generate_3d_model w prompt image job_id engine c d style s) in
  let stage := fst (mesh_stage w (prompt_used prompt) image job_id
                               (engine_used engine) (clamped c) (clamped d)
                               (style_used style) s) in
  (blank prompt = true /\ r = Raise (ValueError "Prompt cannot be empty"))
  \/ (blank prompt = false
      /\ stage = Ok None
      /\ r = Raise (Exception
                      "3D model generation failed: Failed to generate 3D geometry"))
  \/ (blank prompt = false
      /\ exists e, stage = Raise e
         /\ USE_ADVANCED w = false
         /\ create_mesh w "create_procedural_mesh" "abstract geometric shape"
            = Raise e
         /\ r = Raise (Exception ("3D model generation failed: " +:+ str_exn e)))
  \/ (blank prompt = false
      /\ exists m m' path,
           stage = Ok (Some m)
           /\ fst (apply_materials w (prompt_used prompt) (style_used style)
                                   job_id m s) = Ok m'
           /\ fst (choose_output_path w (prompt_used prompt) job_id s) = Ok path
           /\ ((all_exports_fail w m' path /\ exists msg, r = Raise (Exception msg))
               \/ (~ all_exports_fail w m' path
                   /\ exists written,
                        r = Ok written
                        /\ (written = path
                            \/ written = replace ".obj" ".stl" path)))).
Proof.
  cbv zeta. destruct (blank prompt) eqn:Hblank.
  { left. split; [reflexivity|]. unfold generate_3d_model. rewrite Hblank.
    reflexivity. }
  right.
  pose proof (generate_3d_model_stages prompt image job_id engine c d style s
                Hblank) as H. cbv zeta in H.
  pose proof (mesh_stage_raises_without_default (prompt_used prompt) image job_id
                (engine_used engine) (clamped c) (clamped d) (style_used style) s)
    as Hraise.
  destruct (fst (mesh_stage w (prompt_used prompt) image job_id (engine_used engine)
                            (clamped c) (clamped d) (style_used style) s))
    as [[m|]|e].
  - right. right. split; [reflexivity|].
    destruct H as (m' & path & Hm & Hp & H).
    exists m, m', path. repeat split; try assumption.
    destruct (export_mesh_outcome m' path s)
      as [[Hall [msg Hr]]|[Hsome (written & Hr & Hw)]]; rewrite Hr in H.
    + left. split; [exact Hall|]. eexists. exact H.
    + right. split; [exact Hsome|]. exists written. split; assumption.
  - left. split; [reflexivity|]. split; [reflexivity|exact H].
  - right. left. split; [reflexivity|]. exists e.
    destruct (Hraise e eq_refl) as [Hadv Hdefault].
    repeat split; assumption.
Qed.

(** C8. Whatever integers are passed as [complexity] and [detail_level],
    every call to the advanced generator that [generate_3d_model] makes
    carries a config whose two fields are [max(1, min(10, x))] of them, so
    lie between 1 and 10; no other call takes them. *)
Theorem generate_3d_model_clamps (prompt : string) (image : option string)
  (job_id : option Z) (engine : string) (c d : Z) (style : string) (s : state) :
  exists new,
    trace (snd (generate_3d_model w prompt image job_id engine c d style s))
    = (trace s ++ new)%list
    /\ Forall (carries_clamped c d) new.
Proof.
  assert (H : emits (carries_clamped c d)
                (generate_3d_model w prompt image job_id engine c d style)).
  { unfold generate_3d_model, enhance_prompt, produce_mesh, ai_generation,
      fallback_generation, generate_geometry_from_prompt, create_default_mesh,
      apply_materials, choose_output_path, export_mesh, export_model,
      _export_as.
    effect_steps; cbn; lia. }
  destruct (H s) as (new & Ht & Hp & _). exists new. split; assumption.
Qed.

Lemma slice_to_empty (n : nat) (text : string) :
  slice_to n text = EmptyString -> n = O \/ text = EmptyString.
Proof.
  destruct n, text; simpl; auto. discriminate.
Qed.

Lemma slice_to_nil (n : nat) : slice_to n EmptyString = EmptyString.
Proof. destruct n; reflexivity. Qed.

Lemma blank_false_iff (prompt : string) :
  blank prompt = false <-> strip prompt <> EmptyString.
Proof.
  unfold blank. split.
  - intros H Hs. rewrite Hs in H. simpl in H.
    rewrite orb_true_r in H. discriminate.
  - intros H. destruct prompt as [|ch rest]; [exfalso; apply H; reflexivity|].
    simpl truthy. simpl negb. rewrite orb_false_l.
    destruct (strip (String ch rest)); [congruence|reflexivity].
Qed.

End GeneratorProperties.

(** ** The cut of the prompt *)

Section PromptCut.
Import PyStr Trimesh Procedural Effects World ExportEngine ModelGenerator.
Variable w : world.

Lemma first_prompt_app (text : string) (l1 l2 : list event) :
  first_prompt l1 = Some text -> first_prompt (l1 ++ l2) = Some text.
Proof.
  unfold first_prompt. rewrite omap_app.
  destruct (omap prompt_of l1); [discriminate|trivial].
Qed.

Lemma first_prompt_after (l1 l2 : list event) :
  Forall (fun ev => prompt_of ev = None) l1 ->
  first_prompt (l1 ++ l2) = first_prompt l2.
Proof.
  unfold first_prompt. rewrite omap_app. intros H.
  replace (omap prompt_of l1) with (@nil string); [reflexivity|].
  induction H as [|ev l Hev _ IH]; [reflexivity|].
  cbn. rewrite Hev. exact IH.
Qed.

Lemma leads_call {A} (text : string) (ev : event) (answer : result A) :
  prompt_of ev = Some text -> leads text (call ev answer).
Proof.
  intros H s. exists [ev]. split; [reflexivity|].
  unfold first_prompt. cbn. rewrite H. reflexivity.
Qed.

Lemma leads_bind {A B} (text : string) (m : M A) (k : A -> M B) :
  leads text m -> (forall a, emits (fun _ => True) (k a)) ->
  leads text (bind m k).
Proof.
  intros Hm Hk s. unfold bind. destruct (Hm s) as (n1 & Ht1 & Hp1).
  destruct (m s) as [[a|e] s1]; cbn [snd] in Ht1.
  - destruct (Hk a s1) as (n2 & Ht2 & _). exists (n1 ++ n2)%list.
    rewrite Ht2, Ht1, app_assoc. split; [reflexivity|].
    apply first_prompt_app, Hp1.
  - exists n1. split; assumption.
Qed.

Lemma leads_try_except {A} (text : string) (body : M A) (handler : exn -> M A) :
  leads text body -> (forall e, emits (fun _ => True) (handler e)) ->
  leads text (try_except body handler).
Proof.
  intros Hm Hk s. unfold try_except. destruct (Hm s) as (n1 & Ht1 & Hp1).
  destruct (body s) as [[a|e] s1]; cbn [snd] in Ht1.
  - exists n1. split; assumption.
  - destruct (Hk e s1) as (n2 & Ht2 & _). exists (n1 ++ n2)%list.
    rewrite Ht2, Ht1, app_assoc. split; [reflexivity|].
    apply first_prompt_app, Hp1.
Qed.

(** A step that returns [a] and takes no prompt leaves the lead to what
    follows. *)
Lemma leads_after {A B} (text : string) (m : M A) (k : A -> M B) (a : A) :
  (forall s, fst (m s) = Ok a) ->
  emits (fun ev => prompt_of ev = None) m ->
  leads text (k a) -> leads text (bind m k).
Proof.
  intros Hok Hm Hk s. unfold bind. specialize (Hok s).
  destruct (Hm s) as (n1 & Ht1 & Hp1 & _).
  destruct (m s) as [r s1]; cbn [fst snd] in Hok, Ht1. subst r.
  destruct (Hk s1) as (n2 & Ht2 & Hp2). exists (n1 ++ n2)%list.
  rewrite Ht2, Ht1, app_assoc. split; [reflexivity|].
  rewrite (first_prompt_after n1 n2 Hp1). exact Hp2.
Qed.

Lemma leads_after_call {A B C} (text : string) (ev : event) (a : A)
  (k : A -> M B) (rest : B -> M C) :
  prompt_of ev = None ->
  leads text (bind (k a) rest) ->
  leads text (bind (bind (call ev (Ok a)) k) rest).
Proof.
  intros Hev Hk s. destruct (Hk (record ev s)) as (n & Ht & Hp).
  exists (ev :: n). split.
  - unfold bind at 1 2, call at 1. unfold bind at 1 in Ht.
    rewrite Ht. cbn [record trace]. rewrite <- app_assoc. reflexivity.
  - unfold first_prompt in *. change (ev :: n) with ([ev] ++ n)%list.
    rewrite omap_app. cbn. rewrite Hev. exact Hp.
Qed.

Lemma validated_engine_has_value (engine : string) :
  exists member,
    engine_of_value
      (if existsb (String.eqb engine) valid_engines then engine else "hybrid")
    = Some member.
Proof.
  unfold valid_engines, engine_of_value. cbn [existsb].
  destruct (String.eqb engine "procedural") eqn:E1; cbn [orb].
  { rewrite E1. eauto. }
  destruct (String.eqb engine "ai_enhanced") eqn:E2; cbn [orb].
  { rewrite E1, E2. eauto. }
  destruct (String.eqb engine "hybrid") eqn:E3; cbn [orb].
  { rewrite E1, E2, E3. eauto. }
  destruct (String.eqb engine "texture_generated") eqn:E4; cbn [orb].
  { rewrite E1, E2, E3, E4. eauto. }
  cbn. eauto.
Qed.

(** The first call of [generate_3d_model] that takes a prompt takes the
    stripped prompt cut to 500 characters. *)
Lemma generate_3d_model_leads (prompt : string) (image : option string)
  (job_id : option Z) (engine : string) (c d : Z) (style : string) :
  blank prompt = false ->
  leads (slice_to 500 (strip prompt))
        (generate_3d_model w prompt image job_id engine c d style).
Proof.
  intros Hb. unfold generate_3d_model. rewrite Hb. cbv zeta.
  set (text := slice_to 500 (strip prompt)).
  destruct (validated_engine_has_value engine) as [member Hmember].
  set (engine' := if existsb (String.eqb engine) valid_engines
                  then engine else "hybrid") in *.
  assert (Hrest : forall (m : option mesh),
    emits (fun _ => True)
      (match m with
       | None => raise (Exception "Failed to generate 3D geometry")
       | Some m =>
           let* m := apply_materials w text
                       (if existsb (String.eqb style) valid_styles
                        then style else "realistic") job_id m in
           let* output_path := choose_output_path w text job_id in
           export_mesh w m output_path
       end)).
  { intros m. unfold apply_materials, choose_output_path, export_mesh,
      export_model, _export_as. effect_steps. }
  assert (Hfall : leads text
            (fallback_generation w text image job_id engine'
               (Z.max 1 (Z.min 10 c)) (Z.max 1 (Z.min 10 d))
               (if existsb (String.eqb style) valid_styles
                then style else "realistic"))).
  { unfold fallback_generation.
    apply leads_try_except;
      [|intros e; unfold create_default_mesh; effect_steps].
    destruct (USE_ADVANCED w).
    - apply leads_try_except; [|intros e; apply emits_ret].
      rewrite Hmember. apply leads_bind; [apply leads_call; reflexivity|].
      intros [entry|]; apply emits_ret.
    - apply leads_bind; [|intros m; apply emits_ret].
      unfold generate_geometry_from_prompt.
      apply leads_try_except;
        [apply leads_call; reflexivity
        |intros e; unfold create_default_mesh; effect_steps]. }
  assert (Hmesh : leads text
            (produce_mesh w text text image job_id engine'
               (Z.max 1 (Z.min 10 c)) (Z.max 1 (Z.min 10 d))
               (if existsb (String.eqb style) valid_styles
                then style else "realistic"))).
  { unfold produce_mesh, ai_generation.
    destruct (USE_ADVANCED w && String.eqb engine' "ai_enhanced"
              && negb (Nat.eqb (length (available_services w)) 0)).
    - apply leads_bind.
      + apply leads_try_except; [|intros e; apply emits_ret].
        apply leads_bind; [apply leads_call; reflexivity|].
        intros [res|]; [destruct (ai_success res)|]; apply emits_ret.
      + intros [m|]; [apply emits_ret|].
        unfold fallback_generation, generate_geometry_from_prompt,
          create_default_mesh. effect_steps.
    - apply (leads_after text (ret None) _ None);
        [reflexivity|apply emits_ret|exact Hfall]. }
  assert (Hprod : forall enhanced,
    emits (fun _ => True)
      (produce_mesh w text enhanced image job_id engine'
         (Z.max 1 (Z.min 10 c)) (Z.max 1 (Z.min 10 d))
         (if existsb (String.eqb style) valid_styles
          then style else "realistic"))).
  { intros enhanced.
    unfold produce_mesh, ai_generation, fallback_generation,
      generate_geometry_from_prompt, create_default_mesh. effect_steps. }
  apply leads_try_except; [|intros e; apply emits_raise].
  assert (Hplain : leads text
            (let* mesh :=
               produce_mesh w text text image job_id engine'
                 (Z.max 1 (Z.min 10 c)) (Z.max 1 (Z.min 10 d))
                 (if existsb (String.eqb style) valid_styles
                  then style else "realistic") in
             match mesh with
             | None => raise (Exception "Failed to generate 3D geometry")
             | Some m =>
                 let* m := apply_materials w text
                             (if existsb (String.eqb style) valid_styles
                              then style else "realistic") job_id m in
                 let* output_path := choose_output_path w text job_id in
                 export_mesh w m output_path
             end)).
  { apply leads_bind; [exact Hmesh|exact Hrest]. }
  unfold enhance_prompt.
  destruct image as [img|];
    [|apply (leads_after text (ret text) _ text);
      [reflexivity|apply emits_ret|exact Hplain]].
  destruct (USE_ADVANCED w && truthy img);
    [|apply (leads_after text (ret text) _ text);
      [reflexivity|apply emits_ret|exact Hplain]].
  apply leads_after_call; [reflexivity|].
  destruct (path_exists w img).
  - apply leads_bind.
    + apply leads_try_except; [|intros e; apply emits_ret].
      apply leads_bind; [apply leads_call; reflexivity|].
      intros [res|]; [destruct (mm_success res)|]; apply emits_ret.
    + intros enhanced. apply emits_bind; [apply Hprod|exact Hrest].
  - apply (leads_after text (ret text) _ text);
      [reflexivity|apply emits_ret|exact Hplain].
Qed.


Lemma slice_to_length (n : nat) (text : string) :
  String.length (slice_to n text) = Nat.min n (String.length text).
Proof.
  revert text. induction n as [|n IH]; intros [|ch rest]; cbn; try reflexivity.
  rewrite IH. reflexivity.
Qed.

Lemma slice_to_prefix (n : nat) (text : string) :
  exists rest, text = slice_to n text +:+ rest.
Proof.
  revert text. induction n as [|n IH]; intros text.
  - exists text. destruct text; reflexivity.
  - destruct text as [|ch tail]; [exists EmptyString; reflexivity|].
    destruct (IH tail) as [rest Hrest]. exists rest.
    change (String ch tail = String ch (slice_to n tail +:+ rest)).
    rewrite <- Hrest. reflexivity.
Qed.

(** C10. [generate_3d_model] works on the first 500 characters of the
    stripped prompt, no more and no fewer.  For a prompt that is not blank:
    a second prompt is generated from the same state with the same outcome,
    the same calls and the same state exactly when the two agree on those
    characters; the text is the stripped prompt itself when that has at
    most 500 characters and its first 500 otherwise; the first call that
    takes a prompt takes that text, and no call takes the prompt as it was
    passed: the multimodal processor, the advanced generator, the mesh
    creators and the material generator take that text, the AI services
    what the multimodal processor made of it. *)
Theorem generate_3d_model_truncates_prompt (prompt1 prompt2 : string)
  (image : option string) (job_id : option Z) (engine : string) (c d : Z)
  (style : string) (s : state) :
  blank prompt1 = false ->
  (slice_to 500 (strip prompt1) = slice_to 500 (strip prompt2)
   <-> generate_3d_model w prompt1 image job_id engine c d style s
       = generate_3d_model w prompt2 image job_id engine c d style s)
  /\ String.length (slice_to 500 (strip prompt1))
     = Nat.min 500 (String.length (strip prompt1))
  /\ (exists rest, strip prompt1 = slice_to 500 (strip prompt1) +:+ rest)
  /\ exists new,
       trace (snd (generate_3d_model w prompt1 image job_id engine c d style s))
       = (trace s ++ new)%list
       /\ first_prompt new = Some (slice_to 500 (strip prompt1))
       /\ Forall (generation_call prompt1) new.
Proof.
  intros Hb1.
  destruct (generate_3d_model_leads prompt1 image job_id engine c d style Hb1 s)
    as (new1 & Ht1 & Hp1).
  split; [|split; [apply slice_to_length|split; [apply slice_to_prefix|]]].
  - split.
    + intros Heq.
      assert (Hb2 : blank prompt2 = false).
      { apply blank_false_iff. intros Hs. rewrite Hs, slice_to_nil in Heq.
        apply slice_to_empty in Heq as [Heq|Heq]; [discriminate|].
        apply blank_false_iff in Hb1. contradiction. }
      unfold generate_3d_model. rewrite Hb1, Hb2, Heq. reflexivity.
    + intros Hrun. rewrite Hrun in Ht1.
      destruct (blank prompt2) eqn:Hb2.
      * exfalso. unfold generate_3d_model in Ht1. rewrite Hb2 in Ht1.
        cbn [raise snd] in Ht1.
        rewrite <- (app_nil_r (trace s)) in Ht1 at 1.
        apply app_inv_head in Ht1. subst new1. discriminate Hp1.
      * destruct (generate_3d_model_leads prompt2 image job_id engine c d
                    style Hb2 s) as (new2 & Ht2 & Hp2).
        rewrite Ht2 in Ht1. apply app_inv_head in Ht1. subst new2.
        rewrite Hp1 in Hp2. injection Hp2 as Hp2. exact Hp2.
  - assert (H : emits (generation_call prompt1)
                  (generate_3d_model w prompt1 image job_id engine c d style)).
    { unfold generate_3d_model. rewrite Hb1. fold (prompt_used prompt1).
      unfold enhance_prompt, produce_mesh, ai_generation,
        fallback_generation, generate_geometry_from_prompt, create_default_mesh,
        apply_materials, choose_output_path, export_mesh, export_model,
        _export_as.
      effect_steps. }
    destruct (H s) as (new & Ht & Hcalls & _).
    exists new. split; [exact Ht|]. split; [|exact Hcalls].
    rewrite Ht in Ht1. apply app_inv_head in Ht1. subst new1. exact Hp1.
Qed.

End PromptCut.


(** ** The generation task *)

Section TaskProperties.
Import PyStr Trimesh Effects World ExportEngine FileConverter ModelGenerator.
Import Models Tasks.
Variable w : world.

Lemma status_writes_app (l1 l2 : list event) :
  status_writes (l1 ++ l2) = (status_writes l1 ++ status_writes l2)%list.
Proof.
  induction l1 as [|ev l1 IH]; [reflexivity|].
  destruct ev; simpl; rewrite IH; reflexivity.
Qed.

Lemma status_writes_quiet (l : list event) :
  Forall quiet l -> status_writes l = [].
Proof.
  induction 1 as [|ev l Hq _ IH]; [reflexivity|].
  destruct ev; simpl in *; try exact IH; contradiction.
Qed.





Lemma emits_quiet_generate_3d_model (prompt : string) (image : option string)
  (job_id : option Z) (engine : string) (c d : Z) (style : string) :
  emits quiet (generate_3d_model w prompt image job_id engine c d style).
Proof.
  unfold generate_3d_model, enhance_prompt, produce_mesh, ai_generation,
    fallback_generation, generate_geometry_from_prompt, create_default_mesh,
    apply_materials, choose_output_path, export_mesh, export_model,
    _export_as.
  effect_steps.
Qed.














End TaskProperties.

(** ** The generation task: the lifecycle of a job *)

Section TaskLifecycle.
Import PyStr Trimesh Effects World ExportEngine FileConverter ModelGenerator.
Import Models Tasks.
Variable w : world.

Lemma inactive_app (s s' : state) (new : list event) :
  trace s' = (trace s ++ new)%list ->
  inactive s' = inactive s || existsb flush_failure new.
Proof. intros H. unfold inactive. rewrite H. apply existsb_app. Qed.

Lemma quiet_no_failure (l : list event) :
  Forall quiet l -> existsb flush_failure l = false.
Proof.
  induction 1 as [|ev l Hq _ IH]; [reflexivity|].
  destruct ev; simpl in *; try exact IH; contradiction.
Qed.

Lemma inactive_quiet (s s' : state) (new : list event) :
  trace s' = (trace s ++ new)%list -> Forall quiet new ->
  inactive s' = inactive s.
Proof.
  intros Ht Hq. rewrite (inactive_app s s' new Ht), (quiet_no_failure new Hq).
  apply orb_false_r.
Qed.

(** The two ways of a commit on a usable session. *)
Lemma commit_run (server : database -> result unit) (s : state) :
  inactive s = false ->
  commit server s
  = match database_answer server (session s) with
    | Ok _ => (Ok tt, {| trace := (trace s ++ [Commit])%list;
                         session := session s;
                         history := (history s ++ [session s])%list |})
    | Raise e => (Raise e, {| trace := (trace s ++ [Commit; FlushFailed])%list;
                              session := session s;
                              history := history s |})
    end.
Proof.
  intros Ha. unfold commit, bind, call, flush, store.
  replace (inactive (record Commit s)) with false
    by (unfold inactive, record; cbn [trace]; rewrite existsb_app;
        fold (inactive s); rewrite Ha; reflexivity).
  cbn [session record].
  destruct (database_answer server (session s)) as [[]|e].
  - reflexivity.
  - unfold record. cbn [trace session history]. rewrite <- app_assoc. reflexivity.
Qed.

(** A commit stores the tables of the session or nothing, and it stores no
    table in which a cache key is repeated. *)
Lemma commit_stores_unique_keys (server : database -> result unit) (s : state) :
  history (snd (commit server s)) = history s
  \/ (history (snd (commit server s)) = (history s ++ [session s])%list
      /\ unique_keys (cache (session s))
      /\ fst (commit server s) = Ok tt).
Proof.
  destruct (inactive s) eqn:Ha.
  - left. unfold commit, bind, call, flush.
    replace (inactive (record Commit s)) with true
      by (unfold inactive, record; cbn [trace]; rewrite existsb_app;
          fold (inactive s); rewrite Ha; reflexivity).
    reflexivity.
  - rewrite (commit_run server s Ha).
    destruct (database_answer server (session s)) as [[]|e] eqn:Hans.
    + right. split; [reflexivity|]. split; [|reflexivity].
      unfold database_answer, unique_cache_keys in Hans.
      destruct (bool_decide (NoDup (map cache_key (cache (session s))))) eqn:E;
        [|discriminate].
      apply bool_decide_eq_true_1 in E. exact E.
    + left. reflexivity.
Qed.


Lemma update_job_run (job_id : Z) (f : GenerationJob -> GenerationJob) (s : state) :
  update_job job_id f s
  = (Ok tt, {| trace := trace s; session := assigned job_id f (session s);
               history := history s |}).
Proof. reflexivity. Qed.

Lemma set_status_run (job_id : Z) (value : string) (s : state) :
  set_status job_id value s
  = (Ok tt, {| trace := (trace s ++ [SetStatus job_id value])%list;
               session := assigned job_id (with_status value) (session s);
               history := history s |}).
Proof. reflexivity. Qed.







Lemma stateless_generate_3d_model (prompt : string) (image : option string)
  (job_id : option Z) (engine : string) (c d : Z) (style : string) :
  stateless (generate_3d_model w prompt image job_id engine c d style).
Proof.
  unfold generate_3d_model, enhance_prompt, produce_mesh, ai_generation,
    fallback_generation, generate_geometry_from_prompt, create_default_mesh,
    apply_materials, choose_output_path, export_mesh,
    ExportEngine.export_model, ExportEngine._export_as.
  effect_steps.
Qed.

Lemma find_app_left {A} (f : A -> bool) (l l' : list A) (x : A) :
  List.find f l = Some x -> List.find f (l ++ l')%list = Some x.
Proof.
  induction l as [|a l IH]; simpl; [discriminate|].
  destruct (f a); [trivial|exact IH].
Qed.


(** A database that is up takes every table whose cache keys are unique. *)
Lemma database_answer_up (d : database) :
  database_up w -> unique_keys (cache d) ->
  database_answer (db_flush w) d = Ok tt.
Proof.
  intros Hup Hu. unfold database_answer, unique_cache_keys.
  rewrite bool_decide_eq_true_2 by exact Hu. apply Hup.
Qed.


Lemma cached_row_key (prompt : string) (d : database) (row : AssetCache) :
  cached_row w prompt d = Some row ->
  In (cache_key_of w prompt) (map cache_key (cache d)).
Proof.
  unfold cached_row. intros H. apply find_some in H as [Hin Heq].
  apply String.eqb_eq in Heq. rewrite <- Heq. apply in_map. exact Hin.
Qed.

Lemma cached_row_none (prompt : string) (d : database) :
  cached_row w prompt d = None ->
  ~ In (cache_key_of w prompt) (map cache_key (cache d)).
Proof.
  unfold cached_row. intros H Hin. apply in_map_iff in Hin as (row & Hk & Hin).
  apply (find_none _ _ H) in Hin. rewrite Hk, String.eqb_refl in Hin.
  discriminate.
Qed.

(** A second row under the key of a row that is there breaks the unique
    constraint; a row under a new key keeps it. *)
Lemma repeated_key (prompt path : string) (d : database) (row : AssetCache) :
  cached_row w prompt d = Some row ->
  ~ unique_keys (cache d ++ [cache_entry_of w prompt path]).
Proof.
  intros Hrow Hu. unfold unique_keys in Hu. rewrite map_app in Hu.
  apply NoDup_app in Hu as (_ & Hdis & _).
  apply (Hdis (cache_key_of w prompt)).
  - apply list_elem_of_In, (cached_row_key prompt d row Hrow).
  - cbn. left.
Qed.

Lemma new_key (prompt path : string) (d : database) :
  cached_row w prompt d = None -> unique_keys (cache d) ->
  unique_keys (cache d ++ [cache_entry_of w prompt path]).
Proof.
  intros Hrow Hu. unfold unique_keys in *. rewrite map_app.
  apply NoDup_app. split; [exact Hu|]. split.
  - intros k Hk Hin. cbn in Hin. apply list_elem_of_singleton in Hin. subst k.
    apply list_elem_of_In in Hk. exact (cached_row_none prompt d Hrow Hk).
  - cbn. apply NoDup_singleton.
Qed.




End TaskLifecycle.

(** C10 at work: two prompts of more than 500 characters that differ only
    after the 500th are generated alike. *)
Lemma generate_3d_model_truncates_prompt_witness :
  ModelGenerator.blank (long_prompt "with two arm rests") = false
  /\ String.length (PyStr.strip (long_prompt "with two arm rests")) = 518%nat
  /\ String.length (PyStr.strip (long_prompt "with a tall back")) = 516%nat
  /\ ModelGenerator.generate_3d_model (no_blender_world true true true)
       (long_prompt "with two arm rests") None (Some 7) "hybrid" 7 8 "realistic"
       empty_state
     = ModelGenerator.generate_3d_model (no_blender_world true true true)
         (long_prompt "with a tall back") None (Some 7) "hybrid" 7 8 "realistic"
         empty_state.
Proof.
  split; [vm_compute; reflexivity|]. split; [vm_compute; reflexivity|].
  split; [vm_compute; reflexivity|].
  apply (generate_3d_model_truncates_prompt (no_blender_world true true true)
           (long_prompt "with two arm rests") (long_prompt "with a tall back")
           None (Some 7) "hybrid" 7 8 "realistic" empty_state).
  - vm_compute. reflexivity.
  - vm_compute. reflexivity.
Defined.



(** The two ends of the lifecycle on sample runs: a prompt that generates,
    and a blank prompt, for which the generator raises [ValueError]. *)
Example task_completes_a_wooden_chair :
  fst (Tasks.generate_3d_model_task (no_blender_world true true true) 7
         "a wooden chair" None None (one_job_state "a wooden chair"))
  = Ok {| Tasks.result_job_id := 7;
          Tasks.result_status := "completed";
          Tasks.result_fbx_path := "generated/model_7.obj";
          Tasks.result_blend_path := Some "generated/model_7.blend" |}
  /\ job_statuses 7
       (Effects.history
          (snd (Tasks.generate_3d_model_task (no_blender_world true true true) 7
                  "a wooden chair" None None (one_job_state "a wooden chair"))))
     = [Some "processing"; Some "completed"].
Proof. split; vm_compute; reflexivity. Qed.

Example task_fails_on_blank_prompt :
  fst (Tasks.generate_3d_model_task (no_blender_world true true true) 7
         "   " None None (one_job_state "   "))
  = Raise (ValueError "Prompt cannot be empty")
  /\ map (fun d => Models.error_message <$> Models.jobs d !! 7)
       (Effects.history
          (snd (Tasks.generate_3d_model_task (no_blender_world true true true) 7
                  "   " None None (one_job_state "   "))))
     = [Some None; Some (Some "Prompt cannot be empty")]
  /\ job_statuses 7
       (Effects.history
          (snd (Tasks.generate_3d_model_task (no_blender_world true true true) 7
                  "   " None None (one_job_state "   "))))
     = [Some "processing"; Some "failed"].
Proof. repeat split; vm_compute; reflexivity. Qed.

(** Clamping on sample runs: 15 becomes 10 and -3 becomes 1 in the config
    handed to the advanced generator. *)
Example generate_3d_model_clamps_15_and_minus_3 :
  Effects.trace
    (snd (ModelGenerator.generate_3d_model (no_blender_world true true true)
            "a wooden chair" None None "procedural" 15 (-3) "realistic"
            empty_state))
  !! 0%nat
  = Some (Effects.GenerateModel "a wooden chair"
            {| Procedural.engine := Procedural.PROCEDURAL;
               Procedural.complexity := 10;
               Procedural.detail_level := 1;
               Procedural.material_style := "realistic";
               Procedural.generate_textures := true;
               Procedural.generate_materials := true;
               Procedural.variations := 1;
               Procedural.seed := None |} None).
Proof. vm_compute. reflexivity. Qed.

(** The failures that are swallowed: with a material generator, a texture
    generator and [os.makedirs] that all raise, and an export engine that
    cannot write, the function still returns a path. *)
Example generate_3d_model_degrades_silently :
  fst (ModelGenerator.generate_3d_model
         {| World.platform_windows := false;
            World.subprocess_run := fun _ => Raise (Exception "no such file");
            World.path_exists := fun _ => false;
            World.write_temp_script := fun _ => Raise (Exception "read-only");
            World.makedirs := fun _ => Raise (Exception "Permission denied");
            World.trimesh_load := fun _ => Ok None;
            World.has_export := fun _ => false;
            World.exporters_available := fun _ => Ok [];
            World.mesh_export := fun _ _ file_type =>
              match file_type with
              | Some _ => Raise (ValueError "exporter not available")
              | None => Ok tt
              end;
            World.optimize_mesh := fun _ => Raise (Exception "decimation failed");
            World.write_json := fun _ => Raise (Exception "Permission denied");
            World.EXPORT_AVAILABLE := true;
            World.USE_ADVANCED := true;
            World.process_text_and_image := fun _ _ => Raise (Exception "no CLIP");
            World.available_services := ["openai"];
            World.generate_with_best_service := fun _ _ =>
              Raise (Exception "connection refused");
            World.generate_model := fun _ _ _ =>
              Ok (Some (Some (Trimesh.creation (Trimesh.uv_sphere 1))));
            World.create_mesh := fun _ _ => Raise (Exception "unused");
            World.generate_material_for_prompt := fun _ _ =>
              Raise (Exception "no material");
            World.apply_material_to_mesh := fun m _ => Ok m;
            World.generate_texture_image := fun _ => Raise (Exception "no PIL");
            World.create_material_file := fun _ _ => Raise (Exception "read-only");
            World.py_hash := fun _ => -5;
            World.time_now := 0;
            World.task_request_id := "";
            World.utcnow := 0;
            World.db_flush := fun _ => Ok tt |}
         "a glowing orb of light" (Some "ref.png") None "ai_enhanced" 7 8 "shiny"
         empty_state)
  = Ok "model_-5.obj".
Proof. vm_compute. reflexivity. Qed.

(* ================================================================== *)
(** * Further properties of the embedded code *)
(* ================================================================== *)

(** ** file_converter.py and export_engine.py *)

Section ConverterBehaviour.
Import PyStr Trimesh Effects World ExportEngine FileConverter MeshFallback.
Variable w : world.

Lemma lookup_in_path_run (name : string) (s : state) :
  lookup_in_path w name s
  = (Ok (path_lookup w name), record (Subprocess (lookup_command w name)) s).
Proof.
  unfold lookup_in_path, path_lookup, lookup_command, try_except, bind, call, ret.
  destruct (subprocess_run w _) as [[[code out] err]|e]; simpl; [|reflexivity].
  destruct (code =? 0); simpl; [|reflexivity].
  destruct (truthy _); reflexivity.
Qed.

Lemma search_paths_result (paths : list string) (s : state) :
  fst (search_paths w paths s) = Ok (List.find (path_exists w) paths).
Proof.
  revert s. induction paths as [|path rest IH]; intros s; simpl.
  - reflexivity.
  - unfold bind, call. simpl. destruct (path_exists w path); simpl.
    + reflexivity.
    + apply IH.
Qed.

Lemma find_blender_executable_location (s : state) :
  fst (find_blender_executable w s) = Ok (blender_location w).
Proof.
  unfold find_blender_executable, blender_location. simpl.
  rewrite bind_run, lookup_in_path_run.
  destruct (path_lookup w "blender"); [reflexivity|].
  rewrite bind_run, lookup_in_path_run.
  destruct (path_lookup w "blender3d"); [reflexivity|].
  apply search_paths_result.
Qed.

Lemma path_lookup_truthy (name path : string) :
  path_lookup w name = Some path -> truthy path = true.
Proof.
  unfold path_lookup.
  destruct (subprocess_run w _) as [[[code out] err]|e]; [|discriminate].
  destruct (code =? 0); simpl; [|discriminate].
  destruct (truthy _) eqn:E; [|discriminate].
  intros H. injection H as <-. exact E.
Qed.

Lemma blender_location_truthy (path : string) :
  blender_location w = Some path -> truthy path = true.
Proof.
  unfold blender_location.
  destruct (path_lookup w "blender") eqn:E1.
  { intros H. injection H as <-. exact (path_lookup_truthy _ _ E1). }
  destruct (path_lookup w "blender3d") eqn:E2.
  { intros H. injection H as <-. exact (path_lookup_truthy _ _ E2). }
  intros H. apply find_some in H. destruct H as [Hin _].
  assert (Hall : forallb truthy (install_paths w) = true).
  { unfold install_paths. destruct (platform_windows w); vm_compute; reflexivity. }
  rewrite forallb_forall in Hall. apply Hall, Hin.
Qed.

(** The system PATH comes first: one lookup, and nothing probed after
    it. *)
Lemma find_blender_executable_first_lookup (s : state) (path : string) :
  path_lookup w "blender" = Some path ->
  find_blender_executable w s
  = (Ok (Some path), record (Subprocess (lookup_command w "blender")) s).
Proof.
  intros H. unfold find_blender_executable. simpl.
  rewrite bind_run, lookup_in_path_run, H. reflexivity.
Qed.

(** X1. [find_blender_executable] never raises.  Its answer is the first
    of: the first line printed by the PATH lookup of "blender" (when the
    lookup exits with 0 and the line is not empty), the same for
    "blender3d", the first install location of the platform that exists;
    and [None] when there is none.  A path it returns is never the empty
    string, and an install location it returns exists.  When the lookup
    of "blender" prints a path, that single call is all the function
    does: "blender3d" is not looked up and no install location is
    probed. *)
Theorem find_blender_executable_answer (s : state) :
  fst (find_blender_executable w s) = Ok (blender_location w)
  /\ (forall path, blender_location w = Some path -> truthy path = true)
  /\ (forall path,
        blender_location w = Some path ->
        path_lookup w "blender" = None -> path_lookup w "blender3d" = None ->
        In path (install_paths w) /\ path_exists w path = true)
  /\ (blender_location w = None
      <-> path_lookup w "blender" = None /\ path_lookup w "blender3d" = None
          /\ forall path, In path (install_paths w) -> path_exists w path = false)
  /\ (forall path,
        path_lookup w "blender" = Some path ->
        find_blender_executable w s
        = (Ok (Some path), record (Subprocess (lookup_command w "blender")) s)).
Proof.
  split; [apply find_blender_executable_location|].
  split; [apply blender_location_truthy|].
  split; [|split; [|apply find_blender_executable_first_lookup]].
  - intros path H H1 H2. unfold blender_location in H. rewrite H1, H2 in H.
    apply find_some in H. exact H.
  - unfold blender_location. split.
    + destruct (path_lookup w "blender"); [discriminate|].
      destruct (path_lookup w "blender3d"); [discriminate|].
      intros H. repeat split. intros path Hin.
      destruct (path_exists w path) eqn:E; [|reflexivity].
      pose proof (find_none _ _ H path Hin) as Hn. congruence.
    + intros (-> & -> & H).
      destruct (List.find (path_exists w) (install_paths w)) eqn:E; [|reflexivity].
      apply find_some in E. destruct E as [Hin He]. rewrite (H _ Hin) in He.
      discriminate.
Qed.

(** The Blender tier once Blender is found: the script is written, Blender
    is run on it, the output file is looked for, and the script is removed
    on every way out of the inner [try]. *)
Lemma convert_with_blender_found (obj_path : string) (job : job_id)
  (output_format : string) (s : state) (blender : string) :
  fst (find_blender_executable w s) = Ok (Some blender) ->
  convert_with_blender w obj_path job output_format s
  = let s1 := snd (find_blender_executable w s) in
    let output := blender_output w job output_format in
    let content := create_blender_script obj_path output output_format in
    match write_temp_script w content with
    | Raise e => (Raise (passed_on e), record (TempScript content) s1)
    | Ok script =>
        let cmd := blender_command blender script in
        let s2 := record (Subprocess cmd) (record (TempScript content) s1) in
        match subprocess_run w cmd with
        | Raise e => (Raise (passed_on e), record (Unlink script) s2)
        | Ok (returncode, _, stderr) =>
            if returncode =? 0
            then
              let s3 := record (Unlink script) (record (PathExists output) s2) in
              if path_exists w output
              then (Ok output, s3)
              else (Raise (Exception "Output file was not created"), s3)
            else (Raise (Exception ("Blender conversion failed: " +:+ stderr)),
                  record (Unlink script) s2)
        end
    end.
Proof.
  intros Hfind.
  assert (Htruthy : truthy blender = true).
  { apply blender_location_truthy.
    pose proof (find_blender_executable_location s) as H.
    rewrite Hfind in H. injection H as <-. reflexivity. }
  unfold convert_with_blender, blender_output, blender_command, try_except,
    bind, try_finally, call, raise, ret.
  destruct (find_blender_executable w s) as [r s1]. simpl in Hfind. subst r.
  rewrite Htruthy. cbn [negb fst snd].
  destruct (String.eqb output_format "blend").
  all: destruct (write_temp_script w _) as [script|e]; [|destruct e; reflexivity].
  all: destruct (subprocess_run w _) as [[[code out] err]|e];
    [|destruct e; reflexivity].
  all: destruct (code =? 0); cbn [negb]; [|reflexivity].
  all: destruct (path_exists w _); reflexivity.
Qed.

(** X2. Once the temporary script is written, [convert_with_blender]
    removes it whatever happens next: Blender exiting with an error,
    timing out or raising, or the output file missing.  The removal is the
    last thing the function does. *)
Theorem convert_with_blender_removes_script (obj_path : string) (job : job_id)
  (output_format : string) (s : state) (blender script : string) :
  fst (find_blender_executable w s) = Ok (Some blender) ->
  write_temp_script w
    (create_blender_script obj_path (blender_output w job output_format)
                           output_format) = Ok script ->
  exists before,
    trace (snd (convert_with_blender w obj_path job output_format s))
    = (before ++ [Unlink script])%list.
Proof.
  intros Hfind Hscript.
  rewrite (convert_with_blender_found _ _ _ _ _ Hfind). cbv zeta.
  rewrite Hscript.
  destruct (subprocess_run w _) as [[[code out] err]|e].
  - destruct (code =? 0); [destruct (path_exists w _)|]; eexists; reflexivity.
  - eexists; reflexivity.
Qed.

(** X3. No [TimeoutExpired] leaves [convert_with_blender]: whatever raises
    it inside, the caller sees another exception in its place. *)
Theorem convert_with_blender_hides_timeouts (obj_path : string) (job : job_id)
  (output_format : string) (s : state) (msg : string) :
  fst (convert_with_blender w obj_path job output_format s)
  <> Raise (TimeoutExpired msg).
Proof.
  unfold convert_with_blender, try_except.
  match goal with |- context [bind ?m ?k s] => destruct (bind m k s) as [[p|e] s1] end.
  - discriminate.
  - destruct e; simpl; discriminate.
Qed.

(** X4. [convert_with_blender] returns exactly when Blender is found, the
    script can be written, Blender exits with code 0 and the output file
    exists afterwards; what it returns is then the output path of the
    requested format. *)
Theorem convert_with_blender_succeeds_iff (obj_path : string) (job : job_id)
  (output_format : string) (s : state) :
  ((exists path, fst (convert_with_blender w obj_path job output_format s) = Ok path)
   <-> exists blender script out err,
         blender_location w = Some blender
         /\ write_temp_script w
              (create_blender_script obj_path (blender_output w job output_format)
                                     output_format) = Ok script
         /\ subprocess_run w (blender_command blender script) = Ok (0, out, err)
         /\ path_exists w (blender_output w job output_format) = true)
  /\ forall path,
       fst (convert_with_blender w obj_path job output_format s) = Ok path ->
       path = blender_output w job output_format.
Proof.
  pose proof (find_blender_executable_location s) as Hloc.
  destruct (blender_location w) as [blender|] eqn:Eloc.
  - rewrite (convert_with_blender_found _ _ _ _ _ Hloc). cbv zeta.
    destruct (write_temp_script w _) as [script|e] eqn:Escript.
    + destruct (subprocess_run w (blender_command blender script))
        as [[[code out] err]|e] eqn:Erun.
      * destruct (code =? 0) eqn:Ecode.
        -- apply Z.eqb_eq in Ecode. subst code.
           destruct (path_exists w _) eqn:Eout; cbn [fst].
           ++ split.
              ** split; [|intros _; eexists; reflexivity].
                 intros _. exists blender, script, out, err. auto.
              ** intros path H. injection H as <-. reflexivity.
           ++ split; [|discriminate].
              split; [intros [? H]; discriminate|].
              intros (? & ? & ? & ? & _ & _ & _ & H). discriminate.
        -- cbn [fst]. split; [|discriminate].
           split; [intros [? H]; discriminate|].
           intros (b & sc & o & e' & Hb & Hs & Hr & _).
           injection Hb as <-. injection Hs as <-. rewrite Erun in Hr.
           injection Hr as -> _ _. discriminate.
      * cbn [fst]. split; [|discriminate].
        split; [intros [? H]; discriminate|].
        intros (b & sc & o & e' & Hb & Hs & Hr & _).
        injection Hb as <-. injection Hs as <-. rewrite Erun in Hr.
        discriminate.
    + cbn [fst]. split; [|discriminate].
      split; [intros [? H]; discriminate|].
      intros (? & ? & ? & ? & _ & H & _). discriminate.
  - rewrite (convert_with_blender_not_found w _ _ _ _ Hloc). cbn [fst].
    split; [|discriminate].
    split; [intros [? H]; discriminate|].
    intros (? & ? & ? & ? & H & _). discriminate.
Qed.


Lemma fbx_with_trimesh_path (obj_path : string) (job : job_id)
  (s s' : state) (path : string) :
  fbx_with_trimesh w obj_path job s = (Ok path, s')
  -> path = output_path_of w job ".fbx".
Proof.
  unfold fbx_with_trimesh, load_obj, bind, call, raise, ret.
  destruct (trimesh_load w obj_path) as [[m|]|e]; simpl; try discriminate.
  destruct (has_export w m); simpl.
  - destruct (exporters_available w m) as [l|e]; simpl; [|discriminate].
    destruct (existsb _ l); simpl; [|discriminate].
    destruct (mesh_export w m _ _); simpl; [|discriminate].
    intros H. injection H as <- _. reflexivity.
  - discriminate.
Qed.

(** X5. [convert_to_fbx] has two possible answers and no other: the FBX
    output path of the job, when one of its three tiers returned, and the
    OBJ path it was given, when none did. *)
Theorem convert_to_fbx_answers (obj_path : string) (job : job_id) (s : state) :
  exists path,
    fst (convert_to_fbx w obj_path job s) = Ok path
    /\ (path = output_path_of w job ".fbx" \/ path = obj_path)
    /\ ((exists s1, convert_with_blender w obj_path job "fbx" s = (Ok path, s1))
        \/ (exists e1 s1,
              convert_with_blender w obj_path job "fbx" s = (Raise e1, s1)
              /\ ((exists s2, fbx_with_trimesh w obj_path job s1 = (Ok path, s2))
                  \/ (exists e2 s2,
                        fbx_with_trimesh w obj_path job s1 = (Raise e2, s2)
                        /\ (fst (with_export_engine w obj_path job FBX ".fbx" s2)
                            = Ok path
                            \/ (path = obj_path
                                /\ exists e3,
                                     fst (with_export_engine w obj_path job FBX
                                            ".fbx" s2) = Raise e3)))))).
Proof.
  unfold convert_to_fbx, try_except.
  destruct (convert_with_blender w obj_path job "fbx" s) as [[p|e1] s1] eqn:Eb.
  { exists p. cbn [fst]. split; [reflexivity|].
    split; [left; exact (convert_with_blender_path w _ _ _ _ _ _ Eb)|].
    left. exists s1. reflexivity. }
  destruct (fbx_with_trimesh w obj_path job s1) as [[p|e2] s2] eqn:Et.
  { exists p. cbn [fst]. split; [reflexivity|].
    split; [left; exact (fbx_with_trimesh_path _ _ _ _ _ Et)|].
    right. exists e1, s1. split; [reflexivity|]. left. exists s2. exact Et. }
  destruct (with_export_engine w obj_path job FBX ".fbx" s2) as [[p|e3] s3] eqn:Ee.
  { exists p. cbn [fst]. split; [reflexivity|].
    split; [left; exact (with_export_engine_path w _ _ _ _ _ _ _ Ee)|].
    right. exists e1, s1. split; [reflexivity|]. right. exists e2, s2.
    rewrite Et, Ee. split; [reflexivity|]. left. reflexivity. }
  exists obj_path. cbn [fst ret]. split; [reflexivity|].
  split; [right; reflexivity|].
  right. exists e1, s1. split; [reflexivity|]. right. exists e2, s2.
  rewrite Et, Ee. split; [reflexivity|]. right. split; [reflexivity|].
  exists e3. reflexivity.
Qed.

(** X6. [convert_to_blend] never exports a mesh.  Its export-engine tier
    asks for the RBXM format, whose writer stores a fixed JSON document:
    the only file the function writes itself is that document, at the
    Blend output path of the job.  The database session is not touched. *)
Theorem convert_to_blend_exports_no_mesh (obj_path : string) (job : job_id) :
  emits (blend_conversion_event w job) (convert_to_blend w obj_path job).
Proof.
  assert (Hfind : emits (blend_conversion_event w job) (find_blender_executable w)).
  { apply emits_find_blender_executable; intros; exact I. }
  unfold convert_to_blend, some_path, convert_with_blender, with_export_engine,
    load_obj, export_model, _export_rbxm.
  apply emits_try_except.
  - apply emits_bind; [|intros; apply emits_ret].
    apply emits_try_except; [|intros e; destruct e; apply emits_raise].
    apply emits_bind; [exact Hfind|].
    intros [blender|]; [|apply emits_raise].
    destruct (negb (truthy blender)); [apply emits_raise|].
    effect_steps.
  - intros _. effect_steps.
Qed.

(** X7. [export_model] never raises: it answers [False] when the mesh
    clean-up raises, without calling a writer.  For the RBXM format the
    answer is whether the JSON document could be written; the mesh, the
    cleaned one included, is not exported. *)
Theorem export_model_never_raises (m : mesh) (format : ExportFormat)
  (output_path : string) (s : state) :
  (exists success, fst (export_model w m format output_path s) = Ok success)
  /\ (forall e,
        optimize_mesh w m = Raise e ->
        export_model w m format output_path s = (Ok false, record (OptimizeMesh m) s))
  /\ (forall optimized,
        optimize_mesh w m = Ok optimized ->
        export_model w m RBXM output_path s
        = (Ok (returned (write_json w output_path)),
           record (WriteJson output_path) (record (OptimizeMesh m) s))).
Proof.
  split; [|split].
  - apply never_raises_try_except. intros _. apply never_raises_ret.
  - intros e H. unfold export_model, try_except, bind, call. rewrite H.
    reflexivity.
  - intros optimized H.
    unfold export_model, _export_rbxm, try_except, bind, call. rewrite H.
    cbn [fst snd]. destruct (write_json w output_path); reflexivity.
Qed.

Lemma try_except_ext {A} (body1 body2 : M A) (handler : exn -> M A) (s : state) :
  body1 s = body2 s -> try_except body1 handler s = try_except body2 handler s.
Proof. unfold try_except. intros ->. reflexivity. Qed.

(** Run from any state, [convert_to_fbx] and then [convert_to_blend]
    return. *)
Lemma convert_to_fbx_run (obj_path : string) (job : job_id) (s : state) :
  exists path, convert_to_fbx w obj_path job s
               = (Ok path, snd (convert_to_fbx w obj_path job s)).
Proof.
  destruct (convert_to_fbx_never_raises w obj_path job s) as [p Hp].
  exists p. destruct (convert_to_fbx w obj_path job s) as [r s1].
  simpl in Hp. subst r. reflexivity.
Qed.

Lemma convert_to_blend_run (obj_path : string) (job : job_id) (s : state) :
  exists r, convert_to_blend w obj_path job s
            = (Ok r, snd (convert_to_blend w obj_path job s)).
Proof.
  destruct (convert_to_blend_never_raises w obj_path job s) as [p Hp].
  exists p. destruct (convert_to_blend w obj_path job s) as [r s1].
  simpl in Hp. subst r. reflexivity.
Qed.

(** X8. [create_simple_mesh_fallback] never raises, and its lines 357-374
    (the direct use of the export engine "if both conversions failed")
    never run: [convert_to_fbx] always answers with a path, so the FBX
    entry is never [None] once the cube is exported.  The function
    returns [(None, None)] exactly when exporting the cube raises. *)
Theorem create_simple_mesh_fallback_skips_engine (job : job_id) (s : state) :
  create_simple_mesh_fallback w job s = fallback_conversions w job s
  /\ exists fbx_path blend_path,
       fst (create_simple_mesh_fallback w job s) = Ok (fbx_path, blend_path)
       /\ (fbx_path = None
           <-> exists e,
                 mesh_export w (creation (box (2%Q, 2%Q, 2%Q)))
                             (fallback_file w job ".obj") None = Raise e)
       /\ (fbx_path = None -> blend_path = None).
Proof.
  assert (Hsame : create_simple_mesh_fallback w job s = fallback_conversions w job s).
  { unfold create_simple_mesh_fallback, fallback_conversions.
    apply try_except_ext. rewrite !bind_run. unfold call.
    destruct (mesh_export w _ _ None) as [[]|e]; [|reflexivity].
    rewrite !bind_run.
    destruct (convert_to_fbx_run (fallback_file w job ".obj") (fallback_id job)
                (record (MeshExport (creation (box (2%Q, 2%Q, 2%Q)))
                           (fallback_file w job ".obj") None) s)) as [p Hp].
    unfold try_except at 1. unfold some_path. rewrite bind_run, Hp.
    cbn [ret]. rewrite !bind_run.
    destruct (convert_to_blend_run (fallback_file w job ".obj") (fallback_id job)
                (snd (convert_to_fbx w (fallback_file w job ".obj") (fallback_id job)
                        (record (MeshExport (creation (box (2%Q, 2%Q, 2%Q)))
                                   (fallback_file w job ".obj") None) s))))
      as [b Hb].
    unfold try_except. rewrite Hb. reflexivity. }
  split; [exact Hsame|]. rewrite Hsame.
  unfold fallback_conversions, try_except. rewrite !bind_run. unfold call.
  destruct (mesh_export w _ _ None) as [[]|e].
  - rewrite !bind_run.
    destruct (convert_to_fbx_run (fallback_file w job ".obj") (fallback_id job)
                (record (MeshExport (creation (box (2%Q, 2%Q, 2%Q)))
                           (fallback_file w job ".obj") None) s)) as [p Hp].
    rewrite Hp, !bind_run.
    destruct (convert_to_blend_run (fallback_file w job ".obj") (fallback_id job)
                (snd (convert_to_fbx w (fallback_file w job ".obj") (fallback_id job)
                        (record (MeshExport (creation (box (2%Q, 2%Q, 2%Q)))
                                   (fallback_file w job ".obj") None) s))))
      as [b Hb].
    rewrite Hb.
    exists (Some p), b. cbn [fst ret]. split; [reflexivity|].
    split; [|discriminate]. split; [discriminate|]. intros [e H]. discriminate.
  - exists None, None. cbn [fst ret]. split; [reflexivity|].
    split; [|reflexivity]. split; [|reflexivity]. intros _. exists e. reflexivity.
Qed.

End ConverterBehaviour.

(** [which blender] prints two paths; the first is returned. *)
Example find_blender_executable_sample :
  FileConverter.find_blender_executable (blender_world (Ok (0, "", "")) true)
    empty_state
  = (Ok (Some "/usr/bin/blender"),
     Effects.record (Effects.Subprocess ["which"; "blender"]) empty_state).
Proof. vm_compute. reflexivity. Qed.

(** X2 at work: Blender times out after five minutes; the caller sees the
    exception that stands for it, and the script is gone. *)
Lemma convert_with_blender_removes_script_witness :
  let w := blender_world (Raise (TimeoutExpired "timed out after 300 seconds")) false in
  fst (FileConverter.convert_with_blender w "generated/model_7.obj"
         (FileConverter.IntId 7) "fbx" empty_state)
  = Raise (Exception "Blender conversion timed out")
  /\ exists before,
       Effects.trace
         (snd (FileConverter.convert_with_blender w "generated/model_7.obj"
                 (FileConverter.IntId 7) "fbx" empty_state))
       = (before ++ [Effects.Unlink "/tmp/tmpq1w2e3.py"])%list.
Proof.
  cbv zeta. split; [vm_compute; reflexivity|].
  apply (convert_with_blender_removes_script
           (blender_world (Raise (TimeoutExpired "timed out after 300 seconds")) false)
           "generated/model_7.obj" (FileConverter.IntId 7) "fbx" empty_state
           "/usr/bin/blender" "/tmp/tmpq1w2e3.py").
  - vm_compute. reflexivity.
  - vm_compute. reflexivity.
Defined.

(** A conversion that works, and the file names of the fallback mesh. *)
Example convert_with_blender_on_a_machine_with_blender :
  fst (FileConverter.convert_with_blender (blender_world (Ok (0, "", "")) true)
         "generated/model_7.obj" (FileConverter.IntId 7) "blend" empty_state)
  = Ok "generated/model_7.blend"
  /\ fst (MeshFallback.create_simple_mesh_fallback
            (blender_world (Ok (0, "", "")) true) (FileConverter.IntId 7)
            empty_state)
     = Ok (Some "generated/model_fallback_7.fbx",
           Some "generated/model_fallback_7.blend").
Proof. split; vm_compute; reflexivity. Qed.

(** ** model_generator.py *)

Section GeneratorBehaviour.
Import PyStr Trimesh Procedural Effects World ExportEngine ModelGenerator.
Variable w : world.

Lemma choose_output_path_result (prompt : string) (job_id : option Z)
  (s : state) (path : string) :
  fst (choose_output_path w prompt job_id s) = Ok path ->
  path = "generated" +:+ (if platform_windows w then "\" else "/")
         +:+ (model_name w prompt job_id +:+ ".obj")
  \/ path = model_name w prompt job_id +:+ ".obj".
Proof.
  unfold choose_output_path, try_except, bind, call, ret.
  destruct (makedirs w "generated"); cbn [fst];
    intros H; injection H as <-; auto.
Qed.

(** X9. The path [generate_3d_model] returns is one of four: the file
    "model_<name>.obj" in the directory "generated", that file name alone,
    or the ".stl" twin of either.  The name is the job id when the id is
    an integer other than 0, and the hash of the validated prompt
    otherwise: a job id of 0 counts as no job id, and the run for
    [job_id=0] is the run for [job_id=None], call for call. *)
Theorem generate_3d_model_names_its_file (prompt : string)
  (image : option string) (job_id : option Z) (engine : string) (c d : Z)
  (style : string) (s : state) :
  match fst (generate_3d_model w prompt image job_id engine c d style s) with
  | Ok written => In written (possible_outputs w prompt job_id)
  | Raise _ => True
  end
  /\ generate_3d_model w prompt image (Some 0) engine c d style s
     = generate_3d_model w prompt image None engine c d style s
  /\ model_name w (prompt_used prompt) job_id
     = "model_" +:+ pretty (match job_id with
                            | Some n => if n =? 0
                                        then py_hash w (prompt_used prompt)
                                        else n
                            | None => py_hash w (prompt_used prompt)
                            end).
Proof.
  split; [|split; [reflexivity|]].
  - destruct (blank prompt) eqn:Hblank.
    { unfold generate_3d_model. rewrite Hblank. exact I. }
    pose proof (generate_3d_model_stages w prompt image job_id engine c d style
                  s Hblank) as H. cbv zeta in H.
    destruct (fst (mesh_stage w (prompt_used prompt) image job_id
                     (engine_used engine) (clamped c) (clamped d)
                     (style_used style) s)) as [[m|]|e].
    + destruct H as (m' & path & _ & Hpath & H).
      apply choose_output_path_result in Hpath.
      destruct (export_mesh_outcome w m' path s)
        as [[_ [msg Hr]]|[_ (written & Hr & Hw)]]; rewrite Hr in H; rewrite H.
      * exact I.
      * unfold possible_outputs. cbv zeta.
        destruct Hpath as [->| ->], Hw as [->| ->]; simpl; auto.
    + rewrite H. exact I.
    + rewrite H. exact I.
  - unfold model_name, truthy_id. destruct job_id as [n|]; [|reflexivity].
    destruct (n =? 0); reflexivity.
Qed.

Lemma style_used_valid (style : string) :
  existsb (String.eqb (style_used style)) valid_styles = true.
Proof.
  unfold style_used.
  destruct (existsb (String.eqb style) valid_styles) eqn:E; [exact E|reflexivity].
Qed.

Lemma engine_used_valid (engine : string) :
  existsb (String.eqb (engine_used engine)) valid_engines = true.
Proof.
  unfold engine_used.
  destruct (existsb (String.eqb engine) valid_engines) eqn:E; [exact E|reflexivity].
Qed.

(** X10. [generate_3d_model] runs on its arguments as validated: an engine
    name that is not one of the four runs as "hybrid", a style that is not
    one of the six as "realistic", and the two integers as clamped.  The
    run with the raw arguments is the run with the validated ones. *)
Theorem generate_3d_model_validates_arguments (prompt : string)
  (image : option string) (job_id : option Z) (engine : string) (c d : Z)
  (style : string) (s : state) :
  generate_3d_model w prompt image job_id engine c d style s
  = generate_3d_model w prompt image job_id
      (engine_used engine) (clamped c) (clamped d) (style_used style) s
  /\ (~ In engine valid_engines -> engine_used engine = "hybrid")
  /\ (~ In style valid_styles -> style_used style = "realistic").
Proof.
  split; [|split].
  - unfold generate_3d_model.
    rewrite (style_used_valid style), (engine_used_valid engine).
    replace (Z.max 1 (Z.min 10 (clamped c))) with (Z.max 1 (Z.min 10 c))
      by (unfold clamped; lia).
    replace (Z.max 1 (Z.min 10 (clamped d))) with (Z.max 1 (Z.min 10 d))
      by (unfold clamped; lia).
    reflexivity.
  - intros Hno. unfold engine_used.
    destruct (existsb (String.eqb engine) valid_engines) eqn:E; [|reflexivity].
    exfalso. apply Hno. apply existsb_exists in E as (x & Hin & Hx).
    apply String.eqb_eq in Hx. subst x. exact Hin.
  - intros Hno. unfold style_used.
    destruct (existsb (String.eqb style) valid_styles) eqn:E; [|reflexivity].
    exfalso. apply Hno. apply existsb_exists in E as (x & Hin & Hx).
    apply String.eqb_eq in Hx. subst x. exact Hin.
Qed.

Lemma emits_weaken {A} (P Q : event -> Prop) (m : M A) :
  (forall ev, P ev -> Q ev) -> emits P m -> emits Q m.
Proof.
  intros HPQ Hm s. destruct (Hm s) as (new & Ht & Hp & Hs & Hh).
  exists new. repeat split; try assumption.
  eapply Forall_impl; [exact Hp|exact HPQ].
Qed.

Lemma ai_generation_guarded (enhanced : string) (image : option string)
  (engine : string) :
  emits (ai_service_guard w engine) (ai_generation w enhanced image engine).
Proof.
  unfold ai_generation.
  destruct (USE_ADVANCED w) eqn:Eadv; cbn [andb]; [|apply emits_ret].
  destruct (String.eqb engine "ai_enhanced") eqn:Eeng; cbn [andb];
    [|apply emits_ret].
  destruct (available_services w) as [|service rest] eqn:Eserv; cbn;
    [apply emits_ret|].
  apply String.eqb_eq in Eeng.
  effect_steps. split; [exact Eeng|]. split; [exact Eadv|].
  rewrite Eserv. discriminate.
Qed.

(** X11. [generate_3d_model] calls the AI services only when the engine
    asked for is "ai_enhanced", the advanced modules are loaded and at
    least one service is configured; for every other engine, "hybrid"
    included, no AI service is called. *)
Theorem generate_3d_model_guards_ai_services (prompt : string)
  (image : option string) (job_id : option Z) (engine : string) (c d : Z)
  (style : string) :
  emits (ai_service_guard w engine)
        (generate_3d_model w prompt image job_id engine c d style).
Proof.
  assert (Hengine : forall ev, ai_service_guard w (engine_used engine) ev
                               -> ai_service_guard w engine ev).
  { intros [] H; try exact I. simpl in *. destruct H as (He & Ha & Hs).
    repeat split; try assumption.
    unfold engine_used in He.
    destruct (existsb (String.eqb engine) valid_engines); [exact He|discriminate]. }
  apply (emits_weaken (ai_service_guard w (engine_used engine))); [exact Hengine|].
  unfold generate_3d_model.
  destruct (blank prompt); [apply emits_raise|].
  fold (engine_used engine).
  unfold enhance_prompt, produce_mesh,
    fallback_generation, generate_geometry_from_prompt, create_default_mesh,
    apply_materials, choose_output_path, export_mesh, export_model,
    _export_as.
  effect_steps; try apply ai_generation_guarded.
Qed.

(** X12. The text each collaborator of [generate_3d_model] is given: the
    multimodal processor, the advanced generator, the mesh creators and
    the material generator receive the validated prompt (stripped, cut to
    500 characters), never the prompt enhanced from the reference image,
    which goes to the AI services alone.  The function starts no process,
    loads no file, and leaves the status column, the session and the
    committed snapshots alone. *)
Theorem generate_3d_model_routes_prompt (prompt : string)
  (image : option string) (job_id : option Z) (engine : string) (c d : Z)
  (style : string) :
  emits (generation_call prompt)
        (generate_3d_model w prompt image job_id engine c d style).
Proof.
  unfold generate_3d_model.
  destruct (blank prompt); [apply emits_raise|].
  fold (prompt_used prompt).
  unfold enhance_prompt, produce_mesh, ai_generation,
    fallback_generation, generate_geometry_from_prompt, create_default_mesh,
    apply_materials, choose_output_path, export_mesh, export_model,
    _export_as.
  effect_steps.
Qed.

(** X13. [generate_geometry_from_prompt] picks its creator by first match:
    the creator of the first entry of the chain, in its order, one of
    whose keywords occurs in the lowercased prompt, and
    [create_procedural_mesh] when no keyword occurs.  When the creator
    raises, the default mesh is built in its place, so the function raises
    only if building the default mesh raises. *)
Theorem generate_geometry_from_prompt_first_match (prompt : string) (s : state) :
  creator_for (lower prompt)
  = Classifier.detect creator_table (lower prompt) "create_procedural_mesh"
  /\ (first_matching creator_table (lower prompt) (creator_for (lower prompt))
      \/ (no_keyword_matches creator_table (lower prompt)
          /\ creator_for (lower prompt) = "create_procedural_mesh"))
  /\ fst (generate_geometry_from_prompt w prompt s)
     = match create_mesh w (creator_for (lower prompt)) prompt with
       | Ok m => Ok m
       | Raise _ => create_mesh w "create_procedural_mesh" "abstract geometric shape"
       end.
Proof.
  assert (H : creator_for (lower prompt)
              = Classifier.detect creator_table (lower prompt)
                                  "create_procedural_mesh") by reflexivity.
  split; [exact H|]. split.
  - rewrite H. apply detect_spec.
  - unfold generate_geometry_from_prompt, create_default_mesh, try_except, call.
    destruct (create_mesh w (creator_for (lower prompt)) prompt); reflexivity.
Qed.

End GeneratorBehaviour.

(** ** tasks.py: the cache of the generation task *)

Section CacheProperties.
Import PyStr Trimesh Effects World FileConverter ModelGenerator Tasks.
Import Models.
Variable w : world.

(** X14. A cache hit skips the generation: when the session holds a cache
    row for the prompt and its file exists, the task step that obtains the
    OBJ file answers with the cached path and assigns it to the job after
    two events, the file check and the progress report; no generator is
    called and the cache is left as it is. *)
Theorem obtain_obj_cache_hit (job_id : Z) (prompt : string)
  (image : option string) (s : state) (row : AssetCache) :
  cached_row w prompt (session s) = Some row ->
  path_exists w (file_path row) = true ->
  obtain_obj w job_id prompt image s
  = (Ok (file_path row),
     {| trace := (trace s ++ [PathExists (file_path row);
                              UpdateState "PROGRESS" 50 "Using cached model..."])%list;
        session :=
          {| jobs := alter (with_obj_path (Some (file_path row))) job_id
                           (jobs (session s));
             cache := cache (session s);
             projects := projects (session s);
             project_assets := project_assets (session s) |};
        history := history s |}).
Proof.
  intros Hrow Hfile. unfold cached_row, cache_key_of in Hrow.
  unfold obtain_obj. cbv zeta. rewrite bind_run. cbn [get_session].
  rewrite Hrow. rewrite !bind_run. unfold call at 1. rewrite Hfile.
  cbn [ret]. unfold update_job, update_state, call, bind, get_session,
    set_session, ret, record. simpl. rewrite <- app_assoc. reflexivity.
Qed.

Lemma find_app_right {A} (f : A -> bool) (l l' : list A) :
  List.find f l = None -> List.find f (l ++ l')%list = List.find f l'.
Proof.
  induction l as [|a l IH]; simpl; [trivial|].
  destruct (f a); [discriminate|exact IH].
Qed.

(** The run of lines 45-62 when the generation returns a path. *)
Lemma obtain_obj_miss_run (job_id : Z) (prompt : string)
  (image : option string) (s : state) (path : string) :
  (forall row, cached_row w prompt (session s) = Some row ->
               path_exists w (file_path row) = false) ->
  fst (generate_3d_model w prompt image (Some job_id) "hybrid" 7 8 "realistic" s)
  = Ok path ->
  exists new,
    Forall quiet new
    /\ obtain_obj w job_id prompt image s
       = (Ok path,
          {| trace := (trace s ++ new)%list;
             session :=
               {| jobs := alter (with_obj_path (Some path)) job_id
                                (jobs (session s));
                  cache := (cache (session s)
                            ++ [cache_entry_of w prompt path])%list;
                  projects := projects (session s);
                  project_assets := project_assets (session s) |};
             history := history s |}).
Proof.
  intros Hmiss Hgen.
  set (s1 := record (UpdateState "PROGRESS" 20 "Generating 3D model...")
               (match cached_row w prompt (session s) with
                | Some row => record (PathExists (file_path row)) s
                | None => s
                end)).
  assert (Hs1 : session s1 = session s /\ history s1 = history s
                /\ exists pre, trace s1 = (trace s ++ pre)%list /\ Forall quiet pre).
  { unfold s1. destruct (cached_row w prompt (session s)).
    - split; [reflexivity|]. split; [reflexivity|].
      eexists. cbn [trace record]. rewrite <- app_assoc.
      split; [reflexivity|]. repeat constructor.
    - split; [reflexivity|]. split; [reflexivity|].
      eexists. split; [reflexivity|]. repeat constructor. }
  destruct Hs1 as (Hs1 & Hh1 & pre & Ht1 & Hq1).
  pose proof (emits_quiet_generate_3d_model w prompt image (Some job_id)
                "hybrid" 7 8 "realistic" s1) as (new & Ht & Hq & Hsess & Hhist).
  pose proof (stateless_generate_3d_model w prompt image (Some job_id)
                "hybrid" 7 8 "realistic" s1 s) as Hsame.
  rewrite Hgen in Hsame.
  destruct (generate_3d_model w prompt image (Some job_id) "hybrid" 7 8
              "realistic" s1) as [r s2] eqn:Egen.
  cbn [fst snd] in Hsame, Hsess, Hhist, Ht. subst r.
  exists (pre ++ new)%list. split; [apply Forall_app; split; assumption|].
  rewrite app_assoc, <- Ht1, <- Ht, <- Hs1, <- Hsess, <- Hh1, <- Hhist.
  unfold obtain_obj. cbv zeta. rewrite bind_run. cbn [get_session].
  fold (cache_key_of w prompt). fold (cached_row w prompt (session s)).
  unfold s1 in Egen.
  destruct (cached_row w prompt (session s)) as [row|] eqn:Erow.
  - rewrite !bind_run. unfold call at 1. rewrite (Hmiss row eq_refl).
    cbn [ret]. rewrite !bind_run. unfold update_state at 1, call at 1.
    rewrite bind_run, Egen. reflexivity.
  - rewrite !bind_run. cbn [ret]. rewrite !bind_run.
    unfold update_state at 1, call at 1. rewrite bind_run, Egen. reflexivity.
Qed.

(** X15. A cache miss adds a pending row under the key of the prompt, and
    the unique constraint on that key decides what becomes of it.  When
    the session has no row for the prompt, or one whose file is gone, and
    the generation returns a path, that path is the answer, is assigned to
    the job, and is added to the session as a new cache row; nothing is
    stored yet.  If the session had no row for the prompt, the keys stay
    unique and the new row is the one the session holds for the prompt.
    If it had a row
    whose file is gone, the new row repeats its key: the next commit is
    refused by the database, stores nothing and leaves the session
    unusable. *)
Theorem obtain_obj_cache_miss (job_id : Z) (prompt : string)
  (image : option string) (s : state) (path : string) :
  (forall row, cached_row w prompt (session s) = Some row ->
               path_exists w (file_path row) = false) ->
  fst (generate_3d_model w prompt image (Some job_id) "hybrid" 7 8 "realistic" s)
  = Ok path ->
  inactive s = false ->
  let s' := snd (obtain_obj w job_id prompt image s) in
  fst (obtain_obj w job_id prompt image s) = Ok path
  /\ cache (session s')
     = (cache (session s) ++ [cache_entry_of w prompt path])%list
  /\ jobs (session s') = alter (with_obj_path (Some path)) job_id (jobs (session s))
  /\ history s' = history s
  /\ inactive s' = false
  /\ (cached_row w prompt (session s) = None ->
      unique_keys (cache (session s)) ->
      unique_keys (cache (session s'))
      /\ cached_row w prompt (session s') = Some (cache_entry_of w prompt path))
  /\ (forall row,
        cached_row w prompt (session s) = Some row ->
        ~ unique_keys (cache (session s'))
        /\ fst (commit (db_flush w) s') = Raise unique_violation
        /\ history (snd (commit (db_flush w) s')) = history s
        /\ inactive (snd (commit (db_flush w) s')) = true).
Proof.
  intros Hmiss Hgen Ha s'.
  destruct (obtain_obj_miss_run job_id prompt image s path Hmiss Hgen)
    as (new & Hq & Hrun).
  unfold s'. rewrite Hrun. cbn [fst snd session cache jobs history].
  set (s2 := {| trace := _; session := _; history := _ |}).
  assert (Ha2 : inactive s2 = false).
  { rewrite (inactive_quiet s s2 new eq_refl Hq). exact Ha. }
  split; [reflexivity|]. split; [reflexivity|]. split; [reflexivity|].
  split; [reflexivity|]. split; [exact Ha2|]. split.
  - intros Hnone Hu. split; [apply new_key; assumption|].
    unfold cached_row in *. cbn [cache].
    rewrite (find_app_right _ _ _ Hnone). cbn. unfold cache_entry_of at 1. cbn [cache_key].
    rewrite String.eqb_refl. reflexivity.
  - intros row Hrow.
    split; [exact (repeated_key w prompt path (session s) row Hrow)|].
    assert (Hans : database_answer (db_flush w) (session s2) = Raise unique_violation).
    { unfold database_answer, unique_cache_keys.
      rewrite bool_decide_eq_false_2; [reflexivity|].
      exact (repeated_key w prompt path (session s) row Hrow). }
    rewrite (commit_run (db_flush w) s2 Ha2), Hans. cbn [fst snd history].
    split; [reflexivity|]. split; [reflexivity|].
    unfold inactive. cbn [trace]. rewrite !existsb_app. cbn.
    rewrite !orb_true_r. reflexivity.
Qed.

End CacheProperties.

(** X14 at work: the model of "a wooden chair" is in the cache. *)
Lemma obtain_obj_cache_hit_witness :
  let w := blender_world (Ok (0, "", "")) true in
  fst (Tasks.obtain_obj w 7 "a wooden chair" None cached_chair_state)
  = Ok "generated/model_3.obj"
  /\ Effects.trace (snd (Tasks.obtain_obj w 7 "a wooden chair" None
                           cached_chair_state))
     = [Effects.PathExists "generated/model_3.obj";
        Effects.UpdateState "PROGRESS" 50 "Using cached model..."].
Proof.
  cbv zeta.
  rewrite (obtain_obj_cache_hit (blender_world (Ok (0, "", "")) true) 7
             "a wooden chair" None cached_chair_state
             {| Models.cache_key := "model_42";
                Models.file_path := "generated/model_3.obj";
                Models.asset_type := "model";
                Models.meta_prompt := "a wooden chair" |});
    [split; reflexivity|vm_compute; reflexivity|vm_compute; reflexivity].
Defined.

(** X15 at work: the cached file is gone; the model is generated again, the
    session ends with two rows under the key "model_42", and the database
    refuses the commit. *)
Lemma obtain_obj_cache_miss_witness :
  let w := no_blender_world true true true in
  let s' := snd (Tasks.obtain_obj w 7 "a wooden chair" None cached_chair_state) in
  fst (Tasks.obtain_obj w 7 "a wooden chair" None cached_chair_state)
  = Ok "generated/model_7.obj"
  /\ map Models.cache_key (Models.cache (Effects.session s'))
     = ["model_42"; "model_42"]
  /\ fst (Effects.commit (World.db_flush w) s') = Raise Effects.unique_violation
  /\ Effects.history (snd (Effects.commit (World.db_flush w) s')) = [].
Proof.
  cbv zeta.
  destruct (obtain_obj_cache_miss (no_blender_world true true true) 7
              "a wooden chair" None cached_chair_state "generated/model_7.obj")
    as (Hpath & Hcache & _ & _ & _ & _ & Hstale).
  - intros row H. vm_compute in H. injection H as <-. reflexivity.
  - vm_compute. reflexivity.
  - reflexivity.
  - destruct (Hstale {| Models.cache_key := "model_42";
                        Models.file_path := "generated/model_3.obj";
                        Models.asset_type := "model";
                        Models.meta_prompt := "a wooden chair" |} eq_refl)
      as (_ & Hraise & Hhist & _).
    split; [exact Hpath|]. rewrite Hcache. split; [reflexivity|].
    split; [exact Hraise|exact Hhist].
Defined.

(** ** tasks.py: project descriptions and themed packs *)

Section ProjectTaskProperties.
Import PyStr ModelGenerator ProjectTasks.

Lemma tasks_of_shape (b1 b2 b3 b4 b5 b6 : bool) (description : string) :
  (length (tasks_of b1 b2 b3 b4 b5 b6 description) <= 6)%nat
  /\ NoDup (map task_name (tasks_of b1 b2 b3 b4 b5 b6 description))
  /\ (exists models scripts environments,
        tasks_of b1 b2 b3 b4 b5 b6 description
        = (models ++ scripts ++ environments)%list
        /\ Forall (fun t => task_type t = "model"
                            /\ In (task_prompt t)
                                  ["futuristic spaceship"; "realistic car";
                                   "modern building"]) models
        /\ Forall (fun t => task_type t = "script"
                            /\ In (task_prompt t)
                                  ["NPC interaction system";
                                   "quest management system"]) scripts
        /\ (environments = []
            \/ environments = [ProjectTask "environment" description "main_world"]))
  /\ (tasks_of b1 b2 b3 b4 b5 b6 description = []
      <-> b1 || b2 || b3 || b4 || b5 || b6 = false).
Proof.
  unfold tasks_of.
  split; [destruct b1, b2, b3, b4, b5, b6; simpl; lia|].
  split.
  { apply (bool_decide_unpack _).
    destruct b1, b2, b3, b4, b5, b6; vm_compute; reflexivity. }
  split.
  { exists (append_if b3 (ProjectTask "model" "modern building" "building")
             (append_if b2 (ProjectTask "model" "realistic car" "car")
                (append_if b1 (ProjectTask "model" "futuristic spaceship"
                                           "spaceship") []))),
           (append_if b5 (ProjectTask "script" "quest management system"
                                      "quest_manager")
              (append_if b4 (ProjectTask "script" "NPC interaction system"
                                         "npc_controller") [])),
           (append_if b6 (ProjectTask "environment" description "main_world") []).
    split; [destruct b1, b2, b3, b4, b5, b6; reflexivity|].
    split; [destruct b1, b2, b3; simpl;
            repeat (constructor; [split; [reflexivity|simpl; auto 6]|]);
            constructor|].
    split; [destruct b4, b5; simpl;
            repeat (constructor; [split; [reflexivity|simpl; auto 6]|]);
            constructor|].
    destruct b6; auto. }
  destruct b1, b2, b3, b4, b5, b6; simpl; split; intro;
    first [reflexivity|discriminate].
Qed.

(** X16. [parse_project_description] yields at most six tasks, the model
    tasks before the script tasks before the environment task, under
    names that differ from one another.  The prompts of the model and
    script tasks are fixed texts; the one environment task carries the
    description itself, as typed.  The list is empty exactly when none of
    the seven keywords occurs in the lowercased description. *)
Theorem parse_project_description_tasks (description : string) :
  (length (parse_project_description description) <= 6)%nat
  /\ NoDup (map task_name (parse_project_description description))
  /\ (exists models scripts environments,
        parse_project_description description
        = (models ++ scripts ++ environments)%list
        /\ Forall (fun t => task_type t = "model"
                            /\ In (task_prompt t)
                                  ["futuristic spaceship"; "realistic car";
                                   "modern building"]) models
        /\ Forall (fun t => task_type t = "script"
                            /\ In (task_prompt t)
                                  ["NPC interaction system";
                                   "quest management system"]) scripts
        /\ (environments = []
            \/ environments = [ProjectTask "environment" description "main_world"]))
  /\ (parse_project_description description = []
      <-> any_in ["spaceship"; "car"; "building"; "npc"; "quest"; "world"; "map"]
                 (lower description) = false).
Proof.
  assert (Hany : any_in ["spaceship"; "car"; "building"; "npc"; "quest"; "world"; "map"]
                        (lower description)
                 = contains "spaceship" (lower description)
                   || contains "car" (lower description)
                   || contains "building" (lower description)
                   || contains "npc" (lower description)
                   || contains "quest" (lower description)
                   || (contains "world" (lower description)
                       || contains "map" (lower description))).
  { unfold any_in. cbn [existsb].
    destruct (contains "spaceship" _), (contains "car" _),
      (contains "building" _), (contains "npc" _), (contains "quest" _),
      (contains "world" _), (contains "map" _); reflexivity. }
  rewrite Hany.
  change (parse_project_description description)
    with (tasks_of (contains "spaceship" (lower description))
                   (contains "car" (lower description))
                   (contains "building" (lower description))
                   (contains "npc" (lower description))
                   (contains "quest" (lower description))
                   (contains "world" (lower description)
                    || contains "map" (lower description))
                   description).
  apply tasks_of_shape.
Qed.

Lemma dict_get_spec {A} (d : list (string * A)) (key : string) (default : A) :
  (In (key, dict_get d key default) d /\ In key (map fst d))
  \/ (dict_get d key default = default /\ ~ In key (map fst d)).
Proof.
  induction d as [|[k v] rest IH]; simpl.
  - right. split; [reflexivity|tauto].
  - destruct (String.eqb key k) eqn:E.
    + apply String.eqb_eq in E. subst k. left. split; left; reflexivity.
    + apply String.eqb_neq in E.
      destruct IH as [[H1 H2]|[H1 H2]].
      * left. split; right; assumption.
      * right. split; [exact H1|]. intros [H|H]; [congruence|contradiction].
Qed.

(** X17. [get_theme_assets] never answers with an empty list: a known
    theme (the key as written, in lower case) gives its six prompts, any
    other string the one prompt "generic asset".  None of the prompts is
    blank, and each is its own validated form, so [generate_3d_model]
    does not reject a prompt of a themed pack and works on it unchanged. *)
Theorem get_theme_assets_prompts (theme : string) :
  ((In theme known_themes /\ length (get_theme_assets theme) = 6%nat)
   \/ (~ In theme known_themes /\ get_theme_assets theme = ["generic asset"]))
  /\ Forall (fun prompt => blank prompt = false /\ prompt_used prompt = prompt)
            (get_theme_assets theme).
Proof.
  unfold get_theme_assets, known_themes.
  destruct (dict_get_spec theme_assets theme ["generic asset"]) as [[Hin Hk]|[Hd Hk]].
  - assert (Hall : Forall (fun entry : string * list string =>
                             length (snd entry) = 6%nat
                             /\ Forall (fun prompt => blank prompt = false
                                                      /\ prompt_used prompt = prompt)
                                       (snd entry)) theme_assets).
    { repeat constructor. }
    pose proof (proj1 (List.Forall_forall _ _) Hall _ Hin) as Hentry.
    cbn [snd] in Hentry. clear Hall. rename Hentry into Hall.
    destruct Hall as [Hlen Hprompts]. split; [left; split; assumption|exact Hprompts].
  - rewrite Hd. split; [right; split; [exact Hk|reflexivity]|].
    repeat constructor.
Qed.

End ProjectTaskProperties.

(** ** geometry_generator.py and the engines of advanced_generator.py *)

Section GeometryProperties.
Import PyStr Classifier Trimesh Procedural GeometryGenerator.

Lemma create_mesh_from_prompt_known (prompt : string) :
  In (_create_mesh_from_prompt prompt) prompt_meshes.
Proof.
  unfold _create_mesh_from_prompt, prompt_meshes. cbv zeta.
  destruct (any_in ["sphere"; "ball"; "orb"] _); [simpl; auto|].
  destruct (any_in ["cube"; "box"; "block"] _); [simpl; auto|].
  destruct (any_in ["cylinder"; "tube"; "pipe"] _); [simpl; auto|].
  destruct (any_in ["cone"; "pyramid"] _); simpl; auto.
Qed.

Lemma generate_geometry_run (e : GeometryEngine) (prompt : string)
  (image_path : option string) :
  generate_geometry (create_geometry_generator e) prompt image_path
  = Generated (fst (_create_mesh_from_prompt prompt))
              (snd (_create_mesh_from_prompt prompt))
              "procedural" prompt (is_not_none image_path).
Proof.
  destruct e; unfold generate_geometry, create_geometry_generator,
    _generate_nerf, _generate_gaussian_splatting, _generate_procedural; cbn;
    destruct (_create_mesh_from_prompt prompt); reflexivity.
Qed.

(** X18. Whatever engine its config names, a generator made by
    [create_geometry_generator] answers every prompt with a success of
    the procedural engine: the NeRF and Gaussian-splatting engines fall
    back to it, the placeholder mesh is never returned and the failure
    dict is never built.  The arrays are those of one of four literal
    meshes (the cube when no shape word occurs), with at most 10 vertices
    and 16 faces, and every face index names a vertex. *)
Theorem generate_geometry_is_procedural (e : GeometryEngine) (prompt : string)
  (image_path : option string) :
  exists vertices faces,
    generate_geometry (create_geometry_generator e) prompt image_path
    = Generated vertices faces "procedural" prompt (is_not_none image_path)
    /\ (vertices, faces) = _create_mesh_from_prompt prompt
    /\ In (vertices, faces) prompt_meshes
    /\ indices_in_range vertices faces
    /\ (length vertices <= 10)%nat /\ (length faces <= 16)%nat
    /\ (no_keyword_matches
          [("sphere", ["sphere"; "ball"; "orb"]); ("cube", ["cube"; "box"; "block"]);
           ("cylinder", ["cylinder"; "tube"; "pipe"]); ("cone", ["cone"; "pyramid"])]
          (lower prompt)
        -> (vertices, faces) = _create_cube).
Proof.
  destruct (_create_mesh_from_prompt prompt) as [vertices faces] eqn:E.
  exists vertices, faces.
  split; [rewrite generate_geometry_run, E; reflexivity|].
  split; [reflexivity|].
  pose proof (create_mesh_from_prompt_known prompt) as Hin. rewrite E in Hin.
  split; [exact Hin|].
  assert (Hall : Forall (fun arrays : vertex_rows * face_rows =>
                           indices_in_range (fst arrays) (snd arrays)
                           /\ (length (fst arrays) <= 10)%nat
                           /\ (length (snd arrays) <= 16)%nat) prompt_meshes).
  { unfold prompt_meshes, indices_in_range.
    repeat (constructor; [split; [repeat constructor|split; simpl; lia]|]).
    constructor. }
  pose proof (proj1 (List.Forall_forall _ _) Hall _ Hin) as (H1 & H2 & H3).
  split; [exact H1|]. split; [exact H2|]. split; [exact H3|].
  intros Hno. rewrite <- E. unfold _create_mesh_from_prompt. cbv zeta.
  assert (Hmiss : forall name keywords,
            In (name, keywords)
               [("sphere", ["sphere"; "ball"; "orb"]);
                ("cube", ["cube"; "box"; "block"]);
                ("cylinder", ["cylinder"; "tube"; "pipe"]);
                ("cone", ["cone"; "pyramid"])] ->
            any_in keywords (lower prompt) = false).
  { intros name keywords Hk.
    destruct (any_in keywords (lower prompt)) eqn:Ea; [|reflexivity].
    apply any_in_spec in Ea as (k & Hkin & Hsub).
    exfalso. exact (Hno name keywords k Hk Hkin Hsub). }
  rewrite (Hmiss "sphere"), (Hmiss "cube"), (Hmiss "cylinder"), (Hmiss "cone");
    simpl; auto 6.
Qed.

End GeometryProperties.

Section EngineProperties.
Import PyStr Classifier Trimesh Procedural Engines.
Variable w : world.
Variable quality : mesh -> Q.
Variable texture_draws : string -> option string -> nat.

(** The procedural pipeline from its base shape on: no detail is added,
    and the config it is handed takes no part in the mesh. *)
Lemma traditional_stages_run (prompt : string) (config : GenerationConfig)
  (r : rng) :
  traditional_stages w prompt config r
  = let info := _analyze_prompt prompt in
    let base := fst (_generate_base_shape w info config) in
    (Stages base base (fst (_apply_transformations w base info config r)),
     snd (_generate_base_shape w info config),
     snd (_apply_transformations w base info config r)).
Proof.
  unfold traditional_stages. cbv zeta.
  destruct (_generate_base_shape w (_analyze_prompt prompt) config)
    as [shape config'] eqn:Eb.
  assert (Hc : complexity config' = Z.min (complexity config) 5).
  { change config' with (snd (shape, config')). rewrite <- Eb. reflexivity. }
  rewrite add_details_below_7 by lia. cbn [fst snd].
  assert (Ht : _apply_transformations w shape (_analyze_prompt prompt) config' r
               = _apply_transformations w shape (_analyze_prompt prompt) config r)
    by reflexivity.
  rewrite Ht.
  destruct (_apply_transformations w shape (_analyze_prompt prompt) config r).
  reflexivity.
Qed.

Lemma procedural_generation_any_config (prompt : string)
  (c1 c2 : GenerationConfig) (image : option string) (r : rng) :
  procedural_mesh w prompt c1 image r = procedural_mesh w prompt c2 image r
  /\ procedural_rng w prompt c1 image r = procedural_rng w prompt c2 image r.
Proof.
  unfold procedural_mesh, procedural_rng, _procedural_generation.
  destruct (generate_geometry w _ image) as [[a|]|e]; [split; reflexivity| |];
    rewrite !traditional_stages_run; split; reflexivity.
Qed.

(** X19. The mesh [_procedural_generation] returns, and the random
    numbers it draws, are the same for every config: neither the
    complexity nor the detail level nor any other field takes part.  When
    the geometry generator yields no mesh, the result is the base shape of
    the classified prompt put through [_apply_transformations], and the
    caller's config comes back with complexity and detail level lowered
    to at most 5; when it yields one, the config comes back untouched. *)
Theorem procedural_generation_ignores_config (prompt : string)
  (c1 c2 : GenerationConfig) (image : option string) (r : rng) :
  procedural_mesh w prompt c1 image r = procedural_mesh w prompt c2 image r
  /\ procedural_rng w prompt c1 image r = procedural_rng w prompt c2 image r
  /\ match generate_geometry w
             (prompt +:+ " exterior only, no interior details, simple clean geometry, low poly game asset")
             image with
     | Ok (Some a) =>
         _procedural_generation w prompt c1 image r = (creation a, c1, r)
     | _ =>
         procedural_mesh w prompt c1 image r
         = fst (_apply_transformations w
                  (fst (_generate_base_shape w (_analyze_prompt prompt) c1))
                  (_analyze_prompt prompt) c1 r)
         /\ complexity (snd (fst (_procedural_generation w prompt c1 image r)))
            = Z.min (complexity c1) 5
         /\ detail_level (snd (fst (_procedural_generation w prompt c1 image r)))
            = Z.min (detail_level c1) 5
     end.
Proof.
  split; [apply procedural_generation_any_config|].
  split; [apply procedural_generation_any_config|].
  unfold procedural_mesh, _procedural_generation.
  destruct (generate_geometry w _ image) as [[a|]|e]; [reflexivity| |];
    rewrite !traditional_stages_run; repeat split.
Qed.

Lemma enhanced_procedural_generation_run (prompt : string)
  (config : GenerationConfig) (image : option string) (r : rng) :
  _enhanced_procedural_generation w prompt config image r
  = (procedural_mesh w prompt config image r,
     procedural_rng w prompt config image r).
Proof.
  unfold _enhanced_procedural_generation.
  match goal with
  | |- context [_procedural_generation w prompt ?c image r] =>
      destruct (procedural_generation_any_config prompt c config image r)
        as [Hm Hr];
      unfold procedural_mesh, procedural_rng in Hm, Hr;
      destruct (_procedural_generation w prompt c image r) as [[m c'] r']
  end.
  cbn [fst snd] in Hm, Hr. rewrite Hm, Hr. reflexivity.
Qed.

(** X20. The "enhanced", the "AI-enhanced" and the "texture-generated"
    engines return the mesh of [_procedural_generation]: raising the
    complexity by 2 changes nothing, no external AI service is ever
    called, and the texture generator leaves no mark on the mesh.  The
    first two build a config of their own, so the caller's config is not
    assigned. *)
Theorem engines_return_the_procedural_mesh (prompt : string)
  (config : GenerationConfig) (image : option string) (r : rng) :
  _enhanced_procedural_generation w prompt config image r
  = (procedural_mesh w prompt config image r,
     procedural_rng w prompt config image r)
  /\ _ai_enhanced_generation w prompt config image r
     = (procedural_mesh w prompt config image r,
        procedural_rng w prompt config image r)
  /\ fst (_texture_generated_generation w texture_draws prompt config image r)
     = fst (_procedural_generation w prompt config image r).
Proof.
  split; [apply enhanced_procedural_generation_run|].
  split; [apply enhanced_procedural_generation_run|].
  unfold _texture_generated_generation, _apply_texture_aware_modifications.
  destruct (_procedural_generation w prompt config image r) as [[m c'] r'].
  reflexivity.
Qed.

Lemma best_of_spec (candidates : list mesh) (best : mesh) :
  (best_of quality candidates best (quality best) = best
   /\ Forall (fun m => (quality m <= quality best)%Q) candidates)
  \/ exists before after,
       candidates
       = (before ++ best_of quality candidates best (quality best) :: after)%list
       /\ (quality best
           < quality (best_of quality candidates best (quality best)))%Q
       /\ Forall (fun m => (quality m
                            < quality (best_of quality candidates best
                                               (quality best)))%Q) before
       /\ Forall (fun m => (quality m
                            <= quality (best_of quality candidates best
                                                (quality best)))%Q) after.
Proof.
  revert best. induction candidates as [|m rest IH]; intros best.
  - left. split; [reflexivity|constructor].
  - cbn [best_of]. destruct (Qle_bool (quality m) (quality best)) eqn:E; cbn [negb].
    + apply Qle_bool_iff in E.
      destruct (IH best) as [[Hb Hall]|(before & after & Heq & Hlt & Hbefore & Hafter)].
      * left. split; [exact Hb|]. constructor; assumption.
      * right. exists (m :: before), after.
        split; [simpl; f_equal; exact Heq|]. split; [exact Hlt|].
        split; [|exact Hafter].
        constructor; [|exact Hbefore]. eapply Qle_lt_trans; eassumption.
    + assert (Hlt : (quality best < quality m)%Q).
      { apply Qnot_le_lt. intros H. apply Qle_bool_iff in H. congruence. }
      destruct (IH m) as [[Hb Hall]|(before & after & Heq & Hlt' & Hbefore & Hafter)].
      * right. exists [], rest. rewrite Hb.
        split; [reflexivity|]. split; [exact Hlt|].
        split; [constructor|exact Hall].
      * right. exists (m :: before), after.
        split; [simpl; f_equal; exact Heq|].
        split; [eapply Qlt_trans; eassumption|].
        split; [|exact Hafter].
        constructor; [exact Hlt'|exact Hbefore].
Qed.

Lemma best_of_in (candidates : list mesh) (best : mesh) (score : Q) :
  In (best_of quality candidates best score) (best :: candidates).
Proof.
  revert best score. induction candidates as [|m rest IH]; intros best score.
  - left. reflexivity.
  - cbn [best_of]. destruct (negb _).
    + right. apply IH.
    + destruct (IH best score) as [H|H]; [left; exact H|right; right; exact H].
Qed.

(** X21. [_select_best_mesh] returns the first mesh of the list whose
    quality score is the highest: every mesh before it scores strictly
    less, every mesh after it at most as much.  It raises exactly on an
    empty list. *)
Theorem select_best_mesh_first_maximum (meshes : list mesh) :
  match _select_best_mesh quality meshes with
  | Raise _ => meshes = []
  | Ok best =>
      exists before after,
        meshes = (before ++ best :: after)%list
        /\ Forall (fun m => (quality m < quality best)%Q) before
        /\ Forall (fun m => (quality m <= quality best)%Q) after
  end.
Proof.
  destruct meshes as [|first rest]; [reflexivity|].
  cbn [_select_best_mesh].
  destruct (best_of_spec rest first)
    as [[Hb Hall]|(before & after & Heq & Hlt & Hbefore & Hafter)].
  - rewrite Hb. exists [], rest. split; [reflexivity|].
    split; [constructor|exact Hall].
  - exists (first :: before), after.
    split; [simpl; f_equal; exact Heq|].
    split; [constructor; assumption|exact Hafter].
Qed.

(** X22. [_hybrid_generation] never raises.  Its three candidates are
    three runs of the procedural pipeline on the same prompt, one after
    the other on the random generators; the mesh returned is one of them,
    the first of the highest quality score, and the config comes back as
    the first run left it.  When the three runs give the same mesh (as
    they do when the geometry generator yields one), this is the mesh of
    the procedural engine. *)
Theorem hybrid_generation_picks_a_procedural_mesh (prompt : string)
  (config : GenerationConfig) (image : option string) (r : rng) :
  let r1 := procedural_rng w prompt config image r in
  let r2 := procedural_rng w prompt config image r1 in
  let candidates := [procedural_mesh w prompt config image r;
                     procedural_mesh w prompt config image r1;
                     procedural_mesh w prompt config image r2] in
  exists best,
    _hybrid_generation w quality prompt config image r
    = (Ok best, snd (fst (_procedural_generation w prompt config image r)),
       procedural_rng w prompt config image r2)
    /\ _select_best_mesh quality candidates = Ok best
    /\ In best candidates
    /\ (procedural_mesh w prompt config image r1
        = procedural_mesh w prompt config image r ->
        procedural_mesh w prompt config image r2
        = procedural_mesh w prompt config image r ->
        best = procedural_mesh w prompt config image r).
Proof.
  cbv zeta. unfold _hybrid_generation, _ai_enhanced_generation. cbn [_has_ai_api_access].
  destruct (_procedural_generation w prompt config image r) as [[m0 c0] r1] eqn:E0.
  assert (Hm0 : procedural_mesh w prompt config image r = m0)
    by (unfold procedural_mesh; rewrite E0; reflexivity).
  assert (Hr1 : procedural_rng w prompt config image r = r1)
    by (unfold procedural_rng; rewrite E0; reflexivity).
  rewrite Hm0, Hr1.
  rewrite !enhanced_procedural_generation_run.
  destruct (procedural_generation_any_config prompt c0 config image r1) as [-> ->].
  destruct (procedural_generation_any_config prompt c0 config image
              (procedural_rng w prompt config image r1)) as [-> ->].
  cbn [app length Nat.ltb Nat.leb fst snd].
  set (m1 := procedural_mesh w prompt config image r1).
  set (m2 := procedural_mesh w prompt config image
               (procedural_rng w prompt config image r1)).
  exists (best_of quality [m1; m2] m0 (quality m0)).
  split; [reflexivity|]. split; [reflexivity|].
  pose proof (best_of_in [m1; m2] m0 (quality m0)) as Hin.
  split; [exact Hin|].
  intros H1 H2. cbn [In] in Hin.
  destruct Hin as [H|[H|[H|[]]]]; rewrite <- H; [reflexivity|exact H1|exact H2].
Qed.

(** X23. With the geometry generator of the repository in place, the
    classifier and the shape pipeline are never reached: for every prompt
    and config [_procedural_generation] returns one of the four literal
    meshes of geometry_generator.py, chosen by the shape word in the
    prompt, draws no random number and leaves the config as it is; and
    the hybrid engine returns that same mesh. *)
Theorem procedural_generation_with_geometry_generator (prompt : string)
  (config : GenerationConfig) (image : option string) (r : rng) :
  (forall text path, generate_geometry w text path = geometry_oracle text path) ->
  exists handle,
    (handle < 4)%nat
    /\ _procedural_generation w prompt config image r
       = (creation (arrays handle), config, r)
    /\ _hybrid_generation w quality prompt config image r
       = (Ok (creation (arrays handle)), config, r).
Proof.
  intros Hw.
  set (text := prompt +:+ " exterior only, no interior details, simple clean geometry, low poly game asset").
  pose proof (create_mesh_from_prompt_known text) as Hin.
  destruct (GeometryGenerator._create_mesh_from_prompt text)
    as [vertices faces] eqn:Emesh.
  assert (Horacle : generate_geometry w text image
                    = Ok (Some (arrays (array_handle (vertices, faces))))).
  { rewrite Hw. unfold geometry_oracle.
    rewrite generate_geometry_run, Emesh. reflexivity. }
  assert (Hhandle : (array_handle (vertices, faces) < 4)%nat).
  { unfold prompt_meshes in Hin. simpl in Hin.
    destruct Hin as [<-|[<-|[<-|[<-|[]]]]]; vm_compute; lia. }
  assert (Hrun : forall c r0, _procedural_generation w prompt c image r0
                 = (creation (arrays (array_handle (vertices, faces))), c, r0)).
  { intros c r0. unfold _procedural_generation. fold text.
    rewrite Horacle. reflexivity. }
  exists (array_handle (vertices, faces)).
  split; [exact Hhandle|]. split; [apply Hrun|].
  unfold _hybrid_generation, _ai_enhanced_generation. cbn [_has_ai_api_access].
  rewrite Hrun, !enhanced_procedural_generation_run.
  unfold procedural_mesh, procedural_rng. rewrite !Hrun.
  cbn [fst snd app length Nat.ltb Nat.leb _select_best_mesh best_of].
  assert (Hself : forall m : mesh, Qle_bool (quality m) (quality m) = true).
  { intros m. apply Qle_bool_iff, Qle_refl. }
  rewrite !Hself. reflexivity.
Qed.

End EngineProperties.

(** X23 at work: "a red ball" gives the nine-vertex sphere, whatever the
    complexity asked for. *)
Lemma procedural_generation_with_geometry_generator_witness :
  (forall text path,
     Procedural.generate_geometry geometry_world text path = geometry_oracle text path)
  /\ exists handle,
       (handle < 4)%nat
       /\ Procedural._procedural_generation geometry_world "a red ball"
            config_complexity_10 None (Procedural.Rng 0 0)
          = (Trimesh.creation (Trimesh.arrays handle), config_complexity_10,
             Procedural.Rng 0 0)
       /\ Engines._hybrid_generation geometry_world pieces_quality "a red ball"
            config_complexity_10 None (Procedural.Rng 0 0)
          = (Ok (Trimesh.creation (Trimesh.arrays handle)), config_complexity_10,
             Procedural.Rng 0 0).
Proof.
  split; [reflexivity|].
  apply (procedural_generation_with_geometry_generator geometry_world
           pieces_quality "a red ball" config_complexity_10 None
           (Procedural.Rng 0 0)).
  reflexivity.
Defined.

(** Without a geometry generator the hybrid engine picks among three runs
    that differ in their random numbers only. *)
Example hybrid_generation_sample :
  fst (fst (Engines._hybrid_generation boxes_world pieces_quality
              "a symmetric wooden chair" config_complexity_10 None
              (Procedural.Rng 0 0)))
  = Ok (Trimesh.creation (Trimesh.box (1%Q, 1%Q, 1%Q)))
  /\ Engines._select_best_mesh pieces_quality [] = Raise (Exception "list index out of range").
Proof. split; vm_compute; reflexivity. Qed.

Section TransformationProperties.
Import PyStr Classifier Trimesh Procedural.
Variable w : world.

Lemma geometry_apply_op (op : vertex_op) (m : mesh) :
  map geometry (apply_op op m) = map geometry m.
Proof.
  unfold apply_op. rewrite map_map. apply map_ext. intros p. reflexivity.
Qed.

Lemma geometry_apply_ops (ops : list vertex_op) (m : mesh) :
  map geometry (apply_ops ops m) = map geometry m.
Proof.
  unfold apply_ops. revert m. induction ops as [|op rest IH]; intros m; simpl.
  - reflexivity.
  - rewrite IH. apply geometry_apply_op.
Qed.

(** X24. [_apply_transformations] only appends vertex operations to the
    pieces of the mesh, at most three and in a fixed order: the scaling by
    (1.2, 1.2, 1.0) for the stylized style, noise for an organic shape, a
    random scaling for an asymmetric one.  It adds and removes no piece;
    in particular the low_poly style simplifies nothing.  It makes one
    draw of [np.random] for each of the two random operations and none of
    [random]. *)
Theorem apply_transformations_appends_operations (m : mesh) (info : shape_info)
  (config : GenerationConfig) (r : rng) :
  fst (_apply_transformations w m info config r)
  = apply_ops (transformation_ops w info r) m
  /\ map geometry (fst (_apply_transformations w m info config r))
     = map geometry m
  /\ (length (transformation_ops w info r) <= 3)%nat
  /\ py_draws (snd (_apply_transformations w m info config r)) = py_draws r
  /\ np_draws (snd (_apply_transformations w m info config r))
     = (np_draws r
        + (if String.eqb (organic info) "organic" then 1 else 0)
        + (if String.eqb (symmetry info) "asymmetric" then 1 else 0))%nat.
Proof.
  assert (H : fst (_apply_transformations w m info config r)
              = apply_ops (transformation_ops w info r) m).
  { unfold _apply_transformations, transformation_ops, apply_ops,
      _make_organic, _make_asymmetric, _simplify_mesh, apply_scale.
    destruct (String.eqb (style info) "stylized");
      [|destruct (String.eqb (style info) "low_poly")];
      destruct (String.eqb (organic info) "organic");
      destruct (String.eqb (symmetry info) "asymmetric"); reflexivity. }
  split; [exact H|]. split; [rewrite H; apply geometry_apply_ops|].
  unfold _apply_transformations, transformation_ops, _make_organic,
    _make_asymmetric.
  destruct (String.eqb (style info) "stylized");
    [|destruct (String.eqb (style info) "low_poly")];
    destruct (String.eqb (organic info) "organic");
    destruct (String.eqb (symmetry info) "asymmetric");
    cbn [fst snd py_draws np_draws length app]; repeat split; lia.
Qed.

(** X25. What [_analyze_prompt] can answer: the size is tiny, normal or
    large, so the scale of the base shape is 0.5, 1 or 2 and the default
    of the multiplier table is never used; the style is one of the five
    of the table; the shape type is never "robot", so the panel lines of
    [_add_structural_details] are for vehicles and buildings alone; and a
    prompt is asymmetric unless it names one of the words symmetric,
    balanced and even. *)
Theorem analyze_prompt_ranges (prompt : string) :
  In (size (_analyze_prompt prompt)) ["tiny"; "normal"; "large"]
  /\ In (size_multiplier (size (_analyze_prompt prompt)))
        [(5 # 10)%Q; 1%Q; 2%Q]
  /\ In (style (_analyze_prompt prompt))
        ["realistic"; "stylized"; "low_poly"; "sci_fi"; "fantasy"]
  /\ shape_type (_analyze_prompt prompt) <> "robot"
  /\ (has_panels (_analyze_prompt prompt) = true
      <-> In (shape_type (_analyze_prompt prompt)) ["vehicle"; "building"])
  /\ (symmetry (_analyze_prompt prompt) = "asymmetric"
      <-> any_in ["symmetric"; "balanced"; "even"] (lower prompt) = false).
Proof.
  unfold _analyze_prompt. cbn [size style shape_type symmetry has_panels].
  pose proof (detect_range size_keywords (lower prompt) "normal") as Hsize.
  pose proof (detect_range styles (lower prompt) "realistic") as Hstyle.
  pose proof (detect_range shape_types (lower prompt) "abstract") as Hshape.
  cbn [map fst size_keywords styles shape_types] in Hsize, Hstyle, Hshape.
  split.
  { destruct Hsize as [H|H]; [rewrite <- H; simpl; auto|exact H]. }
  split.
  { destruct Hsize as [H|[H|[H|[H|[]]]]]; rewrite <- H; vm_compute; auto. }
  split.
  { destruct Hstyle as [H|H]; [rewrite <- H; simpl; auto|exact H]. }
  split.
  { intros Hrobot. rewrite Hrobot in Hshape. simpl in Hshape.
    intuition discriminate. }
  split.
  { unfold has_panels. cbn [shape_type].
    destruct Hshape as [H|[H|[H|[H|[H|[H|[H|[H|[]]]]]]]]]; rewrite <- H;
      vm_compute; intuition discriminate. }
  destruct (any_in ["symmetric"; "balanced"; "even"] (lower prompt));
    split; intros H; first [reflexivity|discriminate].
Qed.

End TransformationProperties.

(** ** ai_integration.py *)

Section AIIntegrationProperties.
Import PyStr Trimesh Procedural AIIntegration.
Variable w : world.
Variable openai custom_api : string -> option string -> result mesh.

(** X26. [_extract_mesh_parameters] answers with a complexity of 8, 3 or
    5 and no other: 8 when the description names "complex" or "detailed",
    whatever else it says; 3 when it does not and names "simple" or
    "basic"; 5 otherwise.  The shape type is one of seven, the style one
    of three, and the dimensions, materials and features are constants
    that no description changes. *)
Theorem extract_mesh_parameters_ranges (description : string) :
  In (AIIntegration.complexity (_extract_mesh_parameters description)) [8; 3; 5]
  /\ (AIIntegration.complexity (_extract_mesh_parameters description) = 8
      <-> asks_for_detail description = true)
  /\ (AIIntegration.complexity (_extract_mesh_parameters description) = 3
      <-> asks_for_detail description = false
          /\ contains "simple" (lower description)
             || contains "basic" (lower description) = true)
  /\ In (AIIntegration.shape_type (_extract_mesh_parameters description))
        ["vehicle"; "building"; "character"; "weapon"; "furniture"; "nature";
         "abstract"]
  /\ In (AIIntegration.style (_extract_mesh_parameters description))
        ["stylized"; "realistic"; "low_poly"]
  /\ dimensions (_extract_mesh_parameters description) = (1%Q, 1%Q, 1%Q)
  /\ materials (_extract_mesh_parameters description) = ["default"]
  /\ features (_extract_mesh_parameters description) = [].
Proof.
  unfold _extract_mesh_parameters, asks_for_detail.
  cbn [AIIntegration.complexity AIIntegration.shape_type AIIntegration.style
       dimensions materials features].
  split.
  { destruct (_ || _); [simpl; auto|]. destruct (_ || _); simpl; auto. }
  split.
  { destruct (contains "complex" _ || contains "detailed" _);
      [split; reflexivity|].
    destruct (_ || _); split; discriminate. }
  split.
  { destruct (contains "complex" _ || contains "detailed" _).
    - split; [discriminate|intros [H _]; discriminate].
    - destruct (contains "simple" _ || contains "basic" _).
      + split; [split; reflexivity|reflexivity].
      + split; [discriminate|intros [_ H]; discriminate]. }
  split.
  { repeat (destruct (_ || _); [simpl; auto 8|]). simpl; auto 8. }
  split.
  { repeat (destruct (_ || _); [simpl; auto|]).
    destruct (contains "low poly" _); simpl; auto. }
  repeat split.
Qed.

Lemma sampled_details_spec (count : nat) (m : mesh) (r : rng) :
  sampled_details w count m r
  = (details_from w m (np_draws r) count,
     {| py_draws := py_draws r; np_draws := np_draws r + count |}).
Proof.
  revert r. induction count as [|k IH]; intros r.
  - simpl. destruct r as [p n]. simpl. rewrite Nat.add_0_r. reflexivity.
  - cbn [sampled_details]. rewrite IH. cbn [np_draws py_draws].
    unfold details_from. cbn [seq map]. rewrite <- seq_shift, map_map.
    rewrite Nat.add_0_r. f_equal.
    + f_equal. apply map_ext. intros a. rewrite Nat.add_succ_r. reflexivity.
    + f_equal. lia.
Qed.

(** X27. The parameters read from a description meet only two of the
    cases of [_apply_complexity_modifications].  For a description that
    asks for detail (complexity 8) the mesh gets sixteen spheres of radius
    0.02 at sampled surface points and then noise of deviation 0.08 on
    every vertex, after seventeen draws of [np.random]; for every other
    description (complexity 3 or 5) the mesh comes back as it is and no
    number is drawn. *)
Theorem complexity_modifications_of_a_description (description : string)
  (m : mesh) (r : rng) :
  _apply_complexity_modifications w m
    (AIIntegration.complexity (_extract_mesh_parameters description)) r
  = if asks_for_detail description
    then (apply_op (Jitter (8 # 100) (np_draws r + 16))
                   (m ++ concat (details_from w m (np_draws r) 16))%list,
          {| py_draws := py_draws r; np_draws := np_draws r + 17 |})
    else (m, r).
Proof.
  unfold _extract_mesh_parameters, asks_for_detail.
  cbn [AIIntegration.complexity].
  destruct (contains "complex" _ || contains "detailed" _).
  - unfold _apply_complexity_modifications.
    change (8 <=? 3) with false. change (6 <=? 8) with true.
    change (7 <=? 8) with true. change (Z.to_nat (8 * 2)) with 16%nat.
    cbv iota. rewrite sampled_details_spec.
    cbn [np_draws py_draws].
    destruct (details_from w m (np_draws r) 16) as [|detail details].
    + cbn [concat]. rewrite app_nil_r. cbn [np_draws py_draws].
      f_equal. f_equal. lia.
    + cbn [np_draws py_draws]. f_equal. f_equal. lia.
  - destruct (_ || _); reflexivity.
Qed.

(** X28. [generate_with_best_service] answers with a mesh only from
    OpenAI or from the custom API, and from the custom API only when
    OpenAI is not configured or its call raised.  A configured Stability
    AI service never yields a mesh, nor do the services Midjourney and
    DALL-E.  Without a service the error is "No AI services configured",
    and when every configured service fails it is "All AI services
    failed". *)
Theorem generate_with_best_service_order (services : list AIService)
  (prompt : string) (image : option string) :
  match generate_with_best_service openai custom_api services prompt image with
  | Succeeded m service =>
      (service = "openai" /\ In OPENAI services /\ openai prompt image = Ok m)
      \/ (service = "custom_api" /\ In CUSTOM_API services
          /\ custom_api prompt image = Ok m
          /\ (~ In OPENAI services \/ exists e, openai prompt image = Raise e))
  | Fallback error =>
      (services = [] /\ error = "No AI services configured")
      \/ (services <> [] /\ error = "All AI services failed"
          /\ (In OPENAI services -> exists e, openai prompt image = Raise e)
          /\ (In CUSTOM_API services ->
              exists e, custom_api prompt image = Raise e))
  end.
Proof.
  unfold generate_with_best_service.
  destruct services as [|first others]; [left; split; reflexivity|].
  set (services := first :: others).
  unfold preferred_order. cbn [try_services].
  assert (Hstability : succeeded (generate_3d_from_prompt openai custom_api
                                    STABILITY_AI prompt image) = false)
    by reflexivity.
  rewrite Hstability. clear Hstability.
  assert (Hmem : forall s, existsb (service_eqb s) services = true
                           <-> In s services).
  { intros s. rewrite existsb_exists. split.
    - intros (x & Hx & Heq). destruct s, x; try discriminate; exact Hx.
    - intros H. exists s. split; [exact H|]. destruct s; reflexivity. }
  assert (Hopenai : generate_3d_from_prompt openai custom_api OPENAI prompt image
                    = match openai prompt image with
                      | Ok m => Succeeded m "openai"
                      | Raise e => Fallback (str_exn e)
                      end).
  { unfold generate_3d_from_prompt. destruct (openai prompt image); reflexivity. }
  assert (Hcustom : generate_3d_from_prompt openai custom_api CUSTOM_API prompt image
                    = match custom_api prompt image with
                      | Ok m => Succeeded m "custom_api"
                      | Raise e => Fallback (str_exn e)
                      end).
  { unfold generate_3d_from_prompt. destruct (custom_api prompt image); reflexivity. }
  rewrite Hopenai, Hcustom.
  assert (Hafter : (if existsb (service_eqb STABILITY_AI) services
                    then (if existsb (service_eqb CUSTOM_API) services
                          then (if succeeded match custom_api prompt image with
                                             | Ok m => Succeeded m "custom_api"
                                             | Raise e => Fallback (str_exn e)
                                             end
                                then match custom_api prompt image with
                                     | Ok m => Succeeded m "custom_api"
                                     | Raise e => Fallback (str_exn e)
                                     end
                                else Fallback "All AI services failed")
                          else Fallback "All AI services failed")
                    else (if existsb (service_eqb CUSTOM_API) services
                          then (if succeeded match custom_api prompt image with
                                             | Ok m => Succeeded m "custom_api"
                                             | Raise e => Fallback (str_exn e)
                                             end
                                then match custom_api prompt image with
                                     | Ok m => Succeeded m "custom_api"
                                     | Raise e => Fallback (str_exn e)
                                     end
                                else Fallback "All AI services failed")
                          else Fallback "All AI services failed"))
                   = match (if existsb (service_eqb CUSTOM_API) services
                            then custom_api prompt image
                            else Raise (Exception "not configured")) with
                     | Ok m => Succeeded m "custom_api"
                     | Raise _ => Fallback "All AI services failed"
                     end).
  { destruct (existsb (service_eqb STABILITY_AI) services),
      (existsb (service_eqb CUSTOM_API) services),
      (custom_api prompt image); reflexivity. }
  rewrite Hafter. clear Hafter.
  destruct (existsb (service_eqb OPENAI) services) eqn:Eo.
  - apply Hmem in Eo.
    destruct (openai prompt image) as [m|e] eqn:Eopen; cbn [succeeded].
    + left. repeat split; assumption.
    + destruct (existsb (service_eqb CUSTOM_API) services) eqn:Ec.
      * apply Hmem in Ec.
        destruct (custom_api prompt image) as [m|e'] eqn:Ecust.
        -- right. repeat split; try assumption. right. exists e. reflexivity.
        -- right. split; [discriminate|]. split; [reflexivity|].
           split; intros _; eexists; reflexivity.
      * right. split; [discriminate|]. split; [reflexivity|].
        split; [intros _; eexists; reflexivity|].
        intros Hc. apply Hmem in Hc. congruence.
  - assert (Hno : ~ In OPENAI services).
    { intros H. apply Hmem in H. congruence. }
    destruct (existsb (service_eqb CUSTOM_API) services) eqn:Ec.
    + apply Hmem in Ec.
      destruct (custom_api prompt image) as [m|e'] eqn:Ecust.
      * right. repeat split; try assumption. left. exact Hno.
      * right. split; [discriminate|]. split; [reflexivity|].
        split; [intros H; contradiction|intros _; eexists; reflexivity].
    + right. split; [discriminate|]. split; [reflexivity|].
      split; [intros H; contradiction|].
      intros Hc. apply Hmem in Hc. congruence.
Qed.

End AIIntegrationProperties.

(** ** tasks.py: the asset queue *)

Section QueueProperties.
Import PyStr Trimesh Effects World ExportEngine FileConverter ModelGenerator Tasks.
Import Models QueueTask.
Variable w : world.
Variable zip_open : string -> result unit.
Variable zip_write : string -> string -> string -> result unit.

Lemma emits_calm_generate_3d_model (prompt : string) (image : option string)
  (job_id : option Z) (engine : string) (c d : Z) (style : string) :
  emits calm (generate_3d_model w prompt image job_id engine c d style).
Proof.
  unfold generate_3d_model, enhance_prompt, produce_mesh, ai_generation,
    fallback_generation, generate_geometry_from_prompt, create_default_mesh,
    apply_materials, choose_output_path, export_mesh, export_model,
    _export_as.
  effect_steps; split; exact I || reflexivity.
Qed.

Lemma emits_calm_convert_with_blender (obj_path : string) (job : job_id)
  (format : string) :
  emits calm (convert_with_blender w obj_path job format).
Proof.
  unfold convert_with_blender. apply emits_try_except.
  - apply emits_bind.
    + apply emits_find_blender_executable; intros; split; exact I.
    + effect_steps; split; exact I.
  - effect_steps.
Qed.

Lemma emits_calm_with_export_engine (obj_path : string) (job : job_id)
  (format : ExportFormat) (extension : string) :
  emits calm (with_export_engine w obj_path job format extension).
Proof.
  unfold with_export_engine, load_obj, export_model, _export_as, _export_rbxm.
  effect_steps; split; exact I.
Qed.

Lemma emits_calm_convert_to_fbx (obj_path : string) (job : job_id) :
  emits calm (convert_to_fbx w obj_path job).
Proof.
  unfold convert_to_fbx.
  repeat (apply emits_try_except; [|intros _]);
    try apply emits_ret;
    try apply emits_calm_convert_with_blender;
    try apply emits_calm_with_export_engine.
  unfold fbx_with_trimesh, load_obj. effect_steps; split; exact I.
Qed.

Lemma emits_calm_convert_to_blend (obj_path : string) (job : job_id) :
  emits calm (convert_to_blend w obj_path job).
Proof.
  unfold convert_to_blend, some_path.
  repeat (apply emits_try_except; [|intros _]); try apply emits_ret;
    (apply emits_bind; [|intros; apply emits_ret]).
  - apply emits_calm_convert_with_blender.
  - apply emits_calm_with_export_engine.
Qed.

(** What a run of calm events leaves in place. *)
Lemma calm_run {A} (m : M A) (s : state) :
  emits calm m ->
  exists new,
    trace (snd (m s)) = (trace s ++ new)%list /\ Forall calm new
    /\ session (snd (m s)) = session s /\ history (snd (m s)) = history s
    /\ inactive (snd (m s)) = inactive s.
Proof.
  intros H. destruct (H s) as (new & Ht & Hq & Hs & Hh).
  exists new. repeat split; try assumption.
  apply (inactive_quiet s _ new Ht).
  eapply Forall_impl; [exact Hq|]. intros ev [Hev _]. exact Hev.
Qed.

Lemma calm_quiet (l : list event) : Forall calm l -> Forall quiet l.
Proof. intros H. eapply Forall_impl; [exact H|]. intros ev [Hev _]. exact Hev. Qed.

Lemma calm_no_archive (l : list event) : Forall calm l -> Forall no_archive l.
Proof. intros H. eapply Forall_impl; [exact H|]. intros ev [_ Hev]. exact Hev. Qed.

(** The assignments and the commit that settle an asset, on a usable
    session. *)
Lemma settle_completed_run (queue : AssetQueue) (asset : GenerationJob)
  (path fbx : string) (blend : option string) (s : state) :
  inactive s = false ->
  let d := settled_completed w asset path fbx blend (session s) in
  (set_status (id asset) "completed" ;;
   update_job (id asset) (with_obj_path (Some path)) ;;
   update_job (id asset) (with_fbx_path (Some fbx)) ;;
   update_job (id asset) (with_blend_path blend) ;;
   update_job (id asset) (with_completed_at (Some (utcnow w))) ;;
   commit (db_flush w) ;;
   ret queue) s
  = match database_answer (db_flush w) d with
    | Ok _ => (Ok queue, committed [SetStatus (id asset) "completed"] d s)
    | Raise e => (Raise e, refused [SetStatus (id asset) "completed"] d s)
    end.
Proof.
  intros Ha d.
  rewrite bind_run, set_status_run, bind_run, update_job_run, bind_run,
    update_job_run, bind_run, update_job_run, bind_run, update_job_run, bind_run.
  cbn [trace session history]. fold (settled_completed w asset path fbx blend (session s)).
  fold d.
  rewrite commit_run
    by (unfold inactive in Ha |- *; cbn [trace]; rewrite existsb_app, Ha;
        reflexivity).
  cbn [trace session history].
  destruct (database_answer (db_flush w) d) as [[]|e];
    unfold committed, refused, ret; rewrite <- !app_assoc; reflexivity.
Qed.

Lemma settle_failed_run (queue : AssetQueue) (asset : GenerationJob) (e : exn)
  (s : state) :
  inactive s = false ->
  let d := settled_failed asset e (session s) in
  (query ;;
   set_status (id asset) "failed" ;;
   update_job (id asset) (with_error_message (Some (str_exn e))) ;;
   commit (db_flush w) ;;
   ret queue) s
  = match database_answer (db_flush w) d with
    | Ok _ => (Ok queue, committed [SetStatus (id asset) "failed"] d s)
    | Raise e' => (Raise e', refused [SetStatus (id asset) "failed"] d s)
    end.
Proof.
  intros Ha d.
  rewrite bind_run. unfold query at 1. rewrite Ha.
  rewrite bind_run, set_status_run, bind_run, update_job_run, bind_run.
  cbn [trace session history]. fold (settled_failed asset e (session s)). fold d.
  rewrite commit_run
    by (unfold inactive in Ha |- *; cbn [trace]; rewrite existsb_app, Ha;
        reflexivity).
  cbn [trace session history].
  destruct (database_answer (db_flush w) d) as [[]|e'];
    unfold committed, refused, ret; rewrite <- !app_assoc; reflexivity.
Qed.

(** The handler of the loop on a session that a refused flush has left
    unusable: its log line raises. *)
Lemma settle_failed_inactive (queue : AssetQueue) (asset : GenerationJob)
  (e : exn) (s : state) :
  inactive s = true ->
  (query ;;
   set_status (id asset) "failed" ;;
   update_job (id asset) (with_error_message (Some (str_exn e))) ;;
   commit (db_flush w) ;;
   ret queue) s
  = (Raise pending_rollback, s).
Proof. intros Ha. rewrite bind_run. unfold query. rewrite Ha. reflexivity. Qed.

Lemma inactive_refused_state (events : list event) (d : database) (s : state) :
  inactive (refused events d s) = true.
Proof.
  unfold inactive, refused. cbn [trace]. rewrite !existsb_app. cbn.
  rewrite !orb_true_r. reflexivity.
Qed.

(** One turn of the loop, by the outcome of the generation. *)
Lemma process_asset_cases (queue : AssetQueue) (asset : GenerationJob)
  (s : state) :
  inactive s = false ->
  match generate_3d_model w (prompt asset) (reference_image_path asset)
          (Some (id asset)) "hybrid" 7 8 "realistic" s with
  | (Raise e, s1) =>
      process_asset w queue asset s
      = match database_answer (db_flush w) (settled_failed asset e (session s)) with
        | Ok _ =>
            (Ok queue,
             committed [SetStatus (id asset) "failed"]
                       (settled_failed asset e (session s)) s1)
        | Raise e' =>
            (Raise e',
             refused [SetStatus (id asset) "failed"]
                     (settled_failed asset e (session s)) s1)
        end
  | (Ok path, s1) =>
      if truthy path && path_exists w path
      then
        exists fbx blend s3 s4,
          convert_to_fbx w path (IntId (id asset)) (record (PathExists path) s1)
          = (Ok fbx, s3)
          /\ convert_to_blend w path (IntId (id asset)) s3 = (Ok blend, s4)
          /\ process_asset w queue asset s
             = match database_answer (db_flush w)
                       (settled_completed w asset path fbx blend (session s)) with
               | Ok _ =>
                   (Ok (with_completed_items (completed_items queue + 1) queue),
                    committed [SetStatus (id asset) "completed"]
                      (settled_completed w asset path fbx blend (session s)) s4)
               | Raise _ =>
                   (Raise pending_rollback,
                    refused [SetStatus (id asset) "completed"]
                      (settled_completed w asset path fbx blend (session s)) s4)
               end
      else
        process_asset w queue asset s
        = (Ok queue, if truthy path then record (PathExists path) s1 else s1)
  end.
Proof.
  intros Ha.
  destruct (calm_run _ s (emits_calm_generate_3d_model (prompt asset)
              (reference_image_path asset) (Some (id asset)) "hybrid" 7 8
              "realistic")) as (n1 & Ht1 & Hq1 & Hs1 & Hh1 & Ha1).
  destruct (generate_3d_model w (prompt asset) (reference_image_path asset)
              (Some (id asset)) "hybrid" 7 8 "realistic" s)
    as [[path|e] s1] eqn:Eg; cbn [fst snd] in Ht1, Hs1, Hh1, Ha1.
  - destruct (truthy path && path_exists w path) eqn:Ethere.
    + apply andb_true_iff in Ethere as [Etruthy Eexists].
      set (s2 := record (PathExists path) s1).
      assert (Ha2 : inactive s2 = false).
      { unfold s2, inactive, record. cbn [trace]. rewrite existsb_app.
        fold (inactive s1). rewrite Ha1, Ha. reflexivity. }
      destruct (convert_to_fbx_never_raises w path (IntId (id asset)) s2)
        as [fbx Hfbx].
      destruct (calm_run _ s2 (emits_calm_convert_to_fbx path (IntId (id asset))))
        as (n2 & Ht2 & Hq2 & Hs2 & Hh2 & Ha3).
      destruct (convert_to_fbx w path (IntId (id asset)) s2) as [r3 s3] eqn:E3.
      cbn [fst snd] in Hfbx, Ht2, Hs2, Hh2, Ha3. subst r3.
      destruct (convert_to_blend_never_raises w path (IntId (id asset)) s3)
        as [blend Hblend].
      destruct (calm_run _ s3 (emits_calm_convert_to_blend path (IntId (id asset))))
        as (n3 & Ht3 & Hq3 & Hs3 & Hh3 & Ha4).
      destruct (convert_to_blend w path (IntId (id asset)) s3) as [r4 s4] eqn:E4.
      cbn [fst snd] in Hblend, Ht3, Hs3, Hh3, Ha4. subst r4.
      exists fbx, blend, s3, s4. split; [reflexivity|]. split; [exact E4|].
      assert (Hsess : session s4 = session s).
      { rewrite Hs3, Hs2. unfold s2. cbn [session record]. exact Hs1. }
      assert (Hhist : history s4 = history s).
      { rewrite Hh3, Hh2. unfold s2. cbn [history record]. exact Hh1. }
      assert (Ha5 : inactive s4 = false) by (rewrite Ha4, Ha3; exact Ha2).
      pose proof (settle_completed_run
                    (with_completed_items (completed_items queue + 1) queue)
                    asset path fbx blend s4 Ha5) as Hsettle.
      cbv zeta in Hsettle. rewrite Hsess in Hsettle.
      unfold process_asset, try_except. rewrite bind_run, Eg, bind_run.
      rewrite Etruthy. unfold call at 1. rewrite Eexists.
      fold s2. rewrite bind_run, E3, bind_run, E4, Hsettle.
      destruct (database_answer (db_flush w)
                  (settled_completed w asset path fbx blend (session s)))
        as [[]|e'].
      * unfold committed. rewrite Hhist. reflexivity.
      * rewrite settle_failed_inactive by apply inactive_refused_state.
        unfold refused. rewrite Hhist. reflexivity.
    + unfold process_asset, try_except. rewrite bind_run, Eg, bind_run.
      destruct (truthy path); cbn [andb] in Ethere.
      * unfold call at 1. rewrite Ethere. reflexivity.
      * reflexivity.
  - assert (Ha2 : inactive s1 = false) by (rewrite Ha1; exact Ha).
    pose proof (settle_failed_run queue asset e s1 Ha2) as Hsettle.
    cbv zeta in Hsettle. rewrite Hs1 in Hsettle.
    unfold process_asset, try_except. rewrite bind_run, Eg, Hsettle.
    destruct (database_answer (db_flush w) (settled_failed asset e (session s)))
      as [[]|e']; unfold committed, refused; rewrite Hh1; reflexivity.
Qed.

(** X29. One asset of a queue, on a usable session, by what
    [generate_3d_model] does.  When it raises, the handler assigns 'failed'
    and the text of the error and commits; if the database takes the
    commit, the loop goes on with the counter as it was.  When it returns a
    path at which a file exists, the FBX conversion and then the Blender
    conversion run on that path, 'completed', the three paths and the time
    are assigned, and the commit follows; if the database takes it, the
    counter of the queue is one higher, and if the database refuses it, the
    log line of the handler raises, so that 'failed' is not assigned and
    the loop is left.  When it returns a path at which no file exists,
    nothing is assigned and nothing is committed: the asset keeps the
    status it had, and the queue does not count it. *)
Theorem process_asset_outcomes (queue : AssetQueue) (asset : GenerationJob)
  (s : state) :
  inactive s = false ->
  (forall e s1,
     generate_3d_model w (prompt asset) (reference_image_path asset)
       (Some (id asset)) "hybrid" 7 8 "realistic" s = (Raise e, s1) ->
     database_answer (db_flush w) (settled_failed asset e (session s)) = Ok tt ->
     process_asset w queue asset s
     = (Ok queue,
        committed [SetStatus (id asset) "failed"]
                  (settled_failed asset e (session s)) s1))
  /\ (forall path s1,
        generate_3d_model w (prompt asset) (reference_image_path asset)
          (Some (id asset)) "hybrid" 7 8 "realistic" s = (Ok path, s1) ->
        truthy path && path_exists w path = true ->
        exists fbx blend s3 s4,
          convert_to_fbx w path (IntId (id asset)) (record (PathExists path) s1)
          = (Ok fbx, s3)
          /\ convert_to_blend w path (IntId (id asset)) s3 = (Ok blend, s4)
          /\ (database_answer (db_flush w)
                (settled_completed w asset path fbx blend (session s)) = Ok tt ->
              process_asset w queue asset s
              = (Ok (with_completed_items (completed_items queue + 1) queue),
                 committed [SetStatus (id asset) "completed"]
                   (settled_completed w asset path fbx blend (session s)) s4))
          /\ (forall e,
                database_answer (db_flush w)
                  (settled_completed w asset path fbx blend (session s)) = Raise e ->
                process_asset w queue asset s
                = (Raise pending_rollback,
                   refused [SetStatus (id asset) "completed"]
                     (settled_completed w asset path fbx blend (session s)) s4)))
  /\ (forall path s1,
        generate_3d_model w (prompt asset) (reference_image_path asset)
          (Some (id asset)) "hybrid" 7 8 "realistic" s = (Ok path, s1) ->
        truthy path && path_exists w path = false ->
        process_asset w queue asset s
        = (Ok queue, if truthy path then record (PathExists path) s1 else s1)
        /\ session s1 = session s /\ history s1 = history s).
Proof.
  intros Ha. pose proof (process_asset_cases queue asset s Ha) as Hcases.
  split; [|split].
  - intros e s1 Hg Hans. rewrite Hg, Hans in Hcases. exact Hcases.
  - intros path s1 Hg Hthere. rewrite Hg, Hthere in Hcases.
    destruct Hcases as (fbx & blend & s3 & s4 & H3 & H4 & Hrun).
    exists fbx, blend, s3, s4. split; [exact H3|]. split; [exact H4|]. split.
    + intros Hans. rewrite Hans in Hrun. exact Hrun.
    + intros e Hans. rewrite Hans in Hrun. exact Hrun.
  - intros path s1 Hg Hthere. rewrite Hg, Hthere in Hcases.
    split; [exact Hcases|].
    destruct (calm_run _ s (emits_calm_generate_3d_model (prompt asset)
                (reference_image_path asset) (Some (id asset)) "hybrid" 7 8
                "realistic")) as (n1 & _ & _ & Hs1 & Hh1 & _).
    rewrite Hg in Hs1, Hh1. split; assumption.
Qed.

Lemma commit_accepted (s : state) :
  database_up w -> unique_keys (cache (session s)) -> inactive s = false ->
  commit (db_flush w) s
  = (Ok tt, {| trace := (trace s ++ [Commit])%list; session := session s;
               history := (history s ++ [session s])%list |}).
Proof.
  intros Hup Hu Ha.
  rewrite (commit_run (db_flush w) s Ha), (database_answer_up w _ Hup Hu).
  reflexivity.
Qed.

(** One turn of the loop when the database takes the commits. *)
Lemma process_asset_run (queue : AssetQueue) (asset : GenerationJob) (s : state) :
  database_up w -> unique_keys (cache (session s)) -> inactive s = false ->
  exists final s' new stored,
    process_asset w queue asset s = (Ok final, s')
    /\ trace s' = (trace s ++ new)%list
    /\ history s' = (history s ++ stored)%list
    /\ length stored = length (status_writes new)
    /\ cache (session s') = cache (session s)
    /\ inactive s' = false
    /\ Forall no_archive new
    /\ ((status_writes new = [(id asset, "completed")]
         /\ final = with_completed_items (completed_items queue + 1) queue)
        \/ (status_writes new = [(id asset, "failed")] /\ final = queue)
        \/ (status_writes new = [] /\ final = queue)).
Proof.
  intros Hup Hu Ha.
  pose proof (process_asset_cases queue asset s Ha) as Hcases.
  destruct (calm_run _ s (emits_calm_generate_3d_model (prompt asset)
              (reference_image_path asset) (Some (id asset)) "hybrid" 7 8
              "realistic")) as (n1 & Ht1 & Hq1 & Hs1 & Hh1 & Ha1).
  destruct (generate_3d_model w (prompt asset) (reference_image_path asset)
              (Some (id asset)) "hybrid" 7 8 "realistic" s)
    as [[path|e] s1]; cbn [fst snd] in Ht1, Hs1, Hh1, Ha1.
  - destruct (truthy path && path_exists w path).
    + destruct Hcases as (fbx & blend & s3 & s4 & H3 & H4 & Hrun).
      rewrite (database_answer_up w _ Hup) in Hrun by exact Hu.
      destruct (calm_run _ (record (PathExists path) s1)
                  (emits_calm_convert_to_fbx path (IntId (id asset))))
        as (n2 & Ht2 & Hq2 & _ & Hh2 & _).
      rewrite H3 in Ht2, Hh2. cbn [snd] in Ht2, Hh2.
      destruct (calm_run _ s3 (emits_calm_convert_to_blend path (IntId (id asset))))
        as (n3 & Ht3 & Hq3 & _ & Hh3 & _).
      rewrite H4 in Ht3, Hh3. cbn [snd] in Ht3, Hh3.
      eexists _, _, (n1 ++ [PathExists path] ++ n2 ++ n3
                     ++ [SetStatus (id asset) "completed"; Commit])%list, [_].
      split; [exact Hrun|]. unfold committed. cbn [trace session history cache].
      split.
      { rewrite Ht3, Ht2. cbn [trace record]. rewrite Ht1, <- !app_assoc.
        reflexivity. }
      split; [rewrite Hh3, Hh2; cbn [history record]; rewrite Hh1; reflexivity|].
      split.
      { rewrite !status_writes_app, (status_writes_quiet n1 (calm_quiet n1 Hq1)),
          (status_writes_quiet n2 (calm_quiet n2 Hq2)),
          (status_writes_quiet n3 (calm_quiet n3 Hq3)). reflexivity. }
      split; [reflexivity|].
      split.
      { unfold inactive. cbn [trace]. rewrite Ht3, Ht2. cbn [trace record].
        rewrite Ht1, !existsb_app. fold (inactive s).
        rewrite Ha, (quiet_no_failure n1 (calm_quiet n1 Hq1)),
          (quiet_no_failure n2 (calm_quiet n2 Hq2)),
          (quiet_no_failure n3 (calm_quiet n3 Hq3)). reflexivity. }
      split.
      { repeat (apply Forall_app; split); try (apply calm_no_archive; assumption);
          repeat constructor. }
      left. split; [|reflexivity].
      rewrite !status_writes_app, (status_writes_quiet n1 (calm_quiet n1 Hq1)),
        (status_writes_quiet n2 (calm_quiet n2 Hq2)),
        (status_writes_quiet n3 (calm_quiet n3 Hq3)). reflexivity.
    + exists queue, (if truthy path then record (PathExists path) s1 else s1),
        (n1 ++ (if truthy path then [PathExists path] else []))%list, [].
      split; [exact Hcases|].
      split.
      { destruct (truthy path); cbn; rewrite Ht1, <- ?app_assoc, ?app_nil_r;
          reflexivity. }
      split; [rewrite app_nil_r; destruct (truthy path); cbn; assumption|].
      assert (Hw : status_writes (n1 ++ (if truthy path then [PathExists path] else []))
                   = []).
      { rewrite status_writes_app, (status_writes_quiet n1 (calm_quiet n1 Hq1)).
        destruct (truthy path); reflexivity. }
      split; [rewrite Hw; reflexivity|].
      split; [destruct (truthy path); cbn [session record]; rewrite Hs1; reflexivity|].
      split.
      { destruct (truthy path).
        - unfold inactive, record. cbn [trace]. rewrite existsb_app.
          fold (inactive s1). rewrite Ha1, Ha. reflexivity.
        - rewrite Ha1. exact Ha. }
      split.
      { apply Forall_app. split; [apply calm_no_archive; assumption|].
        destruct (truthy path); repeat constructor. }
      right. right. split; [exact Hw|reflexivity].
  - rewrite (database_answer_up w _ Hup) in Hcases by exact Hu.
    eexists _, _, (n1 ++ [SetStatus (id asset) "failed"; Commit])%list, [_].
    split; [exact Hcases|]. unfold committed. cbn [trace session history cache].
    split; [rewrite Ht1, <- !app_assoc; reflexivity|].
    split; [rewrite Hh1; reflexivity|].
    split.
    { rewrite status_writes_app, (status_writes_quiet n1 (calm_quiet n1 Hq1)).
      reflexivity. }
    split; [reflexivity|].
    split.
    { unfold inactive. cbn [trace]. rewrite Ht1, !existsb_app. fold (inactive s).
      rewrite Ha, (quiet_no_failure n1 (calm_quiet n1 Hq1)). reflexivity. }
    split.
    { apply Forall_app. split; [apply calm_no_archive; assumption|].
      repeat constructor. }
    right. left. split; [|reflexivity].
    rewrite status_writes_app, (status_writes_quiet n1 (calm_quiet n1 Hq1)).
    reflexivity.
Qed.

Lemma completions_app (l1 l2 : list event) :
  completions (l1 ++ l2) = (completions l1 + completions l2)%nat.
Proof.
  unfold completions. rewrite status_writes_app, filter_app, length_app.
  reflexivity.
Qed.

Lemma process_assets_run (queue : AssetQueue) (rows : list GenerationJob)
  (s : state) :
  database_up w -> unique_keys (cache (session s)) -> inactive s = false ->
  exists final s' new stored,
    process_assets w queue rows s = (Ok final, s')
    /\ trace s' = (trace s ++ new)%list
    /\ history s' = (history s ++ stored)%list
    /\ length stored = length (status_writes new)
    /\ cache (session s') = cache (session s)
    /\ inactive s' = false
    /\ Forall no_archive new
    /\ final = with_completed_items
                 (completed_items queue + Z.of_nat (completions new)) queue
    /\ Forall (settles_one_of rows) (status_writes new).
Proof.
  intros Hup. revert queue s.
  induction rows as [|asset rest IH]; intros queue s Hu Ha.
  - exists queue, s, [], []. split; [reflexivity|].
    rewrite !app_nil_r. split; [reflexivity|]. split; [reflexivity|].
    split; [reflexivity|]. split; [reflexivity|]. split; [exact Ha|].
    split; [constructor|]. split; [|constructor].
    unfold completions. cbn. rewrite Z.add_0_r. destruct queue. reflexivity.
  - destruct (process_asset_run queue asset s Hup Hu Ha)
      as (q1 & s1 & n1 & st1 & Hrun1 & Ht1 & Hh1 & Hl1 & Hc1 & Ha1 & Hz1 & Hcase).
    assert (Hu1 : unique_keys (cache (session s1))) by (rewrite Hc1; exact Hu).
    destruct (IH q1 s1 Hu1 Ha1)
      as (q2 & s2 & n2 & st2 & Hrun2 & Ht2 & Hh2 & Hl2 & Hc2 & Ha2 & Hz2 & Hq2 & Hw2).
    exists q2, s2, (n1 ++ n2)%list, (st1 ++ st2)%list.
    split; [cbn [process_assets]; rewrite bind_run, Hrun1; exact Hrun2|].
    split; [rewrite Ht2, Ht1, app_assoc; reflexivity|].
    split; [rewrite Hh2, Hh1, app_assoc; reflexivity|].
    split; [rewrite status_writes_app, !length_app, Hl1, Hl2; reflexivity|].
    split; [rewrite Hc2; exact Hc1|]. split; [exact Ha2|].
    split; [apply Forall_app; split; assumption|].
    assert (Hrest : Forall (settles_one_of (asset :: rest)) (status_writes n2)).
    { eapply Forall_impl; [exact Hw2|].
      intros [job value] [Hin Hv]. split; [right; exact Hin|exact Hv]. }
    rewrite completions_app, status_writes_app.
    destruct Hcase as [(Hn1 & ->)|[(Hn1 & ->)|(Hn1 & ->)]].
    + assert (Hk1 : completions n1 = 1%nat)
        by (unfold completions; rewrite Hn1; reflexivity).
      rewrite Hk1, Hn1. split.
      * rewrite Hq2. unfold with_completed_items. cbn. f_equal. lia.
      * constructor; [|exact Hrest].
        split; [left; reflexivity|left; reflexivity].
    + assert (Hk1 : completions n1 = 0%nat)
        by (unfold completions; rewrite Hn1; reflexivity).
      rewrite Hk1, Hn1. split; [exact Hq2|].
      constructor; [|exact Hrest].
      split; [left; reflexivity|right; reflexivity].
    + assert (Hk1 : completions n1 = 0%nat)
        by (unfold completions; rewrite Hn1; reflexivity).
      rewrite Hk1, Hn1. split; [exact Hq2|exact Hrest].
Qed.

Lemma emits_answer {A} (P : event -> Prop) (r : result A) : emits P (answer r).
Proof. intros s. exists []. cbn. rewrite app_nil_r. auto. Qed.

Lemma emits_query (P : event -> Prop) : emits P query.
Proof.
  intros s. exists []. unfold query. destruct (inactive s); cbn;
    rewrite app_nil_r; auto.
Qed.

Lemma emits_quiet_add_member (zip : string) (path : option string)
  (arcname : string) :
  emits quiet (add_member w zip_write zip path arcname).
Proof.
  unfold add_member. destruct path as [file|]; [|apply emits_ret].
  destruct (truthy file); [|apply emits_ret].
  apply emits_bind; [apply emits_call; exact I|].
  intros [|]; [apply emits_answer|apply emits_ret].
Qed.

Lemma emits_quiet_add_assets (zip : string) (rows : list GenerationJob) :
  emits quiet (add_assets w zip_write zip rows).
Proof.
  induction rows as [|asset rest IH]; cbn [add_assets].
  - apply emits_ret.
  - apply emits_bind; [|intros _; exact IH].
    destruct (String.eqb _ _); [|apply emits_ret].
    repeat (apply emits_bind; [apply emits_quiet_add_member|intros _]).
    apply emits_quiet_add_member.
Qed.

(** [create_bulk_zip] raises nothing, begins by making the directory of
    the archives, and assigns and commits nothing. *)
Lemma create_bulk_zip_run (queue : AssetQueue) (s : state) :
  exists zip s' rest,
    create_bulk_zip w zip_open zip_write queue s = (Ok zip, s')
    /\ trace s' = (trace s ++ MakeDirs (join w "generated" "queues") :: rest)%list
    /\ Forall quiet rest
    /\ session s' = session s /\ history s' = history s.
Proof.
  set (s0 := record (MakeDirs (join w "generated" "queues")) s).
  set (zip := join w (join w "generated" "queues")
                ("queue_" +:+ pretty (queue_id queue) +:+ "_"
                 +:+ queue_name queue +:+ ".zip")).
  set (m := (answer (zip_open zip) ;;
             let* rows := asset_rows queue in
             add_assets w zip_write zip rows ;;
             ret (Some zip)) : M (option string)).
  assert (Hrest : emits quiet m).
  { unfold m. apply emits_bind; [apply emits_answer|]. intros _.
    apply emits_bind.
    - unfold asset_rows. apply emits_bind; [apply emits_query|].
      intros d. apply emits_ret.
    - intros rows. apply emits_bind; [apply emits_quiet_add_assets|].
      intros _. apply emits_ret. }
  assert (Hshape : create_bulk_zip w zip_open zip_write queue s
                   = match makedirs w (join w "generated" "queues") with
                     | Ok _ => match m s0 with
                               | (Ok a, s') => (Ok a, s')
                               | (Raise _, s') => (Ok None, s')
                               end
                     | Raise _ => (Ok None, s0)
                     end).
  { unfold create_bulk_zip, try_except. cbv zeta. fold zip. rewrite bind_run.
    unfold call at 1. fold s0.
    destruct (makedirs w (join w "generated" "queues")) as [[]|e]; reflexivity. }
  rewrite Hshape. clear Hshape.
  destruct (makedirs w (join w "generated" "queues")) as [[]|e].
  - destruct (Hrest s0) as (rest & Ht & Hq & Hs & Hh).
    destruct (m s0) as [[found|e] s1]; cbn [snd] in Ht, Hs, Hh;
      eexists _, _, rest; (split; [reflexivity|]);
      rewrite Ht, Hs, Hh; unfold s0; cbn [trace session history record];
      rewrite <- app_assoc; repeat split; assumption.
  - eexists _, _, []. split; [reflexivity|].
    unfold s0. cbn [trace session history record].
    repeat split. constructor.
Qed.

(** X30. [process_asset_queue_task] on a usable session.  For a queue that
    is not found it raises and does nothing else.  For a queue that is
    found, when the database takes the commits (it is up and the cache keys
    of the session are unique), the task returns with the queue 'completed'
    and stamped, also when every asset failed; the counter of the queue
    goes up by the number of assets set to 'completed'; the only values
    assigned to a status column are 'completed' and 'failed', on jobs of
    the queue; every such assignment is committed, as are the two of the
    queue; and the directory of the archives is made exactly when the
    counter is positive at the end.  When the database refuses the first
    commit, the handler cannot ask for the queue again: the task raises and
    nothing is stored. *)
Theorem process_asset_queue_task_completes (number : Z) (queue : AssetQueue)
  (s : state) :
  inactive s = false ->
  process_asset_queue_task w zip_open zip_write number None s
  = (Raise (Exception ("Queue " +:+ pretty number +:+ " not found")), s)
  /\ (database_up w -> unique_keys (cache (session s)) ->
      exists final s' new stored,
        process_asset_queue_task w zip_open zip_write number (Some queue) s
        = (Ok final, s')
        /\ trace s' = (trace s ++ new)%list
        /\ history s' = (history s ++ stored)%list
        /\ length stored = (2 + length (status_writes new))%nat
        /\ inactive s' = false
        /\ queue_status final = "completed"
        /\ queue_completed_at final = Some (utcnow w)
        /\ completed_items final
           = completed_items queue + Z.of_nat (completions new)
        /\ Forall (settles_one_of (queue_rows queue (session s)))
                  (status_writes new)
        /\ (completed_items final <= 0 ->
            Forall no_archive new /\ zip_path final = zip_path queue)
        /\ (0 < completed_items final ->
            In (MakeDirs (join w "generated" "queues")) new)
        /\ assets final = assets queue)
  /\ (forall e,
        database_answer (db_flush w) (session s) = Raise e ->
        process_asset_queue_task w zip_open zip_write number (Some queue) s
        = (Raise pending_rollback,
           {| trace := (trace s ++ [Commit; FlushFailed])%list;
              session := session s; history := history s |})).
Proof.
  intros Ha. split; [|split].
  - unfold process_asset_queue_task, try_except, raise, bind, query.
    rewrite Ha. reflexivity.
  - intros Hup Hu.
    set (q0 := with_queue_status "processing" queue).
    set (s0 := {| trace := (trace s ++ [Commit])%list; session := session s;
                  history := (history s ++ [session s])%list |}).
    assert (Ha0 : inactive s0 = false).
    { unfold inactive, s0. cbn [trace]. rewrite existsb_app.
      fold (inactive s). rewrite Ha. reflexivity. }
    destruct (process_assets_run q0 (queue_rows queue (session s)) s0 Hup Hu Ha0)
      as (q1 & s1 & n1 & st1 & Hrun1 & Ht1 & Hh1 & Hl1 & Hc1 & Ha1 & Hz1 & Hq1 & Hw1).
    assert (Hzip : exists q2 s2 n2,
              (if 0 <? completed_items q1
               then let* zip := create_bulk_zip w zip_open zip_write q1 in
                    ret (with_zip_path zip q1)
               else ret q1) s1 = (Ok q2, s2)
              /\ trace s2 = (trace s1 ++ n2)%list /\ Forall quiet n2
              /\ session s2 = session s1 /\ history s2 = history s1
              /\ ((q2 = q1 /\ n2 = [] /\ completed_items q1 <= 0)
                  \/ (0 < completed_items q1
                      /\ In (MakeDirs (join w "generated" "queues")) n2
                      /\ exists zip, q2 = with_zip_path zip q1))).
    { destruct (Z.ltb_spec 0 (completed_items q1)) as [Hpos|Hnone].
      - destruct (create_bulk_zip_run q1 s1)
          as (zip & s2 & rest & Hz & Ht2 & Hq2 & Hs2 & Hh2).
        exists (with_zip_path zip q1), s2,
          (MakeDirs (join w "generated" "queues") :: rest).
        split; [rewrite bind_run, Hz; reflexivity|].
        split; [exact Ht2|]. split; [constructor; [exact I|exact Hq2]|].
        split; [exact Hs2|]. split; [exact Hh2|].
        right. split; [exact Hpos|]. split; [left; reflexivity|].
        exists zip. reflexivity.
      - exists q1, s1, []. split; [reflexivity|].
        split; [rewrite app_nil_r; reflexivity|]. split; [constructor|].
        split; [reflexivity|]. split; [reflexivity|].
        left. split; [reflexivity|]. split; [reflexivity|exact Hnone]. }
    destruct Hzip as (q2 & s2 & n2 & Hrun2 & Ht2 & Hqt2 & Hs2 & Hh2 & Hq2).
    assert (Ha2 : inactive s2 = false).
    { rewrite (inactive_quiet s1 s2 n2 Ht2 Hqt2). exact Ha1. }
    assert (Hu2 : unique_keys (cache (session s2))).
    { rewrite Hs2, Hc1. exact Hu. }
    eexists _, _, ([Commit] ++ n1 ++ n2 ++ [Commit])%list,
      ([session s] ++ st1 ++ [session s2])%list.
    split.
    { unfold process_asset_queue_task, try_except, process_queue.
      rewrite bind_run, (commit_accepted s Hup Hu Ha). fold s0.
      rewrite bind_run. unfold asset_rows at 1.
      rewrite bind_run. unfold query at 1. rewrite Ha0. cbn [ret].
      change (omap (fun job => jobs (session s0) !! job)
                   (assets (with_queue_status "processing" queue)))
        with (queue_rows queue (session s)).
      rewrite bind_run. fold q0. rewrite Hrun1, bind_run, Hrun2, bind_run.
      rewrite (commit_accepted s2 Hup Hu2 Ha2). reflexivity. }
    cbn [trace session history].
    split; [rewrite Ht2, Ht1; unfold s0; cbn [trace]; rewrite <- !app_assoc;
            reflexivity|].
    split; [rewrite Hh2, Hh1; unfold s0; cbn [history]; rewrite <- !app_assoc;
            reflexivity|].
    assert (Hwrites : status_writes ([Commit] ++ n1 ++ n2 ++ [Commit])
                      = status_writes n1).
    { rewrite !status_writes_app, (status_writes_quiet n2 Hqt2). cbn.
      rewrite app_nil_r. reflexivity. }
    assert (Hcount : completions ([Commit] ++ n1 ++ n2 ++ [Commit])
                     = completions n1).
    { unfold completions. rewrite Hwrites. reflexivity. }
    rewrite Hwrites, Hcount.
    split; [rewrite !length_app, Hl1; cbn; lia|].
    split.
    { unfold inactive. cbn [trace]. rewrite existsb_app.
      fold (inactive s2). rewrite Ha2. reflexivity. }
    split; [reflexivity|]. split; [reflexivity|].
    assert (Hitems : completed_items q2
                     = completed_items queue + Z.of_nat (completions n1)).
    { destruct Hq2 as [(-> & _)|(_ & _ & zip & ->)]; rewrite Hq1; reflexivity. }
    split; [exact Hitems|]. split; [exact Hw1|].
    cbn [completed_items with_queue_status with_queue_completed_at zip_path
         assets].
    split.
    { intros Hnone. destruct Hq2 as [(-> & -> & _)|(Hpos & _)].
      - split; [|rewrite Hq1; reflexivity].
        apply Forall_app. split; [repeat constructor|].
        apply Forall_app. split; [exact Hz1|]. repeat constructor.
      - exfalso. rewrite Hitems in Hnone. rewrite Hq1 in Hpos. cbn in Hpos. lia. }
    split.
    { intros Hpos. destruct Hq2 as [(-> & _ & Hnone)|(_ & Hin & _)].
      - exfalso. lia.
      - apply in_or_app. right. apply in_or_app. right.
        apply in_or_app. left. exact Hin. }
    destruct Hq2 as [(-> & _)|(_ & _ & zip & ->)]; rewrite Hq1; reflexivity.
  - intros e Hans.
    unfold process_asset_queue_task, try_except, process_queue.
    rewrite bind_run, (commit_run (db_flush w) s Ha), Hans.
    unfold bind, query.
    replace (inactive {| trace := (trace s ++ [Commit; FlushFailed])%list;
                         session := session s; history := history s |})
      with true
      by (unfold inactive; cbn [trace]; rewrite existsb_app; cbn;
          rewrite !orb_true_r; reflexivity).
    reflexivity.
Qed.

End QueueProperties.

(** X29 at work: job 7 of the queue on a machine with Blender, where the
    generated file is found and the database is up. *)
Lemma process_asset_outcomes_witness :
  let w := blender_world (Ok (0, "", "")) true in
  Effects.inactive two_jobs_state = false
  /\ fst (QueueTask.process_asset w two_asset_queue
            (pending_job 7 "a wooden chair") two_jobs_state)
     = Ok (QueueTask.with_completed_items 1 two_asset_queue)
  /\ Models.status
       <$> Models.jobs
             (Effects.session
                (snd (QueueTask.process_asset w two_asset_queue
                        (pending_job 7 "a wooden chair") two_jobs_state))) !! 7
     = Some "completed".
Proof.
  cbv zeta. split; [reflexivity|].
  destruct (process_asset_outcomes (blender_world (Ok (0, "", "")) true)
              two_asset_queue (pending_job 7 "a wooden chair") two_jobs_state
              eq_refl) as (_ & Hfound & _).
  assert (Hg : ModelGenerator.generate_3d_model
                 (blender_world (Ok (0, "", "")) true) "a wooden chair" None
                 (Some 7) "hybrid" 7 8 "realistic" two_jobs_state
               = (Ok "generated/model_7.obj",
                  snd (ModelGenerator.generate_3d_model
                         (blender_world (Ok (0, "", "")) true) "a wooden chair"
                         None (Some 7) "hybrid" 7 8 "realistic" two_jobs_state)))
    by (vm_compute; reflexivity).
  destruct (Hfound _ _ Hg eq_refl) as (fbx & blend & s3 & s4 & _ & _ & Hok & _).
  rewrite Hok by reflexivity. split; [reflexivity|].
  vm_compute. reflexivity.
Defined.

(** X30 at work: the queue of jobs 7 and 8 on a machine with Blender whose
    database is up. *)
Lemma process_asset_queue_task_completes_witness :
  let w := blender_world (Ok (0, "", "")) true in
  let ok := fun _ : string => Ok tt in
  let ok3 := fun _ _ _ : string => Ok tt in
  Effects.inactive two_jobs_state = false
  /\ exists final s',
       QueueTask.process_asset_queue_task w ok ok3 1 (Some two_asset_queue)
         two_jobs_state = (Ok final, s')
       /\ QueueTask.queue_status final = "completed"
       /\ length (Effects.history s')
          = (2 + length (status_writes (Effects.trace s')))%nat.
Proof.
  cbv zeta. split; [reflexivity|].
  destruct (process_asset_queue_task_completes
              (blender_world (Ok (0, "", "")) true)
              (fun _ : string => Ok tt) (fun _ _ _ : string => Ok tt)
              1 two_asset_queue two_jobs_state eq_refl) as (_ & Hfound & _).
  destruct Hfound as (final & s' & new & stored & Hrun & Ht & Hh & Hl & _ & Hst & _).
  - intros d. reflexivity.
  - constructor.
  - exists final, s'. split; [exact Hrun|]. split; [exact Hst|].
    rewrite Hh, Ht. exact Hl.
Defined.

(** A queue of two assets, the second with a blank prompt.  Where the
    generated file is found, the first is completed and the second fails;
    where it is not found, the first keeps its status and the queue is
    'completed' with nothing in it. *)
Example process_asset_queue_task_sample :
  let ok := fun _ : string => Ok tt in
  let ok3 := fun _ _ _ : string => Ok tt in
  let run := fun w =>
    QueueTask.process_asset_queue_task w ok ok3 1 (Some two_asset_queue)
      two_jobs_state in
  let statuses := fun w =>
    map (fun job => Models.status <$> Models.jobs (Effects.session (snd (run w))) !! job)
        [7; 8] in
  (QueueTask.queue_status <$> fst_ok (fst (run (blender_world (Ok (0, "", "")) true))),
   QueueTask.completed_items <$> fst_ok (fst (run (blender_world (Ok (0, "", "")) true))),
   statuses (blender_world (Ok (0, "", "")) true))
  = (Some "completed", Some 1, [Some "completed"; Some "failed"])
  /\ (QueueTask.queue_status <$> fst_ok (fst (run (no_blender_world true true true))),
      QueueTask.completed_items <$> fst_ok (fst (run (no_blender_world true true true))),
      QueueTask.zip_path <$> fst_ok (fst (run (no_blender_world true true true))),
      statuses (no_blender_world true true true))
     = (Some "completed", Some 0, Some None, [Some "pending"; Some "failed"]).
Proof. cbv zeta. split; vm_compute; reflexivity. Qed.
